(** * BasedPlanning: the geometry and history core of the floor-plan editor

    A shallow embedding of
    - [src/editor/Snap] (inlined at the end of [src/app/page.tsx]):
      [calculateSnap] and [calculatePlacedObjectSnap];
    - the pointer handlers of the [RoomEditor] component
      ([src/app/page.tsx]): [updateState], [handleSvgPointerMove],
      [handleSvgPointerUp], with the helpers [getVisualBounds] and
      [visualToStorage];
    - the history manager and [deleteRoom] of [src/model/state], whose
      source is not part of the tree and which are modelled from the
      specification.

    Numbers.  The functions are embedded twice.  In the first embedding a
    JavaScript [number] holding a length in centimetres is an exact
    rational ([Q]); [Math.abs] is [Qabs], [<=] is [Qle_bool], [a / 2] is
    [Qdiv].  It carries the properties that do not depend on how an
    operation rounds: which branch runs, which test decides, what a
    handler records, equalities between two runs.  In the second
    embedding, [Doubles], a [number] is an IEEE-754 binary64 float
    ([PrimFloat.float]) and every operation rounds as in JavaScript; it
    carries the properties of the snap functions and of the rotation
    helpers that speak of the coordinates themselves.  A rotation in
    degrees is an integer ([Z]) and [%] is the truncating remainder
    [Z.rem]. *)

From Stdlib Require Import QArith Qabs Qminmax Lqa ZArith Lia.
From Stdlib Require Import List String Ascii Bool Permutation.
From Stdlib Require Floats.
Import ListNotations.

Local Open Scope Q_scope.

(** ** Data model ([src/model/types], as used by the code) *)

Module WallThickness.
(** [room.wallThickness]: every side is optional. *)
Record t := mk {
  north : option Q;
  south : option Q;
  east  : option Q;
  west  : option Q
}.
End WallThickness.

Module Room.
Record t := mk {
  id : string;
  name : string;
  xCm : Q;
  yCm : Q;
  widthCm : Q;
  heightCm : Q;
  wallThickness : option WallThickness.t
}.
End Room.

Module WallSides.
(** [type WallSides = { north; south; east; west }] *)
Record t := mk { north : Q; south : Q; east : Q; west : Q }.
End WallSides.

Module Bounds.
(** The object returned by [innerBoundsCm]. *)
Record t := mk { left : Q; right : Q; top : Q; bottom : Q }.
End Bounds.

Module OuterBounds.
(** The object returned by [outerBoundsCm]: the bounds and the resolved
    wall thickness [w]. *)
Record t := mk { left : Q; right : Q; top : Q; bottom : Q; w : WallSides.t }.
End OuterBounds.

Module SnapResult.
Record t := mk {
  xCm : Q;
  yCm : Q;
  snappedX : bool;
  snappedY : bool;
  xGuideCm : option Q;
  yGuideCm : option Q
}.
End SnapResult.

Module PlacedObjectForSnap.
Record t := mk { id : string; xCm : Q; yCm : Q; widthCm : Q; heightCm : Q }.
End PlacedObjectForSnap.

(** ** Comparisons on numbers *)

(** [a < b] on numbers. *)
Definition Qlt_bool (a b : Q) : bool := negb (Qle_bool b a).

(** [a ?? b] *)
Definition nullish {A : Type} (a : option A) (b : A) : A :=
  match a with Some v => v | None => b end.

(** [room.wallThickness?.side] *)
Definition optChain {A B : Type} (o : option A) (f : A -> option B) : option B :=
  match o with Some v => f v | None => None end.

(** ** [src/editor/Snap]: room snapping *)

Module Snap.

Definition SNAP_TOLERANCE_CM : Q := 2.
Definition WALL_SNAP_TOLERANCE_CM : Q := 15.

Definition getWallThicknessCm (room : Room.t) (globalWallThicknessCm : Q) : WallSides.t :=
  {| WallSides.north := nullish (optChain (Room.wallThickness room) WallThickness.north) globalWallThicknessCm;
     WallSides.south := nullish (optChain (Room.wallThickness room) WallThickness.south) globalWallThicknessCm;
     WallSides.east  := nullish (optChain (Room.wallThickness room) WallThickness.east) globalWallThicknessCm;
     WallSides.west  := nullish (optChain (Room.wallThickness room) WallThickness.west) globalWallThicknessCm |}.

(** [innerBoundsCm(room, xCm = room.xCm, yCm = room.yCm)]: the default
    arguments are written out at the call sites. *)
Definition innerBoundsCm (room : Room.t) (xCm yCm : Q) : Bounds.t :=
  {| Bounds.left := xCm;
     Bounds.right := xCm + Room.widthCm room;
     Bounds.top := yCm;
     Bounds.bottom := yCm + Room.heightCm room |}.

(** [outerBoundsCm(room, globalWallThicknessCm, xCm = room.xCm, yCm = room.yCm)] *)
Definition outerBoundsCm (room : Room.t) (globalWallThicknessCm : Q) (xCm yCm : Q)
  : OuterBounds.t :=
  let w := getWallThicknessCm room globalWallThicknessCm in
  {| OuterBounds.left := xCm - WallSides.west w;
     OuterBounds.right := xCm + Room.widthCm room + WallSides.east w;
     OuterBounds.top := yCm - WallSides.north w;
     OuterBounds.bottom := yCm + Room.heightCm room + WallSides.south w;
     OuterBounds.w := w |}.

(** The mutable locals of [calculateSnap]. *)
Record Locals := mkLocals {
  snappedXCm : Q;
  snappedYCm : Q;
  snappedX : bool;
  snappedY : bool;
  xGuideCm : option Q;
  yGuideCm : option Q
}.

(** [snappedXCm = x; snappedX = true; xGuideCm = g;] *)
Definition assignX (st : Locals) (x g : Q) : Locals :=
  {| snappedXCm := x; snappedYCm := snappedYCm st;
     snappedX := true; snappedY := snappedY st;
     xGuideCm := Some g; yGuideCm := yGuideCm st |}.

(** [snappedYCm = y; snappedY = true; yGuideCm = g;] *)
Definition assignY (st : Locals) (y g : Q) : Locals :=
  {| snappedXCm := snappedXCm st; snappedYCm := y;
     snappedX := snappedX st; snappedY := true;
     xGuideCm := xGuideCm st; yGuideCm := Some g |}.

(** The [=== SNAP X ===] block of the loop body. *)
Definition snapXBlock (movingRoom : Room.t) (movingOuter : OuterBounds.t)
    (otherInner : Bounds.t) (otherOuter : OuterBounds.t) (st : Locals) : Locals :=
  let movingWalls := OuterBounds.w movingOuter in
  if negb (snappedX st) then
    let dist := Qabs (OuterBounds.right movingOuter - Bounds.left otherInner) in
    let st :=
      if Qle_bool dist WALL_SNAP_TOLERANCE_CM then
        assignX st (Bounds.left otherInner - Room.widthCm movingRoom - WallSides.east movingWalls)
                   (Bounds.left otherInner)
      else st in
    let st :=
      if negb (snappedX st) then
        let dist := Qabs (OuterBounds.left movingOuter - Bounds.right otherInner) in
        if Qle_bool dist WALL_SNAP_TOLERANCE_CM then
          assignX st (Bounds.right otherInner + WallSides.west movingWalls)
                     (Bounds.right otherInner)
        else st
      else st in
    let st :=
      if negb (snappedX st) then
        let dist := Qabs (OuterBounds.left movingOuter - OuterBounds.left otherOuter) in
        if Qle_bool dist SNAP_TOLERANCE_CM then
          assignX st (OuterBounds.left otherOuter + WallSides.west movingWalls)
                     (OuterBounds.left otherOuter)
        else st
      else st in
    let st :=
      if negb (snappedX st) then
        let dist := Qabs (OuterBounds.right movingOuter - OuterBounds.right otherOuter) in
        if Qle_bool dist SNAP_TOLERANCE_CM then
          assignX st (OuterBounds.right otherOuter - Room.widthCm movingRoom - WallSides.east movingWalls)
                     (OuterBounds.right otherOuter)
        else st
      else st in
    st
  else st.

(** The [=== SNAP Y ===] block of the loop body. *)
Definition snapYBlock (movingRoom : Room.t) (movingOuter : OuterBounds.t)
    (otherInner : Bounds.t) (otherOuter : OuterBounds.t) (st : Locals) : Locals :=
  let movingWalls := OuterBounds.w movingOuter in
  if negb (snappedY st) then
    let dist := Qabs (OuterBounds.bottom movingOuter - Bounds.top otherInner) in
    let st :=
      if Qle_bool dist WALL_SNAP_TOLERANCE_CM then
        assignY st (Bounds.top otherInner - Room.heightCm movingRoom - WallSides.south movingWalls)
                   (Bounds.top otherInner)
      else st in
    let st :=
      if negb (snappedY st) then
        let dist := Qabs (OuterBounds.top movingOuter - Bounds.bottom otherInner) in
        if Qle_bool dist WALL_SNAP_TOLERANCE_CM then
          assignY st (Bounds.bottom otherInner + WallSides.north movingWalls)
                     (Bounds.bottom otherInner)
        else st
      else st in
    let st :=
      if negb (snappedY st) then
        let dist := Qabs (OuterBounds.top movingOuter - OuterBounds.top otherOuter) in
        if Qle_bool dist SNAP_TOLERANCE_CM then
          assignY st (OuterBounds.top otherOuter + WallSides.north movingWalls)
                     (OuterBounds.top otherOuter)
        else st
      else st in
    let st :=
      if negb (snappedY st) then
        let dist := Qabs (OuterBounds.bottom movingOuter - OuterBounds.bottom otherOuter) in
        if Qle_bool dist SNAP_TOLERANCE_CM then
          assignY st (OuterBounds.bottom otherOuter - Room.heightCm movingRoom - WallSides.south movingWalls)
                     (OuterBounds.bottom otherOuter)
        else st
      else st in
    st
  else st.

(** One iteration of [for (const other of others)], up to the [break]. *)
Definition snapBody (movingRoom : Room.t) (movingOuter : OuterBounds.t)
    (globalWallThicknessCm : Q) (other : Room.t) (st : Locals) : Locals :=
  let otherInner := innerBoundsCm other (Room.xCm other) (Room.yCm other) in
  let otherOuter := outerBoundsCm other globalWallThicknessCm (Room.xCm other) (Room.yCm other) in
  snapYBlock movingRoom movingOuter otherInner otherOuter
    (snapXBlock movingRoom movingOuter otherInner otherOuter st).

(** The loop, with [if (snappedX && snappedY) break;]. *)
Fixpoint snapLoop (movingRoom : Room.t) (movingOuter : OuterBounds.t)
    (globalWallThicknessCm : Q) (others : list Room.t) (st : Locals) : Locals :=
  match others with
  | [] => st
  | other :: rest =>
      let st' := snapBody movingRoom movingOuter globalWallThicknessCm other st in
      if snappedX st' && snappedY st' then st'
      else snapLoop movingRoom movingOuter globalWallThicknessCm rest st'
  end.

(** The same loop, returning the neighbours on which the body ran (a ghost
    result of the traversal, used to state where the iteration stops). *)
Fixpoint snapLoopExamined (movingRoom : Room.t) (movingOuter : OuterBounds.t)
    (globalWallThicknessCm : Q) (others : list Room.t) (st : Locals) : list Room.t :=
  match others with
  | [] => []
  | other :: rest =>
      let st' := snapBody movingRoom movingOuter globalWallThicknessCm other st in
      other :: (if snappedX st' && snappedY st' then []
                else snapLoopExamined movingRoom movingOuter globalWallThicknessCm rest st')
  end.

(** [allRooms.filter((r) => r.id !== movingRoom.id)] *)
Definition othersOf (movingRoom : Room.t) (allRooms : list Room.t) : list Room.t :=
  filter (fun r => negb (String.eqb (Room.id r) (Room.id movingRoom))) allRooms.

Definition initLocals (targetXCm targetYCm : Q) : Locals :=
  {| snappedXCm := targetXCm; snappedYCm := targetYCm;
     snappedX := false; snappedY := false;
     xGuideCm := None; yGuideCm := None |}.

Definition calculateSnap (movingRoom : Room.t) (allRooms : list Room.t)
    (targetXCm targetYCm : Q) (globalWallThicknessCm : Q) : SnapResult.t :=
  let others := othersOf movingRoom allRooms in
  let movingOuter := outerBoundsCm movingRoom globalWallThicknessCm targetXCm targetYCm in
  let st := snapLoop movingRoom movingOuter globalWallThicknessCm others
              (initLocals targetXCm targetYCm) in
  {| SnapResult.xCm := snappedXCm st;
     SnapResult.yCm := snappedYCm st;
     SnapResult.snappedX := snappedX st;
     SnapResult.snappedY := snappedY st;
     SnapResult.xGuideCm := xGuideCm st;
     SnapResult.yGuideCm := yGuideCm st |}.

(** The neighbours examined by the loop of [calculateSnap]. *)
Definition examinedNeighbours (movingRoom : Room.t) (allRooms : list Room.t)
    (targetXCm targetYCm : Q) (globalWallThicknessCm : Q) : list Room.t :=
  snapLoopExamined movingRoom
    (outerBoundsCm movingRoom globalWallThicknessCm targetXCm targetYCm)
    globalWallThicknessCm (othersOf movingRoom allRooms)
    (initLocals targetXCm targetYCm).

End Snap.

(** ** [src/editor/Snap]: snapping of a placed object *)

Module ObjectSnap.

Definition OBJECT_SNAP_TOLERANCE_CM : Q := 25.
Definition OBJECT_TO_OBJECT_SNAP_TOLERANCE_CM : Q := 15.

(** The mutable locals of [calculatePlacedObjectSnap]. *)
Record Locals := mkLocals {
  snappedX : bool;
  snappedY : bool;
  snappedXCm : Q;
  snappedYCm : Q;
  xGuideCm : option Q;
  yGuideCm : option Q;
  bestSnapDistX : Q;
  bestSnapDistY : Q
}.

(** The shape shared by every X test of the function:
    [if (dist <= tolerance && dist < bestSnapDistX)
       { snappedXCm = pos; snappedX = true; xGuideCm = guide; bestSnapDistX = dist; }] *)
Definition testX (dist tolerance pos guide : Q) (st : Locals) : Locals :=
  if Qle_bool dist tolerance && Qlt_bool dist (bestSnapDistX st) then
    {| snappedX := true; snappedY := snappedY st;
       snappedXCm := pos; snappedYCm := snappedYCm st;
       xGuideCm := Some guide; yGuideCm := yGuideCm st;
       bestSnapDistX := dist; bestSnapDistY := bestSnapDistY st |}
  else st.

(** The shape shared by every Y test of the function. *)
Definition testY (dist tolerance pos guide : Q) (st : Locals) : Locals :=
  if Qle_bool dist tolerance && Qlt_bool dist (bestSnapDistY st) then
    {| snappedX := snappedX st; snappedY := true;
       snappedXCm := snappedXCm st; snappedYCm := pos;
       xGuideCm := xGuideCm st; yGuideCm := Some guide;
       bestSnapDistX := bestSnapDistX st; bestSnapDistY := dist |}
  else st.

(** [currentObjectId && other.id === currentObjectId]: an absent or empty
    [currentObjectId] is falsy. *)
Definition isCurrent (currentObjectId : option string) (other : PlacedObjectForSnap.t) : bool :=
  match currentObjectId with
  | Some cur => negb (String.eqb cur EmptyString) && String.eqb (PlacedObjectForSnap.id other) cur
  | None => false
  end.

(** The four wall tests, in source order. *)
Definition snapToWalls (objWidthCm objHeightCm : Q) (room : Room.t)
    (targetXCm targetYCm toleranceCm : Q) (st : Locals) : Locals :=
  let leftEdge := Room.xCm room in
  let rightEdge := Room.xCm room + Room.widthCm room in
  let topEdge := Room.yCm room in
  let bottomEdge := Room.yCm room + Room.heightCm room in
  let objLeft := targetXCm in
  let objRight := targetXCm + objWidthCm in
  let objTop := targetYCm in
  let objBottom := targetYCm + objHeightCm in
  let distLeftToWall := Qabs (objLeft - leftEdge) in
  let st := testX distLeftToWall toleranceCm leftEdge leftEdge st in
  let distRightToWall := Qabs (objRight - rightEdge) in
  let st := testX distRightToWall toleranceCm (rightEdge - objWidthCm) rightEdge st in
  let distTopToWall := Qabs (objTop - topEdge) in
  let st := testY distTopToWall toleranceCm topEdge topEdge st in
  let distBottomToWall := Qabs (objBottom - bottomEdge) in
  let st := testY distBottomToWall toleranceCm (bottomEdge - objHeightCm) bottomEdge st in
  st.

(** The body of [for (const other of otherObjects)]. *)
Definition snapToOther (objWidthCm objHeightCm : Q) (targetXCm targetYCm : Q)
    (currentObjectId : option string) (st : Locals) (other : PlacedObjectForSnap.t) : Locals :=
  let objSnapTolerance := OBJECT_TO_OBJECT_SNAP_TOLERANCE_CM in
  let objLeft := targetXCm in
  let objRight := targetXCm + objWidthCm in
  let objTop := targetYCm in
  let objBottom := targetYCm + objHeightCm in
  if isCurrent currentObjectId other then st
  else
    let otherLeft := PlacedObjectForSnap.xCm other in
    let otherRight := PlacedObjectForSnap.xCm other + PlacedObjectForSnap.widthCm other in
    let otherTop := PlacedObjectForSnap.yCm other in
    let otherBottom := PlacedObjectForSnap.yCm other + PlacedObjectForSnap.heightCm other in
    let distLeftToOtherRight := Qabs (objLeft - otherRight) in
    let st := testX distLeftToOtherRight objSnapTolerance otherRight otherRight st in
    let distRightToOtherLeft := Qabs (objRight - otherLeft) in
    let st := testX distRightToOtherLeft objSnapTolerance (otherLeft - objWidthCm) otherLeft st in
    let distLeftToOtherLeft := Qabs (objLeft - otherLeft) in
    let st := testX distLeftToOtherLeft objSnapTolerance otherLeft otherLeft st in
    let distRightToOtherRight := Qabs (objRight - otherRight) in
    let st := testX distRightToOtherRight objSnapTolerance (otherRight - objWidthCm) otherRight st in
    let distTopToOtherBottom := Qabs (objTop - otherBottom) in
    let st := testY distTopToOtherBottom objSnapTolerance otherBottom otherBottom st in
    let distBottomToOtherTop := Qabs (objBottom - otherTop) in
    let st := testY distBottomToOtherTop objSnapTolerance (otherTop - objHeightCm) otherTop st in
    let distTopToOtherTop := Qabs (objTop - otherTop) in
    let st := testY distTopToOtherTop objSnapTolerance otherTop otherTop st in
    let distBottomToOtherBottom := Qabs (objBottom - otherBottom) in
    let st := testY distBottomToOtherBottom objSnapTolerance (otherBottom - objHeightCm) otherBottom st in
    st.

Definition initLocals (targetXCm targetYCm toleranceCm : Q) : Locals :=
  {| snappedX := false; snappedY := false;
     snappedXCm := targetXCm; snappedYCm := targetYCm;
     xGuideCm := None; yGuideCm := None;
     bestSnapDistX := toleranceCm + 1; bestSnapDistY := toleranceCm + 1 |}.

(** [calculatePlacedObjectSnap(objWidthCm, objHeightCm, room, targetXCm,
    targetYCm, toleranceCm = OBJECT_SNAP_TOLERANCE_CM, otherObjects = [],
    currentObjectId?)]; a caller that omits [toleranceCm] or [otherObjects]
    passes the defaults. *)
Definition calculatePlacedObjectSnap (objWidthCm objHeightCm : Q) (room : Room.t)
    (targetXCm targetYCm : Q) (toleranceCm : Q)
    (otherObjects : list PlacedObjectForSnap.t) (currentObjectId : option string)
  : SnapResult.t :=
  let st := snapToWalls objWidthCm objHeightCm room targetXCm targetYCm toleranceCm
              (initLocals targetXCm targetYCm toleranceCm) in
  let st := fold_left (snapToOther objWidthCm objHeightCm targetXCm targetYCm currentObjectId)
              otherObjects st in
  {| SnapResult.xCm := snappedXCm st;
     SnapResult.yCm := snappedYCm st;
     SnapResult.snappedX := snappedX st;
     SnapResult.snappedY := snappedY st;
     SnapResult.xGuideCm := xGuideCm st;
     SnapResult.yGuideCm := yGuideCm st |}.

(** *** The snap targets tested on each axis

    A target is what one [if] of the function tests: the distance of the
    object's edge to the target edge, the tolerance that applies to it, and
    the position the object takes when the target is chosen. *)
Record Target := mkTarget { dist : Q; tolerance : Q; pos : Q }.

Definition withinTolerance (c : Target) : Prop := dist c <= tolerance c.

Definition wallTargetsX (objWidthCm : Q) (room : Room.t) (targetXCm toleranceCm : Q)
  : list Target :=
  let leftEdge := Room.xCm room in
  let rightEdge := Room.xCm room + Room.widthCm room in
  [ mkTarget (Qabs (targetXCm - leftEdge)) toleranceCm leftEdge;
    mkTarget (Qabs (targetXCm + objWidthCm - rightEdge)) toleranceCm (rightEdge - objWidthCm) ].

Definition wallTargetsY (objHeightCm : Q) (room : Room.t) (targetYCm toleranceCm : Q)
  : list Target :=
  let topEdge := Room.yCm room in
  let bottomEdge := Room.yCm room + Room.heightCm room in
  [ mkTarget (Qabs (targetYCm - topEdge)) toleranceCm topEdge;
    mkTarget (Qabs (targetYCm + objHeightCm - bottomEdge)) toleranceCm (bottomEdge - objHeightCm) ].

Definition otherTargetsX (objWidthCm targetXCm : Q) (currentObjectId : option string)
    (other : PlacedObjectForSnap.t) : list Target :=
  if isCurrent currentObjectId other then []
  else
    let otherLeft := PlacedObjectForSnap.xCm other in
    let otherRight := PlacedObjectForSnap.xCm other + PlacedObjectForSnap.widthCm other in
    let t := OBJECT_TO_OBJECT_SNAP_TOLERANCE_CM in
    [ mkTarget (Qabs (targetXCm - otherRight)) t otherRight;
      mkTarget (Qabs (targetXCm + objWidthCm - otherLeft)) t (otherLeft - objWidthCm);
      mkTarget (Qabs (targetXCm - otherLeft)) t otherLeft;
      mkTarget (Qabs (targetXCm + objWidthCm - otherRight)) t (otherRight - objWidthCm) ].

Definition otherTargetsY (objHeightCm targetYCm : Q) (currentObjectId : option string)
    (other : PlacedObjectForSnap.t) : list Target :=
  if isCurrent currentObjectId other then []
  else
    let otherTop := PlacedObjectForSnap.yCm other in
    let otherBottom := PlacedObjectForSnap.yCm other + PlacedObjectForSnap.heightCm other in
    let t := OBJECT_TO_OBJECT_SNAP_TOLERANCE_CM in
    [ mkTarget (Qabs (targetYCm - otherBottom)) t otherBottom;
      mkTarget (Qabs (targetYCm + objHeightCm - otherTop)) t (otherTop - objHeightCm);
      mkTarget (Qabs (targetYCm - otherTop)) t otherTop;
      mkTarget (Qabs (targetYCm + objHeightCm - otherBottom)) t (otherBottom - objHeightCm) ].

(** Every target the function tests on the X axis, in the order of the tests. *)
Definition targetsX (objWidthCm : Q) (room : Room.t) (targetXCm toleranceCm : Q)
    (otherObjects : list PlacedObjectForSnap.t) (currentObjectId : option string)
  : list Target :=
  wallTargetsX objWidthCm room targetXCm toleranceCm
  ++ flat_map (otherTargetsX objWidthCm targetXCm currentObjectId) otherObjects.

(** Every target the function tests on the Y axis, in the order of the tests. *)
Definition targetsY (objHeightCm : Q) (room : Room.t) (targetYCm toleranceCm : Q)
    (otherObjects : list PlacedObjectForSnap.t) (currentObjectId : option string)
  : list Target :=
  wallTargetsY objHeightCm room targetYCm toleranceCm
  ++ flat_map (otherTargetsY objHeightCm targetYCm currentObjectId) otherObjects.

(** *** One axis of the function

    The function runs its X tests and its Y tests on separate locals. *)

(** What the function tracks for one axis: the position, the snapped flag
    and the best distance so far. *)
Record Best := mkBest { bestPos : Q; bestSnapped : bool; bestDist : Q }.

(** One test on a target, seen on its axis alone. *)
Definition pick (b : Best) (c : Target) : Best :=
  if Qle_bool (dist c) (tolerance c) && Qlt_bool (dist c) (bestDist b)
  then mkBest (pos c) true (dist c)
  else b.

Definition bestX (st : Locals) : Best :=
  mkBest (snappedXCm st) (snappedX st) (bestSnapDistX st).

Definition bestY (st : Locals) : Best :=
  mkBest (snappedYCm st) (snappedY st) (bestSnapDistY st).

(** What the fold keeps for an axis, from the initial locals. *)
Definition kept (cs : list Target) (target tol : Q) : Best :=
  fold_left pick cs (mkBest target false (tol + 1)).

End ObjectSnap.

(** ** The document state ([src/model/types]) *)

Inductive WallSide := north | south | east | west.
Inductive OpeningType := door | window.

Module WallOpening.
Record t := mk {
  id : string;
  roomId : string;
  wall : WallSide;
  positionCm : Q;
  widthCm : Q;
  type : OpeningType
}.
End WallOpening.

Module ObjectDef.
Record t := mk { id : string; name : string; widthCm : Q; heightCm : Q }.
End ObjectDef.

Module PlacedObject.
Record t := mk {
  id : string;
  defId : string;
  roomId : string;
  xCm : Q;
  yCm : Q;
  rotationDeg : option Z
}.
End PlacedObject.

Module AppState.
Record t := mk {
  rooms : list Room.t;
  wallOpenings : list WallOpening.t;
  objectDefs : list ObjectDef.t;
  placedObjects : list PlacedObject.t;
  selectedRoomIds : list string;
  selectedObjectId : option string;
  globalWallThicknessCm : Q;
  panX : Q;
  panY : Q;
  zoom : Q
}.
End AppState.

Module HistoryState.
Record t := mk {
  past : list AppState.t;
  present : AppState.t;
  future : list AppState.t
}.
End HistoryState.

(** ** [src/model/state]: history manager and room deletion *)

Module State.

(** Modelled from the spec: [recordHistory] of [src/model/state] is not in
    the source tree.  Section 4.5: it pushes the previous [present] onto
    [past] (oldest first), sets [present = newState], clears [future]. *)
Definition recordHistory (history : HistoryState.t) (newState : AppState.t) : HistoryState.t :=
  {| HistoryState.past := HistoryState.past history ++ [HistoryState.present history];
     HistoryState.present := newState;
     HistoryState.future := [] |}.

(** Modelled from the spec: [undo] of [src/model/state] is not in the
    source tree.  Section 4.5: a no-op if [past] is empty; otherwise it
    pops the most recent [past] entry into [present] and pushes the old
    [present] onto [future].  The redo stack has its top at the head. *)
Definition undo (history : HistoryState.t) : HistoryState.t :=
  match HistoryState.past history with
  | [] => history
  | p :: ps =>
      {| HistoryState.past := removelast (p :: ps);
         HistoryState.present := last (p :: ps) p;
         HistoryState.future := HistoryState.present history :: HistoryState.future history |}
  end.

(** Modelled from the spec: [redo] of [src/model/state] is not in the
    source tree.  Section 4.5: symmetric to [undo]: a no-op if [future] is
    empty; otherwise it pops the top of [future] into [present] and pushes
    the old [present] onto [past]. *)
Definition redo (history : HistoryState.t) : HistoryState.t :=
  match HistoryState.future history with
  | [] => history
  | f :: fs =>
      {| HistoryState.past := HistoryState.past history ++ [HistoryState.present history];
         HistoryState.present := f;
         HistoryState.future := fs |}
  end.

(** [n] consecutive calls of a history operation. *)
Fixpoint repeatOp (n : nat) (op : HistoryState.t -> HistoryState.t)
    (history : HistoryState.t) : HistoryState.t :=
  match n with
  | O => history
  | S k => repeatOp k op (op history)
  end.

(** Consecutive [recordHistory] calls, one per state of the list. *)
Definition recordAll (history : HistoryState.t) (newStates : list AppState.t) : HistoryState.t :=
  fold_left recordHistory newStates history.

(** Modelled from the spec: [deleteRoom] of [src/model/state] is not in the
    source tree.  Sections 3 and 4.4: entities are destroyed by filtering
    them out of their list, and deleting a room also removes the wall
    openings and the placed objects that reference its id.  The spec names
    no other field that changes. *)
Definition deleteRoom (state : AppState.t) (roomId : string) : AppState.t :=
  {| AppState.rooms :=
       filter (fun r => negb (String.eqb (Room.id r) roomId)) (AppState.rooms state);
     AppState.wallOpenings :=
       filter (fun o => negb (String.eqb (WallOpening.roomId o) roomId)) (AppState.wallOpenings state);
     AppState.objectDefs := AppState.objectDefs state;
     AppState.placedObjects :=
       filter (fun p => negb (String.eqb (PlacedObject.roomId p) roomId)) (AppState.placedObjects state);
     AppState.selectedRoomIds := AppState.selectedRoomIds state;
     AppState.selectedObjectId := AppState.selectedObjectId state;
     AppState.globalWallThicknessCm := AppState.globalWallThicknessCm state;
     AppState.panX := AppState.panX state;
     AppState.panY := AppState.panY state;
     AppState.zoom := AppState.zoom state |}.

End State.

(** ** [src/app/page.tsx]: the pointer handlers of [RoomEditor] *)

Inductive TargetType := targetRoom | targetPlaced | targetResize.

Module MultiDragRoom.
Record t := mk { id : string; startXCm : Q; startYCm : Q }.
End MultiDragRoom.

Module RoomMove.
(** An element of the array passed to [State.moveRooms]. *)
Record t := mk { id : string; xCm : Q; yCm : Q }.
End RoomMove.

Module ExtendedDragState.
Record t := mk {
  roomId : string;
  startX : Q;
  startY : Q;
  roomStartX : Q;
  roomStartY : Q;
  targetType : option TargetType;
  resizeHandle : option string;
  initialRoom : option Room.t;
  multiDragRooms : option (list MultiDragRoom.t)
}.
End ExtendedDragState.

Module PointerEvent.
Record t := mk { clientX : Q; clientY : Q; pointerId : Z }.
End PointerEvent.

Module VisualBounds.
(** The object returned by [getVisualBounds]. *)
Record t := mk { x : Q; y : Q; w : Q; h : Q }.
End VisualBounds.

Module StorageCoords.
(** The object returned by [visualToStorage]. *)
Record t := mk { xCm : Q; yCm : Q }.
End StorageCoords.

Module Editor.

(** The component state that the pointer-move and pointer-up handlers read
    and write: the [history] and [dragState] state variables, the snap
    indicator, and whether [svgRef.current] is set. *)
Record t := mk {
  history : HistoryState.t;
  dragState : option ExtendedDragState.t;
  currentSnapResult : option SnapResult.t;
  svgMounted : bool
}.

Definition setHistory (ed : t) (updater : HistoryState.t -> HistoryState.t) : t :=
  {| history := updater (history ed); dragState := dragState ed;
     currentSnapResult := currentSnapResult ed; svgMounted := svgMounted ed |}.

Definition setDragState (ed : t) (d : option ExtendedDragState.t) : t :=
  {| history := history ed; dragState := d;
     currentSnapResult := currentSnapResult ed; svgMounted := svgMounted ed |}.

Definition setCurrentSnapResult (ed : t) (s : option SnapResult.t) : t :=
  {| history := history ed; dragState := dragState ed;
     currentSnapResult := s; svgMounted := svgMounted ed |}.

(** [{ ...prev, present: newState }] *)
Definition withPresent (prev : HistoryState.t) (newState : AppState.t) : HistoryState.t :=
  {| HistoryState.past := HistoryState.past prev;
     HistoryState.present := newState;
     HistoryState.future := HistoryState.future prev |}.

(** [updateState(newState, recordInHistory = true)] *)
Definition updateState (ed : t) (newState : AppState.t) (recordInHistory : bool) : t :=
  setHistory ed (fun prev =>
    if recordInHistory then State.recordHistory prev newState
    else withPresent prev newState).

(** [rotationDeg % 180 !== 0] *)
Definition isRotated (rotationDeg : Z) : bool := negb (Z.eqb (Z.rem rotationDeg 180) 0).

Definition getVisualBounds (objXCm objYCm origW origH : Q) (rotationDeg : Z) : VisualBounds.t :=
  if negb (isRotated rotationDeg) then
    {| VisualBounds.x := objXCm; VisualBounds.y := objYCm;
       VisualBounds.w := origW; VisualBounds.h := origH |}
  else
    let centerX := objXCm + origW / 2 in
    let centerY := objYCm + origH / 2 in
    let newW := origH in
    let newH := origW in
    {| VisualBounds.x := centerX - newW / 2;
       VisualBounds.y := centerY - newH / 2;
       VisualBounds.w := newW;
       VisualBounds.h := newH |}.

Definition visualToStorage (visualX visualY origW origH : Q) (rotationDeg : Z) : StorageCoords.t :=
  if negb (isRotated rotationDeg) then
    {| StorageCoords.xCm := visualX; StorageCoords.yCm := visualY |}
  else
    let newW := origH in
    let newH := origW in
    let centerX := visualX + newW / 2 in
    let centerY := visualY + newH / 2 in
    {| StorageCoords.xCm := centerX - origW / 2;
       StorageCoords.yCm := centerY - origH / 2 |}.

(** [handle.includes(c)] *)
Definition includes (handle c : string) : bool :=
  match String.index 0 c handle with Some _ => true | None => false end.

(** *** The handlers

    The functions of [src/editor/Interaction] and the mutators of
    [src/model/state] that the handlers call are not in the source tree;
    the handlers are parametrised by them. *)
Section Handlers.

Variable getSvgCoordinates : PointerEvent.t -> Q -> Q -> Q -> Q * Q.
Variable calculateDragPosition : ExtendedDragState.t -> Q -> Q -> Q * Q.
Variable svgPixelsToCm : Q -> Q -> Q * Q.
Variable constrainRoomPosition : Q -> Q -> Q * Q.
Variable getRoomById : AppState.t -> string -> option Room.t.
Variable updateViewport : AppState.t -> Q -> Q -> Q -> AppState.t.
Variable resizeRoom : AppState.t -> string -> Q -> Q -> Q -> Q -> AppState.t.
Variable updatePlacedObjectPosition : AppState.t -> string -> Q -> Q -> AppState.t.
Variable moveRooms : AppState.t -> list RoomMove.t -> AppState.t.

(** The resize branch of [handleSvgPointerMove]. *)
Definition moveResize (ed : t) (appState : AppState.t) (dragState : ExtendedDragState.t)
    (initial : Room.t) (handle : string) (xCm yCm : Q) : t :=
  let deltaCmX := xCm - fst (svgPixelsToCm (ExtendedDragState.startX dragState) 0) in
  let deltaCmY := yCm - snd (svgPixelsToCm 0 (ExtendedDragState.startY dragState)) in
  let newX := Room.xCm initial in
  let newY := Room.yCm initial in
  let newW := Room.widthCm initial in
  let newH := Room.heightCm initial in
  let newW := if includes handle "e" then Qmax 10 (Room.widthCm initial + deltaCmX) else newW in
  let '(newX, newW) :=
    if includes handle "w" then
      let delta := Qmin deltaCmX (Room.widthCm initial - 10) in
      (Room.xCm initial + delta, Room.widthCm initial - delta)
    else (newX, newW) in
  let newH := if includes handle "s" then Qmax 10 (Room.heightCm initial + deltaCmY) else newH in
  let '(newY, newH) :=
    if includes handle "n" then
      let delta := Qmin deltaCmY (Room.heightCm initial - 10) in
      (Room.yCm initial + delta, Room.heightCm initial - delta)
    else (newY, newH) in
  updateState ed
    (resizeRoom appState (ExtendedDragState.roomId dragState) newX newY newW newH) false.

(** [otherObjectsInRoom]: the other objects of the room, by their visual
    bounds; an object whose definition is missing is dropped. *)
Definition otherObjectsInRoom (appState : AppState.t) (room : Room.t)
    (placed : PlacedObject.t) : list PlacedObjectForSnap.t :=
  flat_map
    (fun p =>
       match find (fun d => String.eqb (ObjectDef.id d) (PlacedObject.defId p))
                  (AppState.objectDefs appState) with
       | None => []
       | Some objDef =>
           let visual := getVisualBounds (PlacedObject.xCm p) (PlacedObject.yCm p)
                           (ObjectDef.widthCm objDef) (ObjectDef.heightCm objDef)
                           (nullish (PlacedObject.rotationDeg p) 0%Z) in
           [ {| PlacedObjectForSnap.id := PlacedObject.id p;
                PlacedObjectForSnap.xCm := VisualBounds.x visual;
                PlacedObjectForSnap.yCm := VisualBounds.y visual;
                PlacedObjectForSnap.widthCm := VisualBounds.w visual;
                PlacedObjectForSnap.heightCm := VisualBounds.h visual |} ]
       end)
    (filter (fun p => String.eqb (PlacedObject.roomId p) (Room.id room)
                      && negb (String.eqb (PlacedObject.id p) (PlacedObject.id placed)))
            (AppState.placedObjects appState)).

(** The placed-object branch of [handleSvgPointerMove]. *)
Definition movePlaced (ed : t) (appState : AppState.t) (dragState : ExtendedDragState.t)
    (xCm yCm : Q) : t :=
  match find (fun p => String.eqb (PlacedObject.id p) (ExtendedDragState.roomId dragState))
             (AppState.placedObjects appState) with
  | None => ed
  | Some placed =>
      match find (fun d => String.eqb (ObjectDef.id d) (PlacedObject.defId placed))
                 (AppState.objectDefs appState),
            find (fun r => String.eqb (Room.id r) (PlacedObject.roomId placed))
                 (AppState.rooms appState) with
      | Some def, Some room =>
          let currentRotation := nullish (PlacedObject.rotationDeg placed) 0%Z in
          let visualBounds := getVisualBounds xCm yCm (ObjectDef.widthCm def)
                                (ObjectDef.heightCm def) currentRotation in
          let snapRes := ObjectSnap.calculatePlacedObjectSnap
                           (VisualBounds.w visualBounds) (VisualBounds.h visualBounds) room
                           (VisualBounds.x visualBounds) (VisualBounds.y visualBounds)
                           ObjectSnap.OBJECT_SNAP_TOLERANCE_CM
                           (otherObjectsInRoom appState room placed)
                           (Some (PlacedObject.id placed)) in
          let storageCoords := visualToStorage (SnapResult.xCm snapRes) (SnapResult.yCm snapRes)
                                 (ObjectDef.widthCm def) (ObjectDef.heightCm def)
                                 currentRotation in
          let ed := setCurrentSnapResult ed (Some snapRes) in
          updateState ed
            (updatePlacedObjectPosition appState (PlacedObject.id placed)
               (StorageCoords.xCm storageCoords) (StorageCoords.yCm storageCoords)) false
      | _, _ => ed
      end
  end.

(** The room branch of [handleSvgPointerMove]. *)
Definition moveRoomsDrag (ed : t) (appState : AppState.t) (dragState : ExtendedDragState.t)
    (multiDragRooms : list MultiDragRoom.t) (xCm yCm : Q) : t :=
  match getRoomById appState (ExtendedDragState.roomId dragState) with
  | None => ed
  | Some room =>
      let snap := Snap.calculateSnap room (AppState.rooms appState) xCm yCm
                    (AppState.globalWallThicknessCm appState) in
      let ed := setCurrentSnapResult ed (Some snap) in
      let constrained := constrainRoomPosition (SnapResult.xCm snap) (SnapResult.yCm snap) in
      let deltaX := fst constrained - ExtendedDragState.roomStartX dragState in
      let deltaY := snd constrained - ExtendedDragState.roomStartY dragState in
      let roomMoves :=
        map (fun r => {| RoomMove.id := MultiDragRoom.id r;
                         RoomMove.xCm := Qmax 0 (MultiDragRoom.startXCm r + deltaX);
                         RoomMove.yCm := Qmax 0 (MultiDragRoom.startYCm r + deltaY) |})
            multiDragRooms in
      updateState ed (moveRooms appState roomMoves) false
  end.

(** A string used as a condition: the empty string is falsy. *)
Definition truthy (s : string) : bool := negb (String.eqb s EmptyString).

Definition handleSvgPointerMove (ed : t) (e : PointerEvent.t) : t :=
  let appState := HistoryState.present (history ed) in
  match dragState ed with
  | None => ed
  | Some dragState =>
      if negb (svgMounted ed) then ed
      else if String.eqb (ExtendedDragState.roomId dragState) "__pan__" then
        let deltaX := PointerEvent.clientX e - ExtendedDragState.startX dragState in
        let deltaY := PointerEvent.clientY e - ExtendedDragState.startY dragState in
        let newPanX := ExtendedDragState.roomStartX dragState + deltaX in
        let newPanY := ExtendedDragState.roomStartY dragState + deltaY in
        updateState ed (updateViewport appState newPanX newPanY (AppState.zoom appState)) false
      else
        let xy := getSvgCoordinates e (AppState.panX appState) (AppState.panY appState)
                    (AppState.zoom appState) in
        let pos := calculateDragPosition dragState (fst xy) (snd xy) in
        let xCm := fst pos in
        let yCm := snd pos in
        match ExtendedDragState.targetType dragState,
              ExtendedDragState.initialRoom dragState,
              ExtendedDragState.resizeHandle dragState,
              ExtendedDragState.multiDragRooms dragState with
        | Some targetResize, Some initial, Some handle, multi =>
            if truthy handle then moveResize ed appState dragState initial handle xCm yCm
            else ed
        | Some targetPlaced, _, _, _ => movePlaced ed appState dragState xCm yCm
        | Some targetRoom, _, _, Some (r :: rs) =>
            moveRoomsDrag ed appState dragState (r :: rs) xCm yCm
        | _, _, _, _ => ed
        end
  end.

(** [handleSvgPointerUp]; [releasePointerCapture] and its ignored failure
    do not touch the component state. *)
Definition handleSvgPointerUp (ed : t) (e : PointerEvent.t) : t :=
  let appState := HistoryState.present (history ed) in
  let ed :=
    match dragState ed with
    | Some dragState =>
        if negb (String.eqb (ExtendedDragState.roomId dragState) "__pan__") then
          setHistory ed (fun prev => State.recordHistory (withPresent prev appState) appState)
        else ed
    | None => ed
    end in
  setCurrentSnapResult (setDragState ed None) None.

(** The pointer props of the [<svg>] element that feed these handlers:
    [onPointerMove={handleSvgPointerMove}], [onPointerUp={handleSvgPointerUp}],
    [onPointerCancel={handleSvgPointerUp}], [onPointerLeave={handleSvgPointerUp}]. *)
Inductive PointerProp := onPointerMove | onPointerUp | onPointerCancel | onPointerLeave.

Definition svgHandler (p : PointerProp) : t -> PointerEvent.t -> t :=
  match p with
  | onPointerMove => handleSvgPointerMove
  | onPointerUp => handleSvgPointerUp
  | onPointerCancel => handleSvgPointerUp
  | onPointerLeave => handleSvgPointerUp
  end.

(** The pointer-move events of a drag, delivered in order. *)
Definition moves (ed : t) (es : list PointerEvent.t) : t :=
  fold_left (svgHandler onPointerMove) es ed.

(** A drag, resize or object drag is in progress: [dragState] is set and
    is not the panning session. *)
Definition dragActive (ed : t) : bool :=
  match dragState ed with
  | Some d => negb (String.eqb (ExtendedDragState.roomId d) "__pan__")
  | None => false
  end.

End Handlers.

(** The handler left the undo and redo stacks, the drag session and the
    mount flag as they were. *)
Definition keepsStacks (ed ed' : t) : Prop :=
  HistoryState.past (history ed') = HistoryState.past (history ed)
  /\ HistoryState.future (history ed') = HistoryState.future (history ed)
  /\ dragState ed' = dragState ed
  /\ svgMounted ed' = svgMounted ed.

(** The handler left [past] and [future] as they were. *)
Definition sameStacks (ed ed' : t) : Prop :=
  HistoryState.past (history ed') = HistoryState.past (history ed)
  /\ HistoryState.future (history ed') = HistoryState.future (history ed).

End Editor.

(** ** The tests of [calculateSnap], as data

    Each [if (dist <= tolerance)] of the loop body is a test: the distance
    it measures, its tolerance, the coordinate it assigns and the guide it
    reports.  The lists keep the order of the source. *)

Module SnapTests.

Record Test := mkTest { dist : Q; tolerance : Q; pos : Q; guide : Q }.

Definition matches (c : Test) : bool := Qle_bool (dist c) (tolerance c).

(** The four tests of the [=== SNAP X ===] block against one neighbour:
    the two wall-overlap tests, then the two outer-edge alignments. *)
Definition testsX (movingRoom : Room.t) (movingOuter : OuterBounds.t)
    (globalWallThicknessCm : Q) (other : Room.t) : list Test :=
  let otherInner := Snap.innerBoundsCm other (Room.xCm other) (Room.yCm other) in
  let otherOuter := Snap.outerBoundsCm other globalWallThicknessCm (Room.xCm other) (Room.yCm other) in
  let movingWalls := OuterBounds.w movingOuter in
  [ mkTest (Qabs (OuterBounds.right movingOuter - Bounds.left otherInner))
           Snap.WALL_SNAP_TOLERANCE_CM
           (Bounds.left otherInner - Room.widthCm movingRoom - WallSides.east movingWalls)
           (Bounds.left otherInner);
    mkTest (Qabs (OuterBounds.left movingOuter - Bounds.right otherInner))
           Snap.WALL_SNAP_TOLERANCE_CM
           (Bounds.right otherInner + WallSides.west movingWalls)
           (Bounds.right otherInner);
    mkTest (Qabs (OuterBounds.left movingOuter - OuterBounds.left otherOuter))
           Snap.SNAP_TOLERANCE_CM
           (OuterBounds.left otherOuter + WallSides.west movingWalls)
           (OuterBounds.left otherOuter);
    mkTest (Qabs (OuterBounds.right movingOuter - OuterBounds.right otherOuter))
           Snap.SNAP_TOLERANCE_CM
           (OuterBounds.right otherOuter - Room.widthCm movingRoom - WallSides.east movingWalls)
           (OuterBounds.right otherOuter) ].

(** The four tests of the [=== SNAP Y ===] block against one neighbour. *)
Definition testsY (movingRoom : Room.t) (movingOuter : OuterBounds.t)
    (globalWallThicknessCm : Q) (other : Room.t) : list Test :=
  let otherInner := Snap.innerBoundsCm other (Room.xCm other) (Room.yCm other) in
  let otherOuter := Snap.outerBoundsCm other globalWallThicknessCm (Room.xCm other) (Room.yCm other) in
  let movingWalls := OuterBounds.w movingOuter in
  [ mkTest (Qabs (OuterBounds.bottom movingOuter - Bounds.top otherInner))
           Snap.WALL_SNAP_TOLERANCE_CM
           (Bounds.top otherInner - Room.heightCm movingRoom - WallSides.south movingWalls)
           (Bounds.top otherInner);
    mkTest (Qabs (OuterBounds.top movingOuter - Bounds.bottom otherInner))
           Snap.WALL_SNAP_TOLERANCE_CM
           (Bounds.bottom otherInner + WallSides.north movingWalls)
           (Bounds.bottom otherInner);
    mkTest (Qabs (OuterBounds.top movingOuter - OuterBounds.top otherOuter))
           Snap.SNAP_TOLERANCE_CM
           (OuterBounds.top otherOuter + WallSides.north movingWalls)
           (OuterBounds.top otherOuter);
    mkTest (Qabs (OuterBounds.bottom movingOuter - OuterBounds.bottom otherOuter))
           Snap.SNAP_TOLERANCE_CM
           (OuterBounds.bottom otherOuter - Room.heightCm movingRoom - WallSides.south movingWalls)
           (OuterBounds.bottom otherOuter) ].

(** What one axis of the result holds: coordinate, snapped flag, guide. *)
Definition Axis : Type := (Q * bool * option Q)%type.

(** First match wins: the first test of the list whose distance is within
    its tolerance decides the axis; with none, the target is kept. *)
Definition firstMatch (target : Q) (tests : list Test) : Axis :=
  match find matches tests with
  | Some c => (pos c, true, Some (guide c))
  | None => (target, false, None)
  end.

Definition axisX (r : SnapResult.t) : Axis :=
  (SnapResult.xCm r, SnapResult.snappedX r, SnapResult.xGuideCm r).

Definition axisY (r : SnapResult.t) : Axis :=
  (SnapResult.yCm r, SnapResult.snappedY r, SnapResult.yGuideCm r).

(** All X tests of a call, neighbour after neighbour. *)
Definition allTestsX (movingRoom : Room.t) (allRooms : list Room.t)
    (targetXCm targetYCm globalWallThicknessCm : Q) : list Test :=
  flat_map (testsX movingRoom
              (Snap.outerBoundsCm movingRoom globalWallThicknessCm targetXCm targetYCm)
              globalWallThicknessCm)
           (Snap.othersOf movingRoom allRooms).

(** All Y tests of a call, neighbour after neighbour. *)
Definition allTestsY (movingRoom : Room.t) (allRooms : list Room.t)
    (targetXCm targetYCm globalWallThicknessCm : Q) : list Test :=
  flat_map (testsY movingRoom
              (Snap.outerBoundsCm movingRoom globalWallThicknessCm targetXCm targetYCm)
              globalWallThicknessCm)
           (Snap.othersOf movingRoom allRooms).

(** The X and Y locals of the loop, as axes. *)
Definition locX (st : Snap.Locals) : Axis := (Snap.snappedXCm st, Snap.snappedX st, Snap.xGuideCm st).
Definition locY (st : Snap.Locals) : Axis := (Snap.snappedYCm st, Snap.snappedY st, Snap.yGuideCm st).

(** Continue an axis with more tests: a snapped axis stays as it is. *)
Definition continueAxis (a : Axis) (tests : list Test) : Axis :=
  if snd (fst a) then a
  else match find matches tests with
       | Some c => (pos c, true, Some (guide c))
       | None => a
       end.

End SnapTests.

(** ** Example rooms *)

Module Examples.

(** Room A of the specification's example: at (0,0), 300 by 400, with
    10 cm walls on all sides. *)
Definition roomA : Room.t :=
  {| Room.id := "A"; Room.name := "A";
     Room.xCm := 0; Room.yCm := 0; Room.widthCm := 300; Room.heightCm := 400;
     Room.wallThickness :=
       Some {| WallThickness.north := Some 10; WallThickness.south := Some 10;
               WallThickness.east := Some 10; WallThickness.west := Some 10 |} |}.

(** Room B, the room being dragged; its walls take the global thickness. *)
Definition roomB : Room.t :=
  {| Room.id := "B"; Room.name := "B";
     Room.xCm := 500; Room.yCm := 0; Room.widthCm := 200; Room.heightCm := 400;
     Room.wallThickness := None |}.

(** A room further down whose inner right edge is at 310. *)
Definition roomM : Room.t :=
  {| Room.id := "M"; Room.name := "M";
     Room.xCm := 0; Room.yCm := 1000; Room.widthCm := 310; Room.heightCm := 200;
     Room.wallThickness := None |}.

End Examples.

(** ** Example objects *)

Module ObjectExamples.

(** Two objects, 50 by 50, to the right of a dragged 50 by 50 object whose
    target is (100, 100): their left edges are 8 cm and 10 cm from its
    right edge (150). *)
Definition obj1 : PlacedObjectForSnap.t :=
  {| PlacedObjectForSnap.id := "o1"; PlacedObjectForSnap.xCm := 158;
     PlacedObjectForSnap.yCm := 160; PlacedObjectForSnap.widthCm := 50;
     PlacedObjectForSnap.heightCm := 50 |}.

Definition obj2 : PlacedObjectForSnap.t :=
  {| PlacedObjectForSnap.id := "o2"; PlacedObjectForSnap.xCm := 160;
     PlacedObjectForSnap.yCm := 300; PlacedObjectForSnap.widthCm := 50;
     PlacedObjectForSnap.heightCm := 50 |}.

End ObjectExamples.

(** ** A drag, run on an example *)

Module EditorExamples.

(** Example instances of the helpers of [src/editor/Interaction] and of
    the mutators of [src/model/state] that the handlers are parametrised
    by; the properties above hold for any instances. *)
Definition getSvgCoordinates (e : PointerEvent.t) (panX panY zoom : Q) : Q * Q :=
  ((PointerEvent.clientX e - panX) / zoom, (PointerEvent.clientY e - panY) / zoom).

Definition svgPixelsToCm (x y : Q) : Q * Q := (x / 5, y / 5).

Definition calculateDragPosition (d : ExtendedDragState.t) (x y : Q) : Q * Q :=
  (ExtendedDragState.roomStartX d + (x - ExtendedDragState.startX d) / 5,
   ExtendedDragState.roomStartY d + (y - ExtendedDragState.startY d) / 5).

Definition constrainRoomPosition (xCm yCm : Q) : Q * Q := (Qmax 0 xCm, Qmax 0 yCm).

Definition getRoomById (s : AppState.t) (id : string) : option Room.t :=
  find (fun r => String.eqb (Room.id r) id) (AppState.rooms s).

Definition withRooms (s : AppState.t) (rooms : list Room.t) : AppState.t :=
  {| AppState.rooms := rooms;
     AppState.wallOpenings := AppState.wallOpenings s;
     AppState.objectDefs := AppState.objectDefs s;
     AppState.placedObjects := AppState.placedObjects s;
     AppState.selectedRoomIds := AppState.selectedRoomIds s;
     AppState.selectedObjectId := AppState.selectedObjectId s;
     AppState.globalWallThicknessCm := AppState.globalWallThicknessCm s;
     AppState.panX := AppState.panX s;
     AppState.panY := AppState.panY s;
     AppState.zoom := AppState.zoom s |}.

Definition placeRoom (r : Room.t) (xCm yCm widthCm heightCm : Q) : Room.t :=
  {| Room.id := Room.id r; Room.name := Room.name r;
     Room.xCm := xCm; Room.yCm := yCm; Room.widthCm := widthCm; Room.heightCm := heightCm;
     Room.wallThickness := Room.wallThickness r |}.

Definition updateViewport (s : AppState.t) (panX panY zoom : Q) : AppState.t :=
  {| AppState.rooms := AppState.rooms s;
     AppState.wallOpenings := AppState.wallOpenings s;
     AppState.objectDefs := AppState.objectDefs s;
     AppState.placedObjects := AppState.placedObjects s;
     AppState.selectedRoomIds := AppState.selectedRoomIds s;
     AppState.selectedObjectId := AppState.selectedObjectId s;
     AppState.globalWallThicknessCm := AppState.globalWallThicknessCm s;
     AppState.panX := panX;
     AppState.panY := panY;
     AppState.zoom := zoom |}.

Definition resizeRoom (s : AppState.t) (id : string) (xCm yCm widthCm heightCm : Q)
  : AppState.t :=
  withRooms s
    (map (fun r => if String.eqb (Room.id r) id
                   then placeRoom r xCm yCm widthCm heightCm else r)
         (AppState.rooms s)).

Definition updatePlacedObjectPosition (s : AppState.t) (id : string) (xCm yCm : Q)
  : AppState.t := s.

Definition moveRooms (s : AppState.t) (roomMoves : list RoomMove.t) : AppState.t :=
  withRooms s
    (map (fun r =>
            match find (fun m => String.eqb (RoomMove.id m) (Room.id r)) roomMoves with
            | Some m => placeRoom r (RoomMove.xCm m) (RoomMove.yCm m)
                          (Room.widthCm r) (Room.heightCm r)
            | None => r
            end)
         (AppState.rooms s)).

Definition appState0 : AppState.t :=
  {| AppState.rooms := [Examples.roomA; Examples.roomB];
     AppState.wallOpenings := [];
     AppState.objectDefs := [];
     AppState.placedObjects := [];
     AppState.selectedRoomIds := ["B"%string];
     AppState.selectedObjectId := None;
     AppState.globalWallThicknessCm := 10;
     AppState.panX := 0; AppState.panY := 0; AppState.zoom := 1 |}.

(** A document in which each of the two rooms has a door and an object. *)
Definition doorOfA : WallOpening.t := WallOpening.mk "d1" "A" east 50 90 door.
Definition doorOfB : WallOpening.t := WallOpening.mk "d2" "B" north 20 90 door.
Definition objectInA : PlacedObject.t := PlacedObject.mk "p1" "def" "A" 10 10 None.
Definition objectInB : PlacedObject.t := PlacedObject.mk "p2" "def" "B" 510 10 (Some 90%Z).

Definition furnished : AppState.t :=
  {| AppState.rooms := [Examples.roomA; Examples.roomB];
     AppState.wallOpenings := [doorOfA; doorOfB];
     AppState.objectDefs := [ObjectDef.mk "def" "table" 60 35];
     AppState.placedObjects := [objectInA; objectInB];
     AppState.selectedRoomIds := [];
     AppState.selectedObjectId := None;
     AppState.globalWallThicknessCm := 10;
     AppState.panX := 0; AppState.panY := 0; AppState.zoom := 1 |}.

(** The drag session of room B, pressed at SVG point (2600, 100). *)
Definition dragB : ExtendedDragState.t :=
  {| ExtendedDragState.roomId := "B";
     ExtendedDragState.startX := 2600; ExtendedDragState.startY := 100;
     ExtendedDragState.roomStartX := 500; ExtendedDragState.roomStartY := 0;
     ExtendedDragState.targetType := Some targetRoom;
     ExtendedDragState.resizeHandle := None;
     ExtendedDragState.initialRoom := None;
     ExtendedDragState.multiDragRooms :=
       Some [ {| MultiDragRoom.id := "B"; MultiDragRoom.startXCm := 500;
                 MultiDragRoom.startYCm := 0 |} ] |}.

Definition editor0 : Editor.t :=
  {| Editor.history :=
       {| HistoryState.past := []; HistoryState.present := appState0;
          HistoryState.future := [] |};
     Editor.dragState := Some dragB;
     Editor.currentSnapResult := None;
     Editor.svgMounted := true |}.

Definition pointerAt (x y : Q) : PointerEvent.t :=
  {| PointerEvent.clientX := x; PointerEvent.clientY := y; PointerEvent.pointerId := 1 |}.

Definition dragEvents : list PointerEvent.t := [pointerAt 2000 100; pointerAt 1675 100].

End EditorExamples.

(** ** [src/app/page.tsx]: the rest of the [RoomEditor] component *)

Inductive ToolMode := select | measure.

Module MeasurePoint.
Record t := mk { xCm : Q; yCm : Q }.
End MeasurePoint.

Module RoomEditor.
(** The component state with the tool state variables [toolMode] and
    [measurePoints] beside the part modelled in [Editor]. *)
Record t := mk {
  editor : Editor.t;
  toolMode : ToolMode;
  measurePoints : list MeasurePoint.t
}.
End RoomEditor.

Module WheelEvent.
Record t := mk { deltaY : Q }.
End WheelEvent.

Module PointerDownEvent.
(** A pointer-down event with what the handler reads from its target:
    [resizeHandle] and [resizeRoomId] are the [data-resize-handle] and
    [data-room-id] attributes of [target.closest('[data-resize-handle]')],
    [placedId] is the [data-placed-id] of [target.closest('[data-placed-id]')]
    and [roomId] the [data-room-id] of [target.closest('[data-room-id]')]. *)
Record t := mk {
  pointer : PointerEvent.t;
  shiftKey : bool;
  resizeHandle : option string;
  resizeRoomId : option string;
  placedId : option string;
  roomId : option string
}.
End PointerDownEvent.

Module KeyboardEvent.
(** [targetTagName] is [(e.target as HTMLElement)?.tagName]. *)
Record t := mk {
  key : string;
  ctrlKey : bool;
  metaKey : bool;
  shiftKey : bool;
  targetTagName : option string
}.
End KeyboardEvent.

(** What [renderWallWithOpenings] draws: [<rect x y width height>] and
    [<line x1 y1 x2 y2>] (keys and styling left out). *)
Inductive Shape :=
| rect (x y width height : Q)
| line (x1 y1 x2 y2 : Q).

Module Page.
Import Editor.

Definition SCALE : Q := 5.
Definition NUDGE_AMOUNT : Q := 5.
Definition NUDGE_AMOUNT_SHIFT : Q := 20.

Definition setEditor (st : RoomEditor.t) (ed : Editor.t) : RoomEditor.t :=
  {| RoomEditor.editor := ed; RoomEditor.toolMode := RoomEditor.toolMode st;
     RoomEditor.measurePoints := RoomEditor.measurePoints st |}.

Definition setMeasurePoints (st : RoomEditor.t) (ps : list MeasurePoint.t) : RoomEditor.t :=
  {| RoomEditor.editor := RoomEditor.editor st; RoomEditor.toolMode := RoomEditor.toolMode st;
     RoomEditor.measurePoints := ps |}.

Definition setToolMode (st : RoomEditor.t) (m : ToolMode) : RoomEditor.t :=
  {| RoomEditor.editor := RoomEditor.editor st; RoomEditor.toolMode := m;
     RoomEditor.measurePoints := RoomEditor.measurePoints st |}.

(** [handleUndo] and [handleRedo] *)
Definition handleUndo (ed : Editor.t) : Editor.t := setHistory ed State.undo.
Definition handleRedo (ed : Editor.t) : Editor.t := setHistory ed State.redo.

(** [ds.targetType = t] *)
Definition withTargetType (ds : ExtendedDragState.t) (t : TargetType) : ExtendedDragState.t :=
  {| ExtendedDragState.roomId := ExtendedDragState.roomId ds;
     ExtendedDragState.startX := ExtendedDragState.startX ds;
     ExtendedDragState.startY := ExtendedDragState.startY ds;
     ExtendedDragState.roomStartX := ExtendedDragState.roomStartX ds;
     ExtendedDragState.roomStartY := ExtendedDragState.roomStartY ds;
     ExtendedDragState.targetType := Some t;
     ExtendedDragState.resizeHandle := ExtendedDragState.resizeHandle ds;
     ExtendedDragState.initialRoom := ExtendedDragState.initialRoom ds;
     ExtendedDragState.multiDragRooms := ExtendedDragState.multiDragRooms ds |}.

(** [s.toLowerCase()], on ASCII letters. *)
Definition lowerAscii (c : ascii) : ascii :=
  let n := nat_of_ascii c in
  if (65 <=? n)%nat && (n <=? 90)%nat then ascii_of_nat (n + 32) else c.

Fixpoint toLowerCase (s : string) : string :=
  match s with
  | EmptyString => EmptyString
  | String c rest => String (lowerAscii c) (toLowerCase rest)
  end.

(** [[...openings].sort((a, b) => a.positionCm - b.positionCm)]: the sort
    is stable, so an opening stays before the later ones of the same
    position. *)
Fixpoint insertByPosition (o : WallOpening.t) (sorted : list WallOpening.t)
  : list WallOpening.t :=
  match sorted with
  | [] => [o]
  | x :: rest =>
      if Qle_bool (WallOpening.positionCm o) (WallOpening.positionCm x)
      then o :: x :: rest
      else x :: insertByPosition o rest
  end.

Definition sortByPosition (openings : list WallOpening.t) : list WallOpening.t :=
  fold_right insertByPosition [] openings.

(** The body of [sortedOpenings.forEach]: [segments] and [currentPos]. *)
Definition wallSegmentStep (baseX baseY wallWidth wallHeight : Q) (isHorizontal : bool)
    (acc : list Shape * Q) (opening : WallOpening.t) : list Shape * Q :=
  let segments := fst acc in
  let currentPos := snd acc in
  let openingStart := WallOpening.positionCm opening * SCALE in
  let openingWidth := WallOpening.widthCm opening * SCALE in
  let segments :=
    if Qlt_bool currentPos openingStart then
      if isHorizontal then
        segments ++ [rect (baseX + currentPos) baseY (openingStart - currentPos) wallHeight]
      else
        segments ++ [rect baseX (baseY + currentPos) wallWidth (openingStart - currentPos)]
    else segments in
  let segments :=
    if isHorizontal then
      segments ++ [line (baseX + openingStart) (baseY + wallHeight / 2)
                        (baseX + openingStart + openingWidth) (baseY + wallHeight / 2)]
    else
      segments ++ [line (baseX + wallWidth / 2) (baseY + openingStart)
                        (baseX + wallWidth / 2) (baseY + openingStart + openingWidth)] in
  (segments, openingStart + openingWidth).

(** The part of [renderWallWithOpenings] that lays out the wall once its
    openings are known. *)
Definition wallShapes (openings : list WallOpening.t)
    (baseX baseY wallWidth wallHeight : Q) (isHorizontal : bool) : list Shape :=
  match openings with
  | [] => [rect baseX baseY wallWidth wallHeight]
  | _ :: _ =>
      let sortedOpenings := sortByPosition openings in
      let acc := fold_left (wallSegmentStep baseX baseY wallWidth wallHeight isHorizontal)
                   sortedOpenings ([], 0) in
      let segments := fst acc in
      let currentPos := snd acc in
      let totalLength := if isHorizontal then wallWidth else wallHeight in
      if Qlt_bool currentPos totalLength then
        if isHorizontal then
          segments ++ [rect (baseX + currentPos) baseY (totalLength - currentPos) wallHeight]
        else
          segments ++ [rect baseX (baseY + currentPos) wallWidth (totalLength - currentPos)]
      else segments
  end.

(** The key event does not come from an [<input>] or a [<textarea>]:
    the tag name of its target, if it has one, lower-cases to neither. *)
Definition outsideTextField (e : KeyboardEvent.t) : Prop :=
  forall tag, KeyboardEvent.targetTagName e = Some tag ->
    toLowerCase tag <> "input"%string /\ toLowerCase tag <> "textarea"%string.

(** The keys of the shortcuts that can add to or walk the history. *)
Definition historyKeys : list string :=
  ["z"; "y"; "Delete"; "Backspace"; "ArrowUp"; "ArrowDown"; "ArrowLeft"; "ArrowRight"]%string.

Section Component.

Variable getSvgCoordinates : PointerEvent.t -> Q -> Q -> Q -> Q * Q.
Variable svgPixelsToCm : Q -> Q -> Q * Q.
Variable startPlacedDrag : PlacedObject.t -> Q -> Q -> ExtendedDragState.t.
Variable getRoomById : AppState.t -> string -> option Room.t.
Variable updateViewport : AppState.t -> Q -> Q -> Q -> AppState.t.
Variable selectRoom : AppState.t -> string -> AppState.t.
Variable toggleRoomSelection : AppState.t -> string -> AppState.t.
Variable clearSelection : AppState.t -> AppState.t.
Variable selectAllRooms : AppState.t -> AppState.t.
Variable selectObject : AppState.t -> string -> AppState.t.
Variable deleteSelectedObject : AppState.t -> AppState.t.
Variable deleteRooms : AppState.t -> list string -> AppState.t.
Variable nudgeSelectedRooms : AppState.t -> Q -> Q -> AppState.t.
Variable placeObject : AppState.t -> string -> string -> Q -> Q -> AppState.t.
Variable updatePlacedObjectRotation : AppState.t -> string -> Z -> AppState.t.

(** The type returned by [State.findAdjacentRoom] when a room abuts. *)
Variable Adjacent : Type.
Variable otherRoom : Adjacent -> Room.t.
Variable shouldRenderSharedWall : Room.t -> Room.t -> bool.
Variable getCombinedWallOpenings :
  AppState.t -> Room.t -> WallSide -> Adjacent -> list WallOpening.t.

(** [handleSelectRoom(roomId, addToSelection = false)] *)
Definition handleSelectRoom (ed : Editor.t) (roomId : option string)
    (addToSelection : bool) : Editor.t :=
  let appState := HistoryState.present (history ed) in
  match roomId with
  | None => updateState ed (clearSelection appState) false
  | Some id =>
      if addToSelection then updateState ed (toggleRoomSelection appState id) false
      else updateState ed (selectRoom appState id) false
  end.

(** [handlePlaceObjectDef] *)
Definition handlePlaceObjectDef (ed : Editor.t) (defId : string) : Editor.t :=
  let appState := HistoryState.present (history ed) in
  let def := find (fun d => String.eqb (ObjectDef.id d) defId) (AppState.objectDefs appState) in
  let selectedRoomId := nth_error (AppState.selectedRoomIds appState) 0 in
  let room :=
    match selectedRoomId with
    | Some id => if truthy id then getRoomById appState id else None
    | None => None
    end in
  match def, room with
  | Some def, Some room =>
      let xCm := Room.xCm room + (Room.widthCm room - ObjectDef.widthCm def) / 2 in
      let yCm := Room.yCm room + (Room.heightCm room - ObjectDef.heightCm def) / 2 in
      let newState := placeObject appState defId (Room.id room) xCm yCm in
      updateState ed newState true
  | _, _ => ed
  end.

(** The [Rotate] button of a placed object. *)
Definition rotateClick (ed : Editor.t) (p : PlacedObject.t) : Editor.t :=
  let appState := HistoryState.present (history ed) in
  let current := nullish (PlacedObject.rotationDeg p) 0%Z in
  let newState := updatePlacedObjectRotation appState (PlacedObject.id p)
                    (Z.rem (current + 90) 360) in
  updateState ed newState true.

(** [handleSvgWheel] *)
Definition handleSvgWheel (ed : Editor.t) (e : WheelEvent.t) : Editor.t :=
  let appState := HistoryState.present (history ed) in
  let deltaY := if Qlt_bool 0 (WheelEvent.deltaY e) then 9 # 10 else 11 # 10 in
  let newZoom := Qmax (1 # 10) (Qmin 3 (AppState.zoom appState * deltaY)) in
  let newState := updateViewport appState (AppState.panX appState) (AppState.panY appState)
                    newZoom in
  updateState ed newState false.

(** The zoom-out, zoom-in and reset buttons. *)
Definition zoomOutClick (ed : Editor.t) : Editor.t :=
  let appState := HistoryState.present (history ed) in
  let newZoom := Qmax (1 # 10) (AppState.zoom appState - (2 # 10)) in
  updateState ed
    (updateViewport appState (AppState.panX appState) (AppState.panY appState) newZoom) false.

Definition zoomInClick (ed : Editor.t) : Editor.t :=
  let appState := HistoryState.present (history ed) in
  let newZoom := Qmin 3 (AppState.zoom appState + (2 # 10)) in
  updateState ed
    (updateViewport appState (AppState.panX appState) (AppState.panY appState) newZoom) false.

Definition resetViewClick (ed : Editor.t) : Editor.t :=
  let appState := HistoryState.present (history ed) in
  updateState ed (updateViewport appState 50 50 1) false.

(** The viewport controls, as events. *)
Inductive ViewEvent := wheel (e : WheelEvent.t) | zoomOut | zoomIn | resetView.

Definition viewHandler (ed : Editor.t) (v : ViewEvent) : Editor.t :=
  match v with
  | wheel e => handleSvgWheel ed e
  | zoomOut => zoomOutClick ed
  | zoomIn => zoomInClick ed
  | resetView => resetViewClick ed
  end.

(** The measurement branch of [handleSvgPointerDown]. *)
Definition measureClick (st : RoomEditor.t) (xCm yCm : Q) : RoomEditor.t :=
  let point := {| MeasurePoint.xCm := xCm; MeasurePoint.yCm := yCm |} in
  match RoomEditor.measurePoints st with
  | [] => setMeasurePoints st [point]
  | [p0] => setMeasurePoints st [p0; point]
  | _ => setMeasurePoints st [point]
  end.

(** [if (resizeHandle && resizeRoomId) { const room = ...; if (room) {...; return} }]:
    [None] when the branch does not return. *)
Definition downResize (ed : Editor.t) (appState : AppState.t) (e : PointerDownEvent.t)
    (x y : Q) : option Editor.t :=
  match PointerDownEvent.resizeHandle e, PointerDownEvent.resizeRoomId e with
  | Some resizeHandle, Some resizeRoomId =>
      if truthy resizeHandle && truthy resizeRoomId then
        match getRoomById appState resizeRoomId with
        | Some room =>
            Some (setDragState ed
                    (Some {| ExtendedDragState.roomId := resizeRoomId;
                             ExtendedDragState.startX := x;
                             ExtendedDragState.startY := y;
                             ExtendedDragState.roomStartX := Room.xCm room;
                             ExtendedDragState.roomStartY := Room.yCm room;
                             ExtendedDragState.targetType := Some targetResize;
                             ExtendedDragState.resizeHandle := Some resizeHandle;
                             ExtendedDragState.initialRoom := Some room;
                             ExtendedDragState.multiDragRooms := None |}))
        | None => None
        end
      else None
  | _, _ => None
  end.

(** [if (placedId) { const placed = ...; if (placed) {...; return} }] *)
Definition downPlaced (ed : Editor.t) (appState : AppState.t) (e : PointerDownEvent.t)
    (x y : Q) : option Editor.t :=
  match PointerDownEvent.placedId e with
  | Some placedId =>
      if truthy placedId then
        match find (fun p => String.eqb (PlacedObject.id p) placedId)
                   (AppState.placedObjects appState) with
        | Some placed =>
            let ed := updateState ed (selectObject appState (PlacedObject.id placed)) false in
            let ds := withTargetType (startPlacedDrag placed x y) targetPlaced in
            Some (setDragState ed (Some ds))
        | None => None
        end
      else None
  | None => None
  end.

(** [if (roomId) {...}], which returns in every case. *)
Definition downRoom (ed : Editor.t) (appState : AppState.t) (e : PointerDownEvent.t)
    (roomId : string) (x y : Q) : Editor.t :=
  match getRoomById appState roomId with
  | None => ed
  | Some room =>
      let addToSelection := PointerDownEvent.shiftKey e in
      let isAlreadySelected :=
        existsb (String.eqb (Room.id room)) (AppState.selectedRoomIds appState) in
      if addToSelection then handleSelectRoom ed (Some (Room.id room)) true
      else
        let ed := if negb isAlreadySelected
                  then handleSelectRoom ed (Some (Room.id room)) false else ed in
        let selectedIds := if isAlreadySelected then AppState.selectedRoomIds appState
                           else [Room.id room] in
        let multiDragRooms :=
          flat_map (fun id =>
                      match getRoomById appState id with
                      | Some r => [ {| MultiDragRoom.id := Room.id r;
                                       MultiDragRoom.startXCm := Room.xCm r;
                                       MultiDragRoom.startYCm := Room.yCm r |} ]
                      | None => []
                      end) selectedIds in
        setDragState ed
          (Some {| ExtendedDragState.roomId := Room.id room;
                   ExtendedDragState.startX := x;
                   ExtendedDragState.startY := y;
                   ExtendedDragState.roomStartX := Room.xCm room;
                   ExtendedDragState.roomStartY := Room.yCm room;
                   ExtendedDragState.targetType := Some targetRoom;
                   ExtendedDragState.resizeHandle := None;
                   ExtendedDragState.initialRoom := None;
                   ExtendedDragState.multiDragRooms := Some multiDragRooms |})
  end.

(** Empty space: start panning. *)
Definition downPan (ed : Editor.t) (appState : AppState.t) (e : PointerDownEvent.t) : Editor.t :=
  let ed := setDragState ed
              (Some {| ExtendedDragState.roomId := "__pan__";
                       ExtendedDragState.startX := PointerEvent.clientX (PointerDownEvent.pointer e);
                       ExtendedDragState.startY := PointerEvent.clientY (PointerDownEvent.pointer e);
                       ExtendedDragState.roomStartX := AppState.panX appState;
                       ExtendedDragState.roomStartY := AppState.panY appState;
                       ExtendedDragState.targetType := None;
                       ExtendedDragState.resizeHandle := None;
                       ExtendedDragState.initialRoom := None;
                       ExtendedDragState.multiDragRooms := None |}) in
  handleSelectRoom ed None false.

(** [handleSvgPointerDown]; [setPointerCapture] does not touch the
    component state. *)
Definition handleSvgPointerDown (st : RoomEditor.t) (e : PointerDownEvent.t) : RoomEditor.t :=
  let ed := RoomEditor.editor st in
  if negb (svgMounted ed) then st
  else
    let appState := HistoryState.present (history ed) in
    let xy := getSvgCoordinates (PointerDownEvent.pointer e) (AppState.panX appState)
                (AppState.panY appState) (AppState.zoom appState) in
    let x := fst xy in
    let y := snd xy in
    let cm := svgPixelsToCm x y in
    match RoomEditor.toolMode st with
    | measure => measureClick st (fst cm) (snd cm)
    | select =>
        match downResize ed appState e x y with
        | Some ed' => setEditor st ed'
        | None =>
            match downPlaced ed appState e x y with
            | Some ed' => setEditor st ed'
            | None =>
                match PointerDownEvent.roomId e with
                | Some roomId =>
                    if truthy roomId then setEditor st (downRoom ed appState e roomId x y)
                    else setEditor st (downPan ed appState e)
                | None => setEditor st (downPan ed appState e)
                end
            end
        end
    end.

(** [handleKeyDown]; [preventDefault] does not touch the component state. *)
Definition handleKeyDown (st : RoomEditor.t) (e : KeyboardEvent.t) : RoomEditor.t :=
  let ed := RoomEditor.editor st in
  let appState := HistoryState.present (history ed) in
  let toolMode := RoomEditor.toolMode st in
  let tag := option_map toLowerCase (KeyboardEvent.targetTagName e) in
  let key := KeyboardEvent.key e in
  let modifier := KeyboardEvent.ctrlKey e || KeyboardEvent.metaKey e in
  let tagIs (t : string) := match tag with Some s => String.eqb s t | None => false end in
  if tagIs "input"%string || tagIs "textarea"%string then st
  else if modifier && String.eqb key "z" && negb (KeyboardEvent.shiftKey e) then
    setEditor st (handleUndo ed)
  else if modifier && (String.eqb key "y" || (String.eqb key "z" && KeyboardEvent.shiftKey e)) then
    setEditor st (handleRedo ed)
  else if modifier && String.eqb key "a" then
    setEditor st (updateState ed (selectAllRooms appState) false)
  else if String.eqb key "Delete" || String.eqb key "Backspace" then
    if match AppState.selectedObjectId appState with Some id => truthy id | None => false end
    then setEditor st (updateState ed (deleteSelectedObject appState) true)
    else if (0 <? List.length (AppState.selectedRoomIds appState))%nat
    then setEditor st (updateState ed (deleteRooms appState (AppState.selectedRoomIds appState)) true)
    else st
  else if existsb (String.eqb key) ["ArrowUp"; "ArrowDown"; "ArrowLeft"; "ArrowRight"]%string
          && (0 <? List.length (AppState.selectedRoomIds appState))%nat then
    let amount := if KeyboardEvent.shiftKey e then NUDGE_AMOUNT_SHIFT else NUDGE_AMOUNT in
    let dx := 0 in
    let dy := 0 in
    let dy := if String.eqb key "ArrowUp" then - amount else dy in
    let dy := if String.eqb key "ArrowDown" then amount else dy in
    let dx := if String.eqb key "ArrowLeft" then - amount else dx in
    let dx := if String.eqb key "ArrowRight" then amount else dx in
    setEditor st (updateState ed (nudgeSelectedRooms appState dx dy) true)
  else if String.eqb key "m" || String.eqb key "M" then
    setMeasurePoints
      (setToolMode st (match toolMode with measure => select | select => measure end)) []
  else if String.eqb key "Escape" then
    match toolMode with
    | select => setEditor st (updateState ed (clearSelection appState) false)
    | measure => setMeasurePoints (setToolMode st select) []
    end
  else st.

(** [renderWallWithOpenings]: [None] where the function returns [null]. *)
Definition renderWallWithOpenings (appState : AppState.t) (room : Room.t)
    (roomOpenings : list WallOpening.t) (wallSide : WallSide)
    (baseX baseY wallWidth wallHeight : Q) (isHorizontal : bool)
    (adjacentRoom : option Adjacent) : option (list Shape) :=
  let skip :=
    match adjacentRoom with
    | Some adj => negb (shouldRenderSharedWall room (otherRoom adj))
    | None => false
    end in
  if skip then None
  else
    let openings :=
      match adjacentRoom with
      | Some adj => getCombinedWallOpenings appState room wallSide adj
      | None =>
          filter (fun o => match WallOpening.wall o, wallSide with
                           | north, north | south, south | east, east | west, west => true
                           | _, _ => false
                           end) roomOpenings
      end in
    Some (wallShapes openings baseX baseY wallWidth wallHeight isHorizontal).

End Component.

End Page.


(** ** [src/app/page.tsx]: the [DoorOpeningsPanel] and form components *)

(** The value of [parseFloat]: a finite number, an infinity or [NaN]. *)
Inductive JsNumber := NaN | NegInfinity | Finite (q : Q) | PosInfinity.

Module Forms.

Definition isNaN (n : JsNumber) : bool :=
  match n with NaN => true | _ => false end.

(** [n < bound], for a finite bound. *)
Definition ltNumber (n : JsNumber) (bound : Q) : bool :=
  match n with
  | NaN => false
  | NegInfinity => true
  | Finite q => Qlt_bool q bound
  | PosInfinity => false
  end.

(** [n > bound], for a finite bound. *)
Definition gtNumber (n : JsNumber) (bound : Q) : bool :=
  match n with
  | NaN => false
  | NegInfinity => false
  | Finite q => Qlt_bool bound q
  | PosInfinity => true
  end.

(** [a + b] *)
Definition addNumber (a b : JsNumber) : JsNumber :=
  match a, b with
  | NaN, _ | _, NaN => NaN
  | Finite x, Finite y => Finite (x + y)
  | PosInfinity, NegInfinity | NegInfinity, PosInfinity => NaN
  | PosInfinity, _ | _, PosInfinity => PosInfinity
  | NegInfinity, _ | _, NegInfinity => NegInfinity
  end.

(** What a click on [Add Door] or [Save] does: one of the two alerts, or
    the callback with its arguments. *)
Inductive DoorOutcome :=
| alertInvalidValues
| alertBeyondWall (wallLength : Q)
| onAddDoor (roomId : string) (wall : WallSide) (pos width : JsNumber)
| onUpdateDoor (openingId : string) (pos width : JsNumber).

(** [getWallLengthCm] *)
Definition getWallLengthCm (room : Room.t) (wall : WallSide) : Q :=
  let isHorizontal := match wall with north | south => true | _ => false end in
  if isHorizontal then Room.widthCm room else Room.heightCm room.

Section DoorOpeningsPanel.

(** [parseFloat], a built-in. *)
Variable parseFloat : string -> JsNumber.

(** [handleAddDoor], with the panel's [selectedWall], [positionCm] and
    [widthCm] state; the reset of the two inputs is left out. *)
Definition handleAddDoor (room : Room.t) (selectedWall : WallSide)
    (positionCm widthCm : string) : DoorOutcome :=
  let pos := parseFloat positionCm in
  let width := parseFloat widthCm in
  let wallLength := getWallLengthCm room selectedWall in
  if isNaN pos || isNaN width || ltNumber pos 0 || ltNumber width 10 then alertInvalidValues
  else if gtNumber (addNumber pos width) wallLength then alertBeyondWall wallLength
  else onAddDoor (Room.id room) selectedWall pos width.

(** [handleSaveEdit], with the panel's [editPosition] and [editWidth]. *)
Definition handleSaveEdit (room : Room.t) (opening : WallOpening.t)
    (editPosition editWidth : string) : DoorOutcome :=
  let pos := parseFloat editPosition in
  let width := parseFloat editWidth in
  let wallLength := getWallLengthCm room (WallOpening.wall opening) in
  if isNaN pos || isNaN width || ltNumber pos 0 || ltNumber width 10 then alertInvalidValues
  else if gtNumber (addNumber pos width) wallLength then alertBeyondWall wallLength
  else onUpdateDoor (WallOpening.id opening) pos width.

End DoorOpeningsPanel.

End Forms.

(** ** Object snapping: the locals of one axis, with the guide *)

Module ObjectAxis.
Import ObjectSnap.

Record t := mk { coord : Q; snapped : bool; guide : option Q; best : Q }.

Definition ofX (st : Locals) : t :=
  mk (snappedXCm st) (snappedX st) (xGuideCm st) (bestSnapDistX st).

Definition ofY (st : Locals) : t :=
  mk (snappedYCm st) (snappedY st) (yGuideCm st) (bestSnapDistY st).

(** One test of the function, on the locals of its axis. *)
Definition test (d tol p gd : Q) (a : t) : t :=
  if Qle_bool d tol && Qlt_bool d (best a) then mk p true (Some gd) d else a.

(** The X tests against the walls, on the locals of the X axis. *)
Definition wallsX (objWidthCm : Q) (room : Room.t) (targetXCm toleranceCm : Q) (a : t) : t :=
  let leftEdge := Room.xCm room in
  let rightEdge := Room.xCm room + Room.widthCm room in
  test (Qabs (targetXCm + objWidthCm - rightEdge)) toleranceCm (rightEdge - objWidthCm) rightEdge
    (test (Qabs (targetXCm - leftEdge)) toleranceCm leftEdge leftEdge a).

(** The X tests against one other object. *)
Definition otherX (objWidthCm targetXCm : Q) (currentObjectId : option string)
    (a : t) (other : PlacedObjectForSnap.t) : t :=
  if isCurrent currentObjectId other then a
  else
    let otherLeft := PlacedObjectForSnap.xCm other in
    let otherRight := PlacedObjectForSnap.xCm other + PlacedObjectForSnap.widthCm other in
    let tol := OBJECT_TO_OBJECT_SNAP_TOLERANCE_CM in
    test (Qabs (targetXCm + objWidthCm - otherRight)) tol (otherRight - objWidthCm) otherRight
      (test (Qabs (targetXCm - otherLeft)) tol otherLeft otherLeft
         (test (Qabs (targetXCm + objWidthCm - otherLeft)) tol (otherLeft - objWidthCm) otherLeft
            (test (Qabs (targetXCm - otherRight)) tol otherRight otherRight a))).

(** The Y tests against the walls. *)
Definition wallsY (objHeightCm : Q) (room : Room.t) (targetYCm toleranceCm : Q) (a : t) : t :=
  let topEdge := Room.yCm room in
  let bottomEdge := Room.yCm room + Room.heightCm room in
  test (Qabs (targetYCm + objHeightCm - bottomEdge)) toleranceCm (bottomEdge - objHeightCm) bottomEdge
    (test (Qabs (targetYCm - topEdge)) toleranceCm topEdge topEdge a).

(** The Y tests against one other object. *)
Definition otherY (objHeightCm targetYCm : Q) (currentObjectId : option string)
    (a : t) (other : PlacedObjectForSnap.t) : t :=
  if isCurrent currentObjectId other then a
  else
    let otherTop := PlacedObjectForSnap.yCm other in
    let otherBottom := PlacedObjectForSnap.yCm other + PlacedObjectForSnap.heightCm other in
    let tol := OBJECT_TO_OBJECT_SNAP_TOLERANCE_CM in
    test (Qabs (targetYCm + objHeightCm - otherBottom)) tol (otherBottom - objHeightCm) otherBottom
      (test (Qabs (targetYCm - otherTop)) tol otherTop otherTop
         (test (Qabs (targetYCm + objHeightCm - otherTop)) tol (otherTop - objHeightCm) otherTop
            (test (Qabs (targetYCm - otherBottom)) tol otherBottom otherBottom a))).

End ObjectAxis.

(** The [<line>] that [renderWallWithOpenings] draws for an opening. *)
Definition floorLine (baseX baseY wallWidth wallHeight : Q) (isHorizontal : bool)
    (opening : WallOpening.t) : Shape :=
  let openingStart := WallOpening.positionCm opening * Page.SCALE in
  let openingWidth := WallOpening.widthCm opening * Page.SCALE in
  if isHorizontal then
    line (baseX + openingStart) (baseY + wallHeight / 2)
         (baseX + openingStart + openingWidth) (baseY + wallHeight / 2)
  else
    line (baseX + wallWidth / 2) (baseY + openingStart)
         (baseX + wallWidth / 2) (baseY + openingStart + openingWidth).

(** [<line>] elements, as opposed to wall rectangles. *)
Definition isLine (s : Shape) : bool :=
  match s with line _ _ _ _ => true | rect _ _ _ _ => false end.

(** A wall rectangle has a positive length along the wall and the
    thickness of the wall across it. *)
Definition positiveRect (wallWidth wallHeight : Q) (isHorizontal : bool) (s : Shape) : Prop :=
  match s with
  | rect _ _ width height =>
      if isHorizontal then 0 < width /\ height = wallHeight
      else 0 < height /\ width = wallWidth
  | line _ _ _ _ => True
  end.

(** ** Example component states and events *)

Module PageExamples.

Definition withSelection (s : AppState.t) (ids : list string) : AppState.t :=
  {| AppState.rooms := AppState.rooms s;
     AppState.wallOpenings := AppState.wallOpenings s;
     AppState.objectDefs := AppState.objectDefs s;
     AppState.placedObjects := AppState.placedObjects s;
     AppState.selectedRoomIds := ids;
     AppState.selectedObjectId := None;
     AppState.globalWallThicknessCm := AppState.globalWallThicknessCm s;
     AppState.panX := AppState.panX s;
     AppState.panY := AppState.panY s;
     AppState.zoom := AppState.zoom s |}.

(** Example instances of the selection mutators of [src/model/state]. *)
Definition selectRoom (s : AppState.t) (id : string) : AppState.t := withSelection s [id].

Definition toggleRoomSelection (s : AppState.t) (id : string) : AppState.t :=
  withSelection s
    (if existsb (String.eqb id) (AppState.selectedRoomIds s)
     then filter (fun i => negb (String.eqb i id)) (AppState.selectedRoomIds s)
     else AppState.selectedRoomIds s ++ [id]).

Definition clearSelection (s : AppState.t) : AppState.t := withSelection s [].

Definition selectAllRooms (s : AppState.t) : AppState.t :=
  withSelection s (map Room.id (AppState.rooms s)).

Definition selectObject (s : AppState.t) (id : string) : AppState.t := clearSelection s.

Definition startPlacedDrag (p : PlacedObject.t) (x y : Q) : ExtendedDragState.t :=
  {| ExtendedDragState.roomId := PlacedObject.id p;
     ExtendedDragState.startX := x; ExtendedDragState.startY := y;
     ExtendedDragState.roomStartX := PlacedObject.xCm p;
     ExtendedDragState.roomStartY := PlacedObject.yCm p;
     ExtendedDragState.targetType := None;
     ExtendedDragState.resizeHandle := None;
     ExtendedDragState.initialRoom := None;
     ExtendedDragState.multiDragRooms := None |}.

(** The editor of [EditorExamples.editor0] with no drag in progress. *)
Definition idle (mode : ToolMode) (points : list MeasurePoint.t) : RoomEditor.t :=
  {| RoomEditor.editor := Editor.setDragState EditorExamples.editor0 None;
     RoomEditor.toolMode := mode;
     RoomEditor.measurePoints := points |}.

(** A press at client position (2600, 100) on the element of room [room],
    or on empty canvas. *)
Definition press (room : option string) (shift : bool) : PointerDownEvent.t :=
  {| PointerDownEvent.pointer := EditorExamples.pointerAt 2600 100;
     PointerDownEvent.shiftKey := shift;
     PointerDownEvent.resizeHandle := None;
     PointerDownEvent.resizeRoomId := None;
     PointerDownEvent.placedId := None;
     PointerDownEvent.roomId := room |}.

(** A key pressed with the focus on an element with tag name [tag]. *)
Definition keyPress (key tag : string) (ctrl shift : bool) : KeyboardEvent.t :=
  {| KeyboardEvent.key := key;
     KeyboardEvent.ctrlKey := ctrl;
     KeyboardEvent.metaKey := false;
     KeyboardEvent.shiftKey := shift;
     KeyboardEvent.targetTagName := Some tag |}.

End PageExamples.

(** ** The geometry over IEEE-754 doubles

    The functions whose results depend on how numbers are rounded, translated
    once more from the same source with a JavaScript [number] as a binary64
    float ([PrimFloat.float]): [+], [-] and [/] are the rounded operations,
    [Math.abs] is [abs], [<=] and [<] are [leb] and [ltb] (false on [NaN]).
    The records are those of the data model with float fields. *)

Module Doubles.
Import Floats.
#[local] Set Warnings "-inexact-float".
Local Open Scope float_scope.

Module WallThickness.
(** [room.wallThickness]: every side is optional. *)
Record t := mk {
  north : option float;
  south : option float;
  east  : option float;
  west  : option float
}.
End WallThickness.

Module Room.
Record t := mk {
  id : string;
  name : string;
  xCm : float;
  yCm : float;
  widthCm : float;
  heightCm : float;
  wallThickness : option WallThickness.t
}.
End Room.

Module WallSides.
(** [type WallSides = { north; south; east; west }] *)
Record t := mk { north : float; south : float; east : float; west : float }.
End WallSides.

Module Bounds.
(** The object returned by [innerBoundsCm]. *)
Record t := mk { left : float; right : float; top : float; bottom : float }.
End Bounds.

Module OuterBounds.
(** The object returned by [outerBoundsCm]: the bounds and the resolved
    wall thickness [w]. *)
Record t := mk { left : float; right : float; top : float; bottom : float; w : WallSides.t }.
End OuterBounds.

Module SnapResult.
Record t := mk {
  xCm : float;
  yCm : float;
  snappedX : bool;
  snappedY : bool;
  xGuideCm : option float;
  yGuideCm : option float
}.
End SnapResult.

Module PlacedObjectForSnap.
Record t := mk { id : string; xCm : float; yCm : float; widthCm : float; heightCm : float }.
End PlacedObjectForSnap.

(** *** [src/editor/Snap]: room snapping *)

Module Snap.

Definition SNAP_TOLERANCE_CM : float := 2.
Definition WALL_SNAP_TOLERANCE_CM : float := 15.

Definition getWallThicknessCm (room : Room.t) (globalWallThicknessCm : float) : WallSides.t :=
  {| WallSides.north := nullish (optChain (Room.wallThickness room) WallThickness.north) globalWallThicknessCm;
     WallSides.south := nullish (optChain (Room.wallThickness room) WallThickness.south) globalWallThicknessCm;
     WallSides.east  := nullish (optChain (Room.wallThickness room) WallThickness.east) globalWallThicknessCm;
     WallSides.west  := nullish (optChain (Room.wallThickness room) WallThickness.west) globalWallThicknessCm |}.

(** [innerBoundsCm(room, xCm = room.xCm, yCm = room.yCm)]: the default
    arguments are written out at the call sites. *)
Definition innerBoundsCm (room : Room.t) (xCm yCm : float) : Bounds.t :=
  {| Bounds.left := xCm;
     Bounds.right := xCm + Room.widthCm room;
     Bounds.top := yCm;
     Bounds.bottom := yCm + Room.heightCm room |}.

(** [outerBoundsCm(room, globalWallThicknessCm, xCm = room.xCm, yCm = room.yCm)] *)
Definition outerBoundsCm (room : Room.t) (globalWallThicknessCm : float) (xCm yCm : float)
  : OuterBounds.t :=
  let w := getWallThicknessCm room globalWallThicknessCm in
  {| OuterBounds.left := xCm - WallSides.west w;
     OuterBounds.right := xCm + Room.widthCm room + WallSides.east w;
     OuterBounds.top := yCm - WallSides.north w;
     OuterBounds.bottom := yCm + Room.heightCm room + WallSides.south w;
     OuterBounds.w := w |}.

(** The mutable locals of [calculateSnap]. *)
Record Locals := mkLocals {
  snappedXCm : float;
  snappedYCm : float;
  snappedX : bool;
  snappedY : bool;
  xGuideCm : option float;
  yGuideCm : option float
}.

(** [snappedXCm = x; snappedX = true; xGuideCm = g;] *)
Definition assignX (st : Locals) (x g : float) : Locals :=
  {| snappedXCm := x; snappedYCm := snappedYCm st;
     snappedX := true; snappedY := snappedY st;
     xGuideCm := Some g; yGuideCm := yGuideCm st |}.

(** [snappedYCm = y; snappedY = true; yGuideCm = g;] *)
Definition assignY (st : Locals) (y g : float) : Locals :=
  {| snappedXCm := snappedXCm st; snappedYCm := y;
     snappedX := snappedX st; snappedY := true;
     xGuideCm := xGuideCm st; yGuideCm := Some g |}.

(** The [=== SNAP X ===] block of the loop body. *)
Definition snapXBlock (movingRoom : Room.t) (movingOuter : OuterBounds.t)
    (otherInner : Bounds.t) (otherOuter : OuterBounds.t) (st : Locals) : Locals :=
  let movingWalls := OuterBounds.w movingOuter in
  if negb (snappedX st) then
    let dist := abs (OuterBounds.right movingOuter - Bounds.left otherInner) in
    let st :=
      if leb dist WALL_SNAP_TOLERANCE_CM then
        assignX st (Bounds.left otherInner - Room.widthCm movingRoom - WallSides.east movingWalls)
                   (Bounds.left otherInner)
      else st in
    let st :=
      if negb (snappedX st) then
        let dist := abs (OuterBounds.left movingOuter - Bounds.right otherInner) in
        if leb dist WALL_SNAP_TOLERANCE_CM then
          assignX st (Bounds.right otherInner + WallSides.west movingWalls)
                     (Bounds.right otherInner)
        else st
      else st in
    let st :=
      if negb (snappedX st) then
        let dist := abs (OuterBounds.left movingOuter - OuterBounds.left otherOuter) in
        if leb dist SNAP_TOLERANCE_CM then
          assignX st (OuterBounds.left otherOuter + WallSides.west movingWalls)
                     (OuterBounds.left otherOuter)
        else st
      else st in
    let st :=
      if negb (snappedX st) then
        let dist := abs (OuterBounds.right movingOuter - OuterBounds.right otherOuter) in
        if leb dist SNAP_TOLERANCE_CM then
          assignX st (OuterBounds.right otherOuter - Room.widthCm movingRoom - WallSides.east movingWalls)
                     (OuterBounds.right otherOuter)
        else st
      else st in
    st
  else st.

(** The [=== SNAP Y ===] block of the loop body. *)
Definition snapYBlock (movingRoom : Room.t) (movingOuter : OuterBounds.t)
    (otherInner : Bounds.t) (otherOuter : OuterBounds.t) (st : Locals) : Locals :=
  let movingWalls := OuterBounds.w movingOuter in
  if negb (snappedY st) then
    let dist := abs (OuterBounds.bottom movingOuter - Bounds.top otherInner) in
    let st :=
      if leb dist WALL_SNAP_TOLERANCE_CM then
        assignY st (Bounds.top otherInner - Room.heightCm movingRoom - WallSides.south movingWalls)
                   (Bounds.top otherInner)
      else st in
    let st :=
      if negb (snappedY st) then
        let dist := abs (OuterBounds.top movingOuter - Bounds.bottom otherInner) in
        if leb dist WALL_SNAP_TOLERANCE_CM then
          assignY st (Bounds.bottom otherInner + WallSides.north movingWalls)
                     (Bounds.bottom otherInner)
        else st
      else st in
    let st :=
      if negb (snappedY st) then
        let dist := abs (OuterBounds.top movingOuter - OuterBounds.top otherOuter) in
        if leb dist SNAP_TOLERANCE_CM then
          assignY st (OuterBounds.top otherOuter + WallSides.north movingWalls)
                     (OuterBounds.top otherOuter)
        else st
      else st in
    let st :=
      if negb (snappedY st) then
        let dist := abs (OuterBounds.bottom movingOuter - OuterBounds.bottom otherOuter) in
        if leb dist SNAP_TOLERANCE_CM then
          assignY st (OuterBounds.bottom otherOuter - Room.heightCm movingRoom - WallSides.south movingWalls)
                     (OuterBounds.bottom otherOuter)
        else st
      else st in
    st
  else st.

(** One iteration of [for (const other of others)], up to the [break]. *)
Definition snapBody (movingRoom : Room.t) (movingOuter : OuterBounds.t)
    (globalWallThicknessCm : float) (other : Room.t) (st : Locals) : Locals :=
  let otherInner := innerBoundsCm other (Room.xCm other) (Room.yCm other) in
  let otherOuter := outerBoundsCm other globalWallThicknessCm (Room.xCm other) (Room.yCm other) in
  snapYBlock movingRoom movingOuter otherInner otherOuter
    (snapXBlock movingRoom movingOuter otherInner otherOuter st).

(** The loop, with [if (snappedX && snappedY) break;]. *)
Fixpoint snapLoop (movingRoom : Room.t) (movingOuter : OuterBounds.t)
    (globalWallThicknessCm : float) (others : list Room.t) (st : Locals) : Locals :=
  match others with
  | [] => st
  | other :: rest =>
      let st' := snapBody movingRoom movingOuter globalWallThicknessCm other st in
      if snappedX st' && snappedY st' then st'
      else snapLoop movingRoom movingOuter globalWallThicknessCm rest st'
  end.

(** [allRooms.filter((r) => r.id !== movingRoom.id)] *)
Definition othersOf (movingRoom : Room.t) (allRooms : list Room.t) : list Room.t :=
  filter (fun r => negb (String.eqb (Room.id r) (Room.id movingRoom))) allRooms.

Definition initLocals (targetXCm targetYCm : float) : Locals :=
  {| snappedXCm := targetXCm; snappedYCm := targetYCm;
     snappedX := false; snappedY := false;
     xGuideCm := None; yGuideCm := None |}.

Definition calculateSnap (movingRoom : Room.t) (allRooms : list Room.t)
    (targetXCm targetYCm : float) (globalWallThicknessCm : float) : SnapResult.t :=
  let others := othersOf movingRoom allRooms in
  let movingOuter := outerBoundsCm movingRoom globalWallThicknessCm targetXCm targetYCm in
  let st := snapLoop movingRoom movingOuter globalWallThicknessCm others
              (initLocals targetXCm targetYCm) in
  {| SnapResult.xCm := snappedXCm st;
     SnapResult.yCm := snappedYCm st;
     SnapResult.snappedX := snappedX st;
     SnapResult.snappedY := snappedY st;
     SnapResult.xGuideCm := xGuideCm st;
     SnapResult.yGuideCm := yGuideCm st |}.

End Snap.

(** *** [src/editor/Snap]: snapping of a placed object *)

Module ObjectSnap.

Definition OBJECT_SNAP_TOLERANCE_CM : float := 25.
Definition OBJECT_TO_OBJECT_SNAP_TOLERANCE_CM : float := 15.

(** The mutable locals of [calculatePlacedObjectSnap]. *)
Record Locals := mkLocals {
  snappedX : bool;
  snappedY : bool;
  snappedXCm : float;
  snappedYCm : float;
  xGuideCm : option float;
  yGuideCm : option float;
  bestSnapDistX : float;
  bestSnapDistY : float
}.

(** The shape shared by every X test of the function:
    [if (dist <= tolerance && dist < bestSnapDistX)
       { snappedXCm = pos; snappedX = true; xGuideCm = guide; bestSnapDistX = dist; }] *)
Definition testX (dist tolerance pos guide : float) (st : Locals) : Locals :=
  if leb dist tolerance && ltb dist (bestSnapDistX st) then
    {| snappedX := true; snappedY := snappedY st;
       snappedXCm := pos; snappedYCm := snappedYCm st;
       xGuideCm := Some guide; yGuideCm := yGuideCm st;
       bestSnapDistX := dist; bestSnapDistY := bestSnapDistY st |}
  else st.

(** The shape shared by every Y test of the function. *)
Definition testY (dist tolerance pos guide : float) (st : Locals) : Locals :=
  if leb dist tolerance && ltb dist (bestSnapDistY st) then
    {| snappedX := snappedX st; snappedY := true;
       snappedXCm := snappedXCm st; snappedYCm := pos;
       xGuideCm := xGuideCm st; yGuideCm := Some guide;
       bestSnapDistX := bestSnapDistX st; bestSnapDistY := dist |}
  else st.

(** [currentObjectId && other.id === currentObjectId]: an absent or empty
    [currentObjectId] is falsy. *)
Definition isCurrent (currentObjectId : option string) (other : PlacedObjectForSnap.t) : bool :=
  match currentObjectId with
  | Some cur => negb (String.eqb cur EmptyString) && String.eqb (PlacedObjectForSnap.id other) cur
  | None => false
  end.

(** The four wall tests, in source order. *)
Definition snapToWalls (objWidthCm objHeightCm : float) (room : Room.t)
    (targetXCm targetYCm toleranceCm : float) (st : Locals) : Locals :=
  let leftEdge := Room.xCm room in
  let rightEdge := Room.xCm room + Room.widthCm room in
  let topEdge := Room.yCm room in
  let bottomEdge := Room.yCm room + Room.heightCm room in
  let objLeft := targetXCm in
  let objRight := targetXCm + objWidthCm in
  let objTop := targetYCm in
  let objBottom := targetYCm + objHeightCm in
  let distLeftToWall := abs (objLeft - leftEdge) in
  let st := testX distLeftToWall toleranceCm leftEdge leftEdge st in
  let distRightToWall := abs (objRight - rightEdge) in
  let st := testX distRightToWall toleranceCm (rightEdge - objWidthCm) rightEdge st in
  let distTopToWall := abs (objTop - topEdge) in
  let st := testY distTopToWall toleranceCm topEdge topEdge st in
  let distBottomToWall := abs (objBottom - bottomEdge) in
  let st := testY distBottomToWall toleranceCm (bottomEdge - objHeightCm) bottomEdge st in
  st.

(** The body of [for (const other of otherObjects)]. *)
Definition snapToOther (objWidthCm objHeightCm : float) (targetXCm targetYCm : float)
    (currentObjectId : option string) (st : Locals) (other : PlacedObjectForSnap.t) : Locals :=
  let objSnapTolerance := OBJECT_TO_OBJECT_SNAP_TOLERANCE_CM in
  let objLeft := targetXCm in
  let objRight := targetXCm + objWidthCm in
  let objTop := targetYCm in
  let objBottom := targetYCm + objHeightCm in
  if isCurrent currentObjectId other then st
  else
    let otherLeft := PlacedObjectForSnap.xCm other in
    let otherRight := PlacedObjectForSnap.xCm other + PlacedObjectForSnap.widthCm other in
    let otherTop := PlacedObjectForSnap.yCm other in
    let otherBottom := PlacedObjectForSnap.yCm other + PlacedObjectForSnap.heightCm other in
    let distLeftToOtherRight := abs (objLeft - otherRight) in
    let st := testX distLeftToOtherRight objSnapTolerance otherRight otherRight st in
    let distRightToOtherLeft := abs (objRight - otherLeft) in
    let st := testX distRightToOtherLeft objSnapTolerance (otherLeft - objWidthCm) otherLeft st in
    let distLeftToOtherLeft := abs (objLeft - otherLeft) in
    let st := testX distLeftToOtherLeft objSnapTolerance otherLeft otherLeft st in
    let distRightToOtherRight := abs (objRight - otherRight) in
    let st := testX distRightToOtherRight objSnapTolerance (otherRight - objWidthCm) otherRight st in
    let distTopToOtherBottom := abs (objTop - otherBottom) in
    let st := testY distTopToOtherBottom objSnapTolerance otherBottom otherBottom st in
    let distBottomToOtherTop := abs (objBottom - otherTop) in
    let st := testY distBottomToOtherTop objSnapTolerance (otherTop - objHeightCm) otherTop st in
    let distTopToOtherTop := abs (objTop - otherTop) in
    let st := testY distTopToOtherTop objSnapTolerance otherTop otherTop st in
    let distBottomToOtherBottom := abs (objBottom - otherBottom) in
    let st := testY distBottomToOtherBottom objSnapTolerance (otherBottom - objHeightCm) otherBottom st in
    st.

Definition initLocals (targetXCm targetYCm toleranceCm : float) : Locals :=
  {| snappedX := false; snappedY := false;
     snappedXCm := targetXCm; snappedYCm := targetYCm;
     xGuideCm := None; yGuideCm := None;
     bestSnapDistX := toleranceCm + 1; bestSnapDistY := toleranceCm + 1 |}.

(** [calculatePlacedObjectSnap(objWidthCm, objHeightCm, room, targetXCm,
    targetYCm, toleranceCm = OBJECT_SNAP_TOLERANCE_CM, otherObjects = [],
    currentObjectId?)]; a caller that omits [toleranceCm] or [otherObjects]
    passes the defaults. *)
Definition calculatePlacedObjectSnap (objWidthCm objHeightCm : float) (room : Room.t)
    (targetXCm targetYCm : float) (toleranceCm : float)
    (otherObjects : list PlacedObjectForSnap.t) (currentObjectId : option string)
  : SnapResult.t :=
  let st := snapToWalls objWidthCm objHeightCm room targetXCm targetYCm toleranceCm
              (initLocals targetXCm targetYCm toleranceCm) in
  let st := fold_left (snapToOther objWidthCm objHeightCm targetXCm targetYCm currentObjectId)
              otherObjects st in
  {| SnapResult.xCm := snappedXCm st;
     SnapResult.yCm := snappedYCm st;
     SnapResult.snappedX := snappedX st;
     SnapResult.snappedY := snappedY st;
     SnapResult.xGuideCm := xGuideCm st;
     SnapResult.yGuideCm := yGuideCm st |}.

(** **** The snap targets tested on each axis

    A target is what one [if] of the function tests: the distance of the
    object's edge to the target edge, the tolerance that applies to it, and
    the position the object takes when the target is chosen. *)
Record Target := mkTarget { dist : float; tolerance : float; pos : float }.

Definition wallTargetsX (objWidthCm : float) (room : Room.t) (targetXCm toleranceCm : float)
  : list Target :=
  let leftEdge := Room.xCm room in
  let rightEdge := Room.xCm room + Room.widthCm room in
  [ mkTarget (abs (targetXCm - leftEdge)) toleranceCm leftEdge;
    mkTarget (abs (targetXCm + objWidthCm - rightEdge)) toleranceCm (rightEdge - objWidthCm) ].

Definition wallTargetsY (objHeightCm : float) (room : Room.t) (targetYCm toleranceCm : float)
  : list Target :=
  let topEdge := Room.yCm room in
  let bottomEdge := Room.yCm room + Room.heightCm room in
  [ mkTarget (abs (targetYCm - topEdge)) toleranceCm topEdge;
    mkTarget (abs (targetYCm + objHeightCm - bottomEdge)) toleranceCm (bottomEdge - objHeightCm) ].

Definition otherTargetsX (objWidthCm targetXCm : float) (currentObjectId : option string)
    (other : PlacedObjectForSnap.t) : list Target :=
  if isCurrent currentObjectId other then []
  else
    let otherLeft := PlacedObjectForSnap.xCm other in
    let otherRight := PlacedObjectForSnap.xCm other + PlacedObjectForSnap.widthCm other in
    let t := OBJECT_TO_OBJECT_SNAP_TOLERANCE_CM in
    [ mkTarget (abs (targetXCm - otherRight)) t otherRight;
      mkTarget (abs (targetXCm + objWidthCm - otherLeft)) t (otherLeft - objWidthCm);
      mkTarget (abs (targetXCm - otherLeft)) t otherLeft;
      mkTarget (abs (targetXCm + objWidthCm - otherRight)) t (otherRight - objWidthCm) ].

Definition otherTargetsY (objHeightCm targetYCm : float) (currentObjectId : option string)
    (other : PlacedObjectForSnap.t) : list Target :=
  if isCurrent currentObjectId other then []
  else
    let otherTop := PlacedObjectForSnap.yCm other in
    let otherBottom := PlacedObjectForSnap.yCm other + PlacedObjectForSnap.heightCm other in
    let t := OBJECT_TO_OBJECT_SNAP_TOLERANCE_CM in
    [ mkTarget (abs (targetYCm - otherBottom)) t otherBottom;
      mkTarget (abs (targetYCm + objHeightCm - otherTop)) t (otherTop - objHeightCm);
      mkTarget (abs (targetYCm - otherTop)) t otherTop;
      mkTarget (abs (targetYCm + objHeightCm - otherBottom)) t (otherBottom - objHeightCm) ].

(** Every target the function tests on the X axis, in the order of the tests. *)
Definition targetsX (objWidthCm : float) (room : Room.t) (targetXCm toleranceCm : float)
    (otherObjects : list PlacedObjectForSnap.t) (currentObjectId : option string)
  : list Target :=
  wallTargetsX objWidthCm room targetXCm toleranceCm
  ++ flat_map (otherTargetsX objWidthCm targetXCm currentObjectId) otherObjects.

(** Every target the function tests on the Y axis, in the order of the tests. *)
Definition targetsY (objHeightCm : float) (room : Room.t) (targetYCm toleranceCm : float)
    (otherObjects : list PlacedObjectForSnap.t) (currentObjectId : option string)
  : list Target :=
  wallTargetsY objHeightCm room targetYCm toleranceCm
  ++ flat_map (otherTargetsY objHeightCm targetYCm currentObjectId) otherObjects.

(** **** One axis of the function

    The function runs its X tests and its Y tests on separate locals. *)

(** What the function tracks for one axis: the position, the snapped flag
    and the best distance so far. *)
Record Best := mkBest { bestPos : float; bestSnapped : bool; bestDist : float }.

(** One test on a target, seen on its axis alone. *)
Definition pick (b : Best) (c : Target) : Best :=
  if leb (dist c) (tolerance c) && ltb (dist c) (bestDist b)
  then mkBest (pos c) true (dist c)
  else b.

Definition bestX (st : Locals) : Best :=
  mkBest (snappedXCm st) (snappedX st) (bestSnapDistX st).

Definition bestY (st : Locals) : Best :=
  mkBest (snappedYCm st) (snappedY st) (bestSnapDistY st).

(** [dist <= tolerance], as the code tests it. *)
Definition withinToleranceb (c : Target) : bool := leb (dist c) (tolerance c).

End ObjectSnap.

(** *** The tests of [calculateSnap], as data

    Each [if (dist <= tolerance)] of the loop body is a test: the distance
    it measures, its tolerance, the coordinate it assigns and the guide it
    reports.  The lists keep the order of the source. *)

Module SnapTests.

Record Test := mkTest { dist : float; tolerance : float; pos : float; guide : float }.

Definition matches (c : Test) : bool := leb (dist c) (tolerance c).

(** The four tests of the [=== SNAP X ===] block against one neighbour:
    the two wall-overlap tests, then the two outer-edge alignments. *)
Definition testsX (movingRoom : Room.t) (movingOuter : OuterBounds.t)
    (globalWallThicknessCm : float) (other : Room.t) : list Test :=
  let otherInner := Snap.innerBoundsCm other (Room.xCm other) (Room.yCm other) in
  let otherOuter := Snap.outerBoundsCm other globalWallThicknessCm (Room.xCm other) (Room.yCm other) in
  let movingWalls := OuterBounds.w movingOuter in
  [ mkTest (abs (OuterBounds.right movingOuter - Bounds.left otherInner))
           Snap.WALL_SNAP_TOLERANCE_CM
           (Bounds.left otherInner - Room.widthCm movingRoom - WallSides.east movingWalls)
           (Bounds.left otherInner);
    mkTest (abs (OuterBounds.left movingOuter - Bounds.right otherInner))
           Snap.WALL_SNAP_TOLERANCE_CM
           (Bounds.right otherInner + WallSides.west movingWalls)
           (Bounds.right otherInner);
    mkTest (abs (OuterBounds.left movingOuter - OuterBounds.left otherOuter))
           Snap.SNAP_TOLERANCE_CM
           (OuterBounds.left otherOuter + WallSides.west movingWalls)
           (OuterBounds.left otherOuter);
    mkTest (abs (OuterBounds.right movingOuter - OuterBounds.right otherOuter))
           Snap.SNAP_TOLERANCE_CM
           (OuterBounds.right otherOuter - Room.widthCm movingRoom - WallSides.east movingWalls)
           (OuterBounds.right otherOuter) ].

(** The four tests of the [=== SNAP Y ===] block against one neighbour. *)
Definition testsY (movingRoom : Room.t) (movingOuter : OuterBounds.t)
    (globalWallThicknessCm : float) (other : Room.t) : list Test :=
  let otherInner := Snap.innerBoundsCm other (Room.xCm other) (Room.yCm other) in
  let otherOuter := Snap.outerBoundsCm other globalWallThicknessCm (Room.xCm other) (Room.yCm other) in
  let movingWalls := OuterBounds.w movingOuter in
  [ mkTest (abs (OuterBounds.bottom movingOuter - Bounds.top otherInner))
           Snap.WALL_SNAP_TOLERANCE_CM
           (Bounds.top otherInner - Room.heightCm movingRoom - WallSides.south movingWalls)
           (Bounds.top otherInner);
    mkTest (abs (OuterBounds.top movingOuter - Bounds.bottom otherInner))
           Snap.WALL_SNAP_TOLERANCE_CM
           (Bounds.bottom otherInner + WallSides.north movingWalls)
           (Bounds.bottom otherInner);
    mkTest (abs (OuterBounds.top movingOuter - OuterBounds.top otherOuter))
           Snap.SNAP_TOLERANCE_CM
           (OuterBounds.top otherOuter + WallSides.north movingWalls)
           (OuterBounds.top otherOuter);
    mkTest (abs (OuterBounds.bottom movingOuter - OuterBounds.bottom otherOuter))
           Snap.SNAP_TOLERANCE_CM
           (OuterBounds.bottom otherOuter - Room.heightCm movingRoom - WallSides.south movingWalls)
           (OuterBounds.bottom otherOuter) ].

(** What one axis of the result holds: coordinate, snapped flag, guide. *)
Definition Axis : Type := (float * bool * option float)%type.

(** First match wins: the first test of the list whose distance is within
    its tolerance decides the axis; with none, the target is kept. *)
Definition firstMatch (target : float) (tests : list Test) : Axis :=
  match find matches tests with
  | Some c => (pos c, true, Some (guide c))
  | None => (target, false, None)
  end.

Definition axisX (r : SnapResult.t) : Axis :=
  (SnapResult.xCm r, SnapResult.snappedX r, SnapResult.xGuideCm r).

Definition axisY (r : SnapResult.t) : Axis :=
  (SnapResult.yCm r, SnapResult.snappedY r, SnapResult.yGuideCm r).

(** All X tests of a call, neighbour after neighbour. *)
Definition allTestsX (movingRoom : Room.t) (allRooms : list Room.t)
    (targetXCm targetYCm globalWallThicknessCm : float) : list Test :=
  flat_map (testsX movingRoom
              (Snap.outerBoundsCm movingRoom globalWallThicknessCm targetXCm targetYCm)
              globalWallThicknessCm)
           (Snap.othersOf movingRoom allRooms).

(** All Y tests of a call, neighbour after neighbour. *)
Definition allTestsY (movingRoom : Room.t) (allRooms : list Room.t)
    (targetXCm targetYCm globalWallThicknessCm : float) : list Test :=
  flat_map (testsY movingRoom
              (Snap.outerBoundsCm movingRoom globalWallThicknessCm targetXCm targetYCm)
              globalWallThicknessCm)
           (Snap.othersOf movingRoom allRooms).

(** The outer edges of the moving room when it is placed at a position. *)
Definition outerLeftAt (movingRoom : Room.t) (g xCm : float) : float :=
  OuterBounds.left (Snap.outerBoundsCm movingRoom g xCm 0).
Definition outerRightAt (movingRoom : Room.t) (g xCm : float) : float :=
  OuterBounds.right (Snap.outerBoundsCm movingRoom g xCm 0).
Definition outerTopAt (movingRoom : Room.t) (g yCm : float) : float :=
  OuterBounds.top (Snap.outerBoundsCm movingRoom g 0 yCm).
Definition outerBottomAt (movingRoom : Room.t) (g yCm : float) : float :=
  OuterBounds.bottom (Snap.outerBoundsCm movingRoom g 0 yCm).

(** The inner edges of a neighbour at its stored position. *)
Definition innerOf (other : Room.t) : Bounds.t :=
  Snap.innerBoundsCm other (Room.xCm other) (Room.yCm other).

(** The outer edges of a neighbour at its stored position. *)
Definition outerOf (other : Room.t) (globalWallThicknessCm : float) : OuterBounds.t :=
  Snap.outerBoundsCm other globalWallThicknessCm (Room.xCm other) (Room.yCm other).

(** The X and Y locals of the loop, as axes. *)
Definition locX (st : Snap.Locals) : Axis := (Snap.snappedXCm st, Snap.snappedX st, Snap.xGuideCm st).
Definition locY (st : Snap.Locals) : Axis := (Snap.snappedYCm st, Snap.snappedY st, Snap.yGuideCm st).

(** Continue an axis with more tests: a snapped axis stays as it is. *)
Definition continueAxis (a : Axis) (tests : list Test) : Axis :=
  if snd (fst a) then a
  else match find matches tests with
       | Some c => (pos c, true, Some (guide c))
       | None => a
       end.

End SnapTests.

(** *** [getVisualBounds] and [visualToStorage] of [handleSvgPointerMove] *)

Module VisualBounds.
(** The object returned by [getVisualBounds]. *)
Record t := mk { x : float; y : float; w : float; h : float }.
End VisualBounds.

Module StorageCoords.
(** The object returned by [visualToStorage]. *)
Record t := mk { xCm : float; yCm : float }.
End StorageCoords.

Definition getVisualBounds (objXCm objYCm origW origH : float) (rotationDeg : Z)
  : VisualBounds.t :=
  if negb (Editor.isRotated rotationDeg) then
    {| VisualBounds.x := objXCm; VisualBounds.y := objYCm;
       VisualBounds.w := origW; VisualBounds.h := origH |}
  else
    let centerX := objXCm + origW / 2 in
    let centerY := objYCm + origH / 2 in
    let newW := origH in
    let newH := origW in
    {| VisualBounds.x := centerX - newW / 2;
       VisualBounds.y := centerY - newH / 2;
       VisualBounds.w := newW;
       VisualBounds.h := newH |}.

Definition visualToStorage (visualX visualY origW origH : float) (rotationDeg : Z)
  : StorageCoords.t :=
  if negb (Editor.isRotated rotationDeg) then
    {| StorageCoords.xCm := visualX; StorageCoords.yCm := visualY |}
  else
    let newW := origH in
    let newH := origW in
    let centerX := visualX + newW / 2 in
    let centerY := visualY + newH / 2 in
    {| StorageCoords.xCm := centerX - origW / 2;
       StorageCoords.yCm := centerY - origH / 2 |}.

(** [visualToStorage] applied to the top-left corner of [getVisualBounds]. *)
Definition roundTrip (x y w h : float) (rotationDeg : Z) : StorageCoords.t :=
  let v := getVisualBounds x y w h rotationDeg in
  visualToStorage (VisualBounds.x v) (VisualBounds.y v) w h rotationDeg.

(** *** Example rooms and objects *)

Module Examples.

Definition room (id : string) (xCm yCm widthCm heightCm : float)
    (walls : option float) : Room.t :=
  {| Room.id := id; Room.name := id;
     Room.xCm := xCm; Room.yCm := yCm; Room.widthCm := widthCm; Room.heightCm := heightCm;
     Room.wallThickness :=
       match walls with
       | Some t => Some {| WallThickness.north := Some t; WallThickness.south := Some t;
                           WallThickness.east := Some t; WallThickness.west := Some t |}
       | None => None
       end |}.

(** The rooms of the specification's example: A at (0,0), 300 by 400, with
    10 cm walls; B, 200 by 400, the room being dragged; M further down
    with its inner right edge at 310; S and T of the minimum width. *)
Definition roomA : Room.t := room "A" 0 0 300 400 (Some 10).
Definition roomB : Room.t := room "B" 500 0 200 400 None.
Definition roomM : Room.t := room "M" 0 1000 310 200 None.
Definition roomS : Room.t := room "S" 100 0 10 400 None.
Definition roomT : Room.t := room "T" 300 0 10 400 None.

(** A neighbour whose inner right edge is at 250, and a dragged room with
    walls of 10.1 cm. *)
Definition roomN : Room.t := room "N" 0 0 250 400 None.
Definition roomR : Room.t := room "R" 600 0 200 400 (Some 10.1).

(** A neighbour at x = 255.1 and a dragged room 75.8 cm wide with walls of
    25.4 cm. *)
Definition roomP : Room.t := room "P" 255.1 0 300 400 None.
Definition roomQ : Room.t := room "Q" 0 0 75.8 400 (Some 25.4).

(** A large room holding two objects: [objA] with its right edge at
    50 + 64.1, [objB] with its left edge at 172.3. *)
Definition hall : Room.t := room "H" 0 0 1000 1000 None.

Definition objA : PlacedObjectForSnap.t :=
  {| PlacedObjectForSnap.id := "a"; PlacedObjectForSnap.xCm := 50;
     PlacedObjectForSnap.yCm := 500; PlacedObjectForSnap.widthCm := 64.1;
     PlacedObjectForSnap.heightCm := 50 |}.

Definition objB : PlacedObjectForSnap.t :=
  {| PlacedObjectForSnap.id := "b"; PlacedObjectForSnap.xCm := 172.3;
     PlacedObjectForSnap.yCm := 700; PlacedObjectForSnap.widthCm := 60;
     PlacedObjectForSnap.heightCm := 50 |}.

(** Two objects whose left edges are 8 cm and 10 cm from the right edge
    (150) of a dragged 50 by 50 object with target (100, 100). *)
Definition obj1 : PlacedObjectForSnap.t :=
  {| PlacedObjectForSnap.id := "o1"; PlacedObjectForSnap.xCm := 158;
     PlacedObjectForSnap.yCm := 160; PlacedObjectForSnap.widthCm := 50;
     PlacedObjectForSnap.heightCm := 50 |}.

Definition obj2 : PlacedObjectForSnap.t :=
  {| PlacedObjectForSnap.id := "o2"; PlacedObjectForSnap.xCm := 160;
     PlacedObjectForSnap.yCm := 300; PlacedObjectForSnap.widthCm := 50;
     PlacedObjectForSnap.heightCm := 50 |}.

(** "My right to other's left", against [obj1] and against [obj2]. *)
Definition nearX : ObjectSnap.Target := ObjectSnap.mkTarget (abs (100 + 50 - 158)) 15 (158 - 50).
Definition farX : ObjectSnap.Target := ObjectSnap.mkTarget (abs (100 + 50 - 160)) 15 (160 - 50).

End Examples.

End Doubles.

(** * Properties *)

(** ** Numbers *)

Lemma Qle_bool_true (a b : Q) : Qle_bool a b = true <-> a <= b.
Proof. apply Qle_bool_iff. Qed.

Lemma Qle_bool_false (a b : Q) : Qle_bool a b = false <-> ~ a <= b.
Proof.
  split.
  - intros H Hle. apply Qle_bool_iff in Hle. congruence.
  - intros H. destruct (Qle_bool a b) eqn:E; [|reflexivity].
    apply Qle_bool_iff in E. contradiction.
Qed.

Lemma Qlt_bool_true (a b : Q) : Qlt_bool a b = true <-> a < b.
Proof.
  unfold Qlt_bool. rewrite negb_true_iff, Qle_bool_false.
  split; [apply Qnot_le_lt | apply Qlt_not_le].
Qed.

Lemma Qlt_bool_false (a b : Q) : Qlt_bool a b = false <-> b <= a.
Proof. unfold Qlt_bool. rewrite negb_false_iff. apply Qle_bool_iff. Qed.

(** Settle a comparison between concrete numbers by evaluation. *)
Ltac q_eval :=
  vm_compute;
  first [ reflexivity
        | discriminate
        | let H := fresh in intros H; apply H; first [reflexivity | discriminate] ].

(** A bound on an absolute value, as two linear bounds. *)
Lemma Qabs_le_iff (a t : Q) : Qabs a <= t <-> - t <= a /\ a <= t.
Proof. apply Qabs_Qle_condition. Qed.

Lemma find_app {A : Type} (f : A -> bool) (l1 l2 : list A) :
  find f (l1 ++ l2) = match find f l1 with Some x => Some x | None => find f l2 end.
Proof.
  induction l1 as [|a l1 IH]; simpl; [reflexivity|].
  destruct (f a); [reflexivity | exact IH].
Qed.

(** ** Room snapping: each axis is decided by the first matching test *)

Module SnapFacts.
Import Snap SnapTests.

Lemma continueAxis_app (a : Axis) (l1 l2 : list Test) :
  continueAxis (continueAxis a l1) l2 = continueAxis a (l1 ++ l2).
Proof.
  destruct a as [[x b] gd]. unfold continueAxis. simpl.
  destruct b; simpl; [reflexivity|].
  rewrite find_app. destruct (find matches l1); reflexivity.
Qed.

Lemma continueAxis_snapped (a : Axis) (l : list Test) :
  snd (fst a) = true -> continueAxis a l = a.
Proof. intros H. unfold continueAxis. rewrite H. reflexivity. Qed.

Lemma continueAxis_init (target : Q) (l : list Test) :
  continueAxis (target, false, None) l = firstMatch target l.
Proof. reflexivity. Qed.

Lemma snapXBlock_locX R mo g o st :
  locX (snapXBlock R mo (innerBoundsCm o (Room.xCm o) (Room.yCm o))
          (outerBoundsCm o g (Room.xCm o) (Room.yCm o)) st)
  = continueAxis (locX st) (testsX R mo g o).
Proof.
  destruct st as [x y sx sy gx gy].
  unfold snapXBlock, continueAxis, locX, testsX, matches. cbn -[Qle_bool Qabs].
  destruct sx; cbn -[Qle_bool Qabs]; [reflexivity|].
  repeat (match goal with
          | |- context [Qle_bool ?a ?b] => destruct (Qle_bool a b); cbn -[Qle_bool Qabs]
          end); reflexivity.
Qed.

Lemma snapXBlock_locY R mo oi oo st : locY (snapXBlock R mo oi oo st) = locY st.
Proof.
  destruct st as [x y sx sy gx gy].
  unfold snapXBlock, locY. cbn -[Qle_bool Qabs].
  destruct sx; cbn -[Qle_bool Qabs]; [reflexivity|].
  repeat (match goal with
          | |- context [Qle_bool ?a ?b] => destruct (Qle_bool a b); cbn -[Qle_bool Qabs]
          end); reflexivity.
Qed.

Lemma snapYBlock_locY R mo g o st :
  locY (snapYBlock R mo (innerBoundsCm o (Room.xCm o) (Room.yCm o))
          (outerBoundsCm o g (Room.xCm o) (Room.yCm o)) st)
  = continueAxis (locY st) (testsY R mo g o).
Proof.
  destruct st as [x y sx sy gx gy].
  unfold snapYBlock, continueAxis, locY, testsY, matches. cbn -[Qle_bool Qabs].
  destruct sy; cbn -[Qle_bool Qabs]; [reflexivity|].
  repeat (match goal with
          | |- context [Qle_bool ?a ?b] => destruct (Qle_bool a b); cbn -[Qle_bool Qabs]
          end); reflexivity.
Qed.

Lemma snapYBlock_locX R mo oi oo st : locX (snapYBlock R mo oi oo st) = locX st.
Proof.
  destruct st as [x y sx sy gx gy].
  unfold snapYBlock, locX. cbn -[Qle_bool Qabs].
  destruct sy; cbn -[Qle_bool Qabs]; [reflexivity|].
  repeat (match goal with
          | |- context [Qle_bool ?a ?b] => destruct (Qle_bool a b); cbn -[Qle_bool Qabs]
          end); reflexivity.
Qed.

Lemma snapBody_locX R mo g o st :
  locX (snapBody R mo g o st) = continueAxis (locX st) (testsX R mo g o).
Proof. unfold snapBody. rewrite snapYBlock_locX. apply snapXBlock_locX. Qed.

Lemma snapBody_locY R mo g o st :
  locY (snapBody R mo g o st) = continueAxis (locY st) (testsY R mo g o).
Proof. unfold snapBody. rewrite snapYBlock_locY, snapXBlock_locY. reflexivity. Qed.

Lemma locX_snapped st : snd (fst (locX st)) = snappedX st.
Proof. reflexivity. Qed.

Lemma locY_snapped st : snd (fst (locY st)) = snappedY st.
Proof. reflexivity. Qed.

Lemma snapLoop_locX R mo g others : forall st,
  locX (snapLoop R mo g others st) = continueAxis (locX st) (flat_map (testsX R mo g) others).
Proof.
  induction others as [|o rest IH]; intros st; cbn [snapLoop flat_map].
  - destruct (locX st) as [[x b] gd]. unfold continueAxis. simpl. destruct b; reflexivity.
  - rewrite <- continueAxis_app, <- snapBody_locX.
    destruct (snappedX (snapBody R mo g o st) && snappedY (snapBody R mo g o st)) eqn:E.
    + apply andb_true_iff in E. destruct E as [Ex _].
      symmetry. apply continueAxis_snapped. rewrite locX_snapped. exact Ex.
    + apply IH.
Qed.

Lemma snapLoop_locY R mo g others : forall st,
  locY (snapLoop R mo g others st) = continueAxis (locY st) (flat_map (testsY R mo g) others).
Proof.
  induction others as [|o rest IH]; intros st; cbn [snapLoop flat_map].
  - destruct (locY st) as [[x b] gd]. unfold continueAxis. simpl. destruct b; reflexivity.
  - rewrite <- continueAxis_app, <- snapBody_locY.
    destruct (snappedX (snapBody R mo g o st) && snappedY (snapBody R mo g o st)) eqn:E.
    + apply andb_true_iff in E. destruct E as [_ Ey].
      symmetry. apply continueAxis_snapped. rewrite locY_snapped. exact Ey.
    + apply IH.
Qed.

Lemma calculateSnap_axisX R allRooms tx ty g :
  axisX (calculateSnap R allRooms tx ty g) = firstMatch tx (allTestsX R allRooms tx ty g).
Proof.
  unfold calculateSnap, axisX, allTestsX. cbn [SnapResult.xCm SnapResult.snappedX SnapResult.xGuideCm].
  rewrite <- continueAxis_init.
  exact (snapLoop_locX R _ g _ (initLocals tx ty)).
Qed.

Lemma calculateSnap_axisY R allRooms tx ty g :
  axisY (calculateSnap R allRooms tx ty g) = firstMatch ty (allTestsY R allRooms tx ty g).
Proof.
  unfold calculateSnap, axisY, allTestsY. cbn [SnapResult.yCm SnapResult.snappedY SnapResult.yGuideCm].
  rewrite <- continueAxis_init.
  exact (snapLoop_locY R _ g _ (initLocals tx ty)).
Qed.

End SnapFacts.

(** ** Room snapping: prefixes of the room list *)

Module SnapPrefix.
Import Snap SnapTests SnapFacts.

Lemma othersOf_app R (pre post : list Room.t) :
  othersOf R (pre ++ post) = othersOf R pre ++ othersOf R post.
Proof. unfold othersOf. apply filter_app. Qed.

Lemma allTestsX_app R pre post tx ty g :
  allTestsX R (pre ++ post) tx ty g = allTestsX R pre tx ty g ++ allTestsX R post tx ty g.
Proof. unfold allTestsX. rewrite othersOf_app. apply flat_map_app. Qed.

Lemma allTestsY_app R pre post tx ty g :
  allTestsY R (pre ++ post) tx ty g = allTestsY R pre tx ty g ++ allTestsY R post tx ty g.
Proof. unfold allTestsY. rewrite othersOf_app. apply flat_map_app. Qed.

Lemma firstMatch_snapped target tests :
  snd (fst (firstMatch target tests)) = true ->
  forall more, firstMatch target (tests ++ more) = firstMatch target tests.
Proof.
  unfold firstMatch. intros H more. rewrite find_app.
  destruct (find matches tests); [reflexivity | discriminate H].
Qed.

Lemma snappedX_axisX r : SnapResult.snappedX r = snd (fst (axisX r)).
Proof. reflexivity. Qed.

Lemma snappedY_axisY r : SnapResult.snappedY r = snd (fst (axisY r)).
Proof. reflexivity. Qed.

Lemma axes_eq (r1 r2 : SnapResult.t) :
  axisX r1 = axisX r2 -> axisY r1 = axisY r2 -> r1 = r2.
Proof.
  destruct r1, r2. unfold axisX, axisY. simpl. intros H1 H2.
  inversion H1. inversion H2. reflexivity.
Qed.

(** Once both flags are set after a prefix of the neighbours, the rest of
    the list is not examined. *)
Lemma snapLoopExamined_stops R mo g : forall pre post st,
  snappedX st && snappedY st = false ->
  snappedX (snapLoop R mo g pre st) && snappedY (snapLoop R mo g pre st) = true ->
  snapLoopExamined R mo g (pre ++ post) st = snapLoopExamined R mo g pre st.
Proof.
  induction pre as [|o pre IH]; intros post st Hst Hpre.
  - simpl in Hpre. congruence.
  - cbn [snapLoop snapLoopExamined app] in *.
    destruct (snappedX (snapBody R mo g o st) && snappedY (snapBody R mo g o st)) eqn:E.
    + reflexivity.
    + f_equal. apply IH; assumption.
Qed.

Lemma snapLoopExamined_prefix R mo g : forall others st,
  exists rest, others = snapLoopExamined R mo g others st ++ rest.
Proof.
  induction others as [|o others IH]; intros st.
  - exists []. reflexivity.
  - cbn [snapLoopExamined].
    destruct (snappedX (snapBody R mo g o st) && snappedY (snapBody R mo g o st)).
    + exists others. reflexivity.
    + destruct (IH (snapBody R mo g o st)) as [rest Hrest].
      exists rest. simpl. f_equal. exact Hrest.
Qed.

End SnapPrefix.

(** ** Room snapping: the claims *)

Import Snap SnapTests.

(** C5.  In [calculateSnap] each axis is decided by the first matching
    test, the tests being taken neighbour after neighbour in list order
    and, for one neighbour, in the order wall-overlap (15 cm) before
    outer-edge alignment (2 cm).  Once an axis has snapped for the rooms
    of a prefix of the list, the rooms after it do not change that axis.
    Once both axes have snapped the loop stops: the result is the one of
    the prefix and no later neighbour is examined. *)
Theorem calculateSnap_first_match_wins :
  forall (movingRoom : Room.t) (allRooms : list Room.t) (tx ty g : Q),
    axisX (calculateSnap movingRoom allRooms tx ty g)
      = firstMatch tx (allTestsX movingRoom allRooms tx ty g)
    /\ axisY (calculateSnap movingRoom allRooms tx ty g)
      = firstMatch ty (allTestsY movingRoom allRooms tx ty g)
    /\ (forall other,
          map tolerance (testsX movingRoom (outerBoundsCm movingRoom g tx ty) g other)
            = [WALL_SNAP_TOLERANCE_CM; WALL_SNAP_TOLERANCE_CM; SNAP_TOLERANCE_CM; SNAP_TOLERANCE_CM]
          /\ map tolerance (testsY movingRoom (outerBoundsCm movingRoom g tx ty) g other)
            = [WALL_SNAP_TOLERANCE_CM; WALL_SNAP_TOLERANCE_CM; SNAP_TOLERANCE_CM; SNAP_TOLERANCE_CM])
    /\ (forall pre post, allRooms = pre ++ post ->
          SnapResult.snappedX (calculateSnap movingRoom pre tx ty g) = true ->
          axisX (calculateSnap movingRoom allRooms tx ty g)
            = axisX (calculateSnap movingRoom pre tx ty g))
    /\ (forall pre post, allRooms = pre ++ post ->
          SnapResult.snappedY (calculateSnap movingRoom pre tx ty g) = true ->
          axisY (calculateSnap movingRoom allRooms tx ty g)
            = axisY (calculateSnap movingRoom pre tx ty g))
    /\ (forall pre post, allRooms = pre ++ post ->
          SnapResult.snappedX (calculateSnap movingRoom pre tx ty g) = true ->
          SnapResult.snappedY (calculateSnap movingRoom pre tx ty g) = true ->
          calculateSnap movingRoom allRooms tx ty g = calculateSnap movingRoom pre tx ty g
          /\ examinedNeighbours movingRoom allRooms tx ty g
             = examinedNeighbours movingRoom pre tx ty g).
Proof.
  intros R allRooms tx ty g.
  assert (HX : forall pre post, allRooms = pre ++ post ->
            SnapResult.snappedX (calculateSnap R pre tx ty g) = true ->
            axisX (calculateSnap R allRooms tx ty g) = axisX (calculateSnap R pre tx ty g)).
  { intros pre post -> Hs.
    rewrite SnapPrefix.snappedX_axisX, SnapFacts.calculateSnap_axisX in Hs.
    rewrite !SnapFacts.calculateSnap_axisX, SnapPrefix.allTestsX_app.
    apply SnapPrefix.firstMatch_snapped. exact Hs. }
  assert (HY : forall pre post, allRooms = pre ++ post ->
            SnapResult.snappedY (calculateSnap R pre tx ty g) = true ->
            axisY (calculateSnap R allRooms tx ty g) = axisY (calculateSnap R pre tx ty g)).
  { intros pre post -> Hs.
    rewrite SnapPrefix.snappedY_axisY, SnapFacts.calculateSnap_axisY in Hs.
    rewrite !SnapFacts.calculateSnap_axisY, SnapPrefix.allTestsY_app.
    apply SnapPrefix.firstMatch_snapped. exact Hs. }
  split; [apply SnapFacts.calculateSnap_axisX|].
  split; [apply SnapFacts.calculateSnap_axisY|].
  split; [intros other; split; reflexivity|].
  split; [exact HX|]. split; [exact HY|].
  intros pre post Hsplit Hsx Hsy. split.
  - apply SnapPrefix.axes_eq; [eapply HX | eapply HY]; eassumption.
  - subst allRooms. unfold examinedNeighbours. rewrite SnapPrefix.othersOf_app.
    apply SnapPrefix.snapLoopExamined_stops; [reflexivity|].
    unfold calculateSnap in Hsx, Hsy.
    cbn [SnapResult.snappedX SnapResult.snappedY] in Hsx, Hsy.
    rewrite Hsx, Hsy. reflexivity.
Qed.

(** C6.  Two calls of [calculateSnap] that differ only in [targetXCm]
    return the same [yCm], [snappedY] and [yGuideCm]; two calls that differ
    only in [targetYCm] return the same [xCm], [snappedX] and [xGuideCm]. *)
Theorem calculateSnap_axes_independent :
  forall (movingRoom : Room.t) (allRooms : list Room.t) (tx tx' ty ty' g : Q),
    (SnapResult.yCm (calculateSnap movingRoom allRooms tx ty g)
       = SnapResult.yCm (calculateSnap movingRoom allRooms tx' ty g)
     /\ SnapResult.snappedY (calculateSnap movingRoom allRooms tx ty g)
       = SnapResult.snappedY (calculateSnap movingRoom allRooms tx' ty g)
     /\ SnapResult.yGuideCm (calculateSnap movingRoom allRooms tx ty g)
       = SnapResult.yGuideCm (calculateSnap movingRoom allRooms tx' ty g))
    /\ (SnapResult.xCm (calculateSnap movingRoom allRooms tx ty g)
       = SnapResult.xCm (calculateSnap movingRoom allRooms tx ty' g)
     /\ SnapResult.snappedX (calculateSnap movingRoom allRooms tx ty g)
       = SnapResult.snappedX (calculateSnap movingRoom allRooms tx ty' g)
     /\ SnapResult.xGuideCm (calculateSnap movingRoom allRooms tx ty g)
       = SnapResult.xGuideCm (calculateSnap movingRoom allRooms tx ty' g)).
Proof.
  intros R allRooms tx tx' ty ty' g.
  assert (HY : axisY (calculateSnap R allRooms tx ty g)
               = axisY (calculateSnap R allRooms tx' ty g)).
  { rewrite !SnapFacts.calculateSnap_axisY. reflexivity. }
  assert (HX : axisX (calculateSnap R allRooms tx ty g)
               = axisX (calculateSnap R allRooms tx ty' g)).
  { rewrite !SnapFacts.calculateSnap_axisX. reflexivity. }
  unfold axisX in HX. unfold axisY in HY.
  repeat split.
  - exact (f_equal (fun a => fst (fst a)) HY).
  - exact (f_equal (fun a => snd (fst a)) HY).
  - exact (f_equal snd HY).
  - exact (f_equal (fun a => fst (fst a)) HX).
  - exact (f_equal (fun a => snd (fst a)) HX).
  - exact (f_equal snd HX).
Qed.

Example calculateSnap_two_neighbours :
  calculateSnap Examples.roomB [Examples.roomM; Examples.roomA; Examples.roomB] 315 0 10
  = {| SnapResult.xCm := 310 + 10; SnapResult.yCm := 0 - 10 + 10;
       SnapResult.snappedX := true; SnapResult.snappedY := true;
       SnapResult.xGuideCm := Some 310; SnapResult.yGuideCm := Some (0 - 10) |}.
Proof. vm_compute. reflexivity. Qed.




Lemma calculateSnap_first_match_wins_witness :
  axisX (calculateSnap Examples.roomB ([Examples.roomA] ++ [Examples.roomM]) 315 0 10)
    = axisX (calculateSnap Examples.roomB [Examples.roomA] 315 0 10)
  /\ axisY (calculateSnap Examples.roomB ([Examples.roomA] ++ [Examples.roomM]) 315 0 10)
    = axisY (calculateSnap Examples.roomB [Examples.roomA] 315 0 10)
  /\ calculateSnap Examples.roomB ([Examples.roomA] ++ [Examples.roomM]) 315 0 10
    = calculateSnap Examples.roomB [Examples.roomA] 315 0 10
  /\ examinedNeighbours Examples.roomB ([Examples.roomA] ++ [Examples.roomM]) 315 0 10
    = examinedNeighbours Examples.roomB [Examples.roomA] 315 0 10.
Proof.
  destruct (calculateSnap_first_match_wins Examples.roomB
              ([Examples.roomA] ++ [Examples.roomM]) 315 0 10)
    as (_ & _ & _ & HX & HY & Hboth).
  split; [apply (HX [Examples.roomA] [Examples.roomM] eq_refl); reflexivity|].
  split; [apply (HY [Examples.roomA] [Examples.roomM] eq_refl); reflexivity|].
  apply (Hboth [Examples.roomA] [Examples.roomM] eq_refl); reflexivity.
Defined.

Example calculateSnap_stops_after_roomA :
  examinedNeighbours Examples.roomB [Examples.roomA; Examples.roomM; Examples.roomB] 315 0 10
  = [Examples.roomA].
Proof. vm_compute. reflexivity. Qed.

(** ** Object snapping: each axis keeps the nearest target *)

Module ObjectSnapFacts.
Import ObjectSnap.


Lemma testX_bestX d t p gd st : bestX (testX d t p gd st) = pick (bestX st) (mkTarget d t p).
Proof.
  unfold testX, pick, bestX. cbn [dist tolerance pos bestDist].
  destruct (Qle_bool d t && Qlt_bool d (bestSnapDistX st)); reflexivity.
Qed.

Lemma testX_bestY d t p gd st : bestY (testX d t p gd st) = bestY st.
Proof.
  unfold testX, bestY.
  destruct (Qle_bool d t && Qlt_bool d (bestSnapDistX st)); reflexivity.
Qed.

Lemma testY_bestY d t p gd st : bestY (testY d t p gd st) = pick (bestY st) (mkTarget d t p).
Proof.
  unfold testY, pick, bestY. cbn [dist tolerance pos bestDist].
  destruct (Qle_bool d t && Qlt_bool d (bestSnapDistY st)); reflexivity.
Qed.

Lemma testY_bestX d t p gd st : bestX (testY d t p gd st) = bestX st.
Proof.
  unfold testY, bestX.
  destruct (Qle_bool d t && Qlt_bool d (bestSnapDistY st)); reflexivity.
Qed.

Lemma snapToWalls_bestX w h room tx ty tol st :
  bestX (snapToWalls w h room tx ty tol st)
  = fold_left pick (wallTargetsX w room tx tol) (bestX st).
Proof.
  unfold snapToWalls, wallTargetsX. cbv zeta. cbn [fold_left].
  rewrite !testY_bestX, !testX_bestX. reflexivity.
Qed.

Lemma snapToWalls_bestY w h room tx ty tol st :
  bestY (snapToWalls w h room tx ty tol st)
  = fold_left pick (wallTargetsY h room ty tol) (bestY st).
Proof.
  unfold snapToWalls, wallTargetsY. cbv zeta. cbn [fold_left].
  rewrite !testY_bestY, !testX_bestY. reflexivity.
Qed.

Lemma snapToOther_bestX w h tx ty cur st other :
  bestX (snapToOther w h tx ty cur st other)
  = fold_left pick (otherTargetsX w tx cur other) (bestX st).
Proof.
  unfold snapToOther, otherTargetsX. cbv zeta.
  destruct (isCurrent cur other); [reflexivity|].
  cbn [fold_left]. rewrite !testY_bestX, !testX_bestX. reflexivity.
Qed.

Lemma snapToOther_bestY w h tx ty cur st other :
  bestY (snapToOther w h tx ty cur st other)
  = fold_left pick (otherTargetsY h ty cur other) (bestY st).
Proof.
  unfold snapToOther, otherTargetsY. cbv zeta.
  destruct (isCurrent cur other); [reflexivity|].
  cbn [fold_left]. rewrite !testY_bestY, !testX_bestY. reflexivity.
Qed.

Lemma others_bestX w h tx ty cur : forall objs st,
  bestX (fold_left (snapToOther w h tx ty cur) objs st)
  = fold_left pick (flat_map (otherTargetsX w tx cur) objs) (bestX st).
Proof.
  induction objs as [|o objs IH]; intros st; cbn [fold_left flat_map]; [reflexivity|].
  rewrite fold_left_app, IH, snapToOther_bestX. reflexivity.
Qed.

Lemma others_bestY w h tx ty cur : forall objs st,
  bestY (fold_left (snapToOther w h tx ty cur) objs st)
  = fold_left pick (flat_map (otherTargetsY h ty cur) objs) (bestY st).
Proof.
  induction objs as [|o objs IH]; intros st; cbn [fold_left flat_map]; [reflexivity|].
  rewrite fold_left_app, IH, snapToOther_bestY. reflexivity.
Qed.

(** The X result of the function is the fold of [pick] over its targets. *)
Lemma calculatePlacedObjectSnap_xCm w h room tx ty tol objs cur :
  SnapResult.xCm (calculatePlacedObjectSnap w h room tx ty tol objs cur)
  = bestPos (fold_left pick (targetsX w room tx tol objs cur) (mkBest tx false (tol + 1))).
Proof.
  unfold calculatePlacedObjectSnap, targetsX. cbv zeta. cbn [SnapResult.xCm].
  change (snappedXCm ?s) with (bestPos (bestX s)).
  rewrite others_bestX, snapToWalls_bestX, fold_left_app. reflexivity.
Qed.

Lemma calculatePlacedObjectSnap_yCm w h room tx ty tol objs cur :
  SnapResult.yCm (calculatePlacedObjectSnap w h room tx ty tol objs cur)
  = bestPos (fold_left pick (targetsY h room ty tol objs cur) (mkBest ty false (tol + 1))).
Proof.
  unfold calculatePlacedObjectSnap, targetsY. cbv zeta. cbn [SnapResult.yCm].
  change (snappedYCm ?s) with (bestPos (bestY s)).
  rewrite others_bestY, snapToWalls_bestY, fold_left_app. reflexivity.
Qed.

(** *** The fold keeps a nearest target *)

Lemma pick_cases b c :
  (pick b c = mkBest (pos c) true (dist c) /\ dist c <= tolerance c /\ dist c < bestDist b)
  \/ (pick b c = b /\ (dist c <= tolerance c -> bestDist b <= dist c)).
Proof.
  unfold pick.
  destruct (Qle_bool (dist c) (tolerance c)) eqn:E1;
    destruct (Qlt_bool (dist c) (bestDist b)) eqn:E2; cbn [andb].
  - left. apply Qle_bool_true in E1. apply Qlt_bool_true in E2. auto.
  - right. apply Qlt_bool_false in E2. auto.
  - right. apply Qle_bool_false in E1. split; [reflexivity | intros; contradiction].
  - right. apply Qle_bool_false in E1. split; [reflexivity | intros; contradiction].
Qed.

Lemma fold_pick_decreases : forall cs b, bestDist (fold_left pick cs b) <= bestDist b.
Proof.
  induction cs as [|a cs IH]; intros b; cbn [fold_left]; [apply Qle_refl|].
  eapply Qle_trans; [apply IH|].
  destruct (pick_cases b a) as [(-> & _ & Hlt) | (-> & _)]; cbn [bestDist].
  - apply Qlt_le_weak. exact Hlt.
  - apply Qle_refl.
Qed.

(** No target within its tolerance is nearer than the one kept. *)
Lemma fold_pick_nearest : forall cs b c,
  In c cs -> dist c <= tolerance c -> bestDist (fold_left pick cs b) <= dist c.
Proof.
  induction cs as [|a cs IH]; intros b c Hin Hc; [contradiction|].
  cbn [fold_left]. destruct Hin as [->|Hin].
  - eapply Qle_trans; [apply fold_pick_decreases|].
    destruct (pick_cases b c) as [(-> & _ & _) | (-> & Hle)]; cbn [bestDist].
    + apply Qle_refl.
    + apply Hle. exact Hc.
  - apply IH; assumption.
Qed.

(** What is kept is the initial value or a target within its tolerance. *)
Lemma fold_pick_source : forall cs b,
  fold_left pick cs b = b
  \/ exists c, In c cs /\ dist c <= tolerance c /\ dist c < bestDist b
               /\ fold_left pick cs b = mkBest (pos c) true (dist c).
Proof.
  induction cs as [|a cs IH]; intros b; cbn [fold_left]; [left; reflexivity|].
  destruct (IH (pick b a)) as [Hsame | (c & Hin & Hc & Hlt & Hres)].
  - rewrite Hsame.
    destruct (pick_cases b a) as [(Hp & Ha & Hlt) | (Hp & _)].
    + right. exists a. split; [left; reflexivity|]. auto.
    + left. exact Hp.
  - right. exists c. split; [right; exact Hin|]. split; [exact Hc|]. split; [|exact Hres].
    eapply Qlt_le_trans; [exact Hlt|].
    destruct (pick_cases b a) as [(-> & _ & Hlt') | (-> & _)]; cbn [bestDist].
    + apply Qlt_le_weak. exact Hlt'.
    + apply Qle_refl.
Qed.

(** *** Facts about the targets of the function *)

(** A target's tolerance is the wall tolerance passed to the function or
    the object-to-object tolerance. *)
Lemma targetsX_tolerance w room tx tol objs cur c :
  In c (targetsX w room tx tol objs cur) ->
  tolerance c = tol \/ tolerance c = OBJECT_TO_OBJECT_SNAP_TOLERANCE_CM.
Proof.
  unfold targetsX. rewrite in_app_iff. intros [Hin|Hin].
  - unfold wallTargetsX in Hin. cbn [In] in Hin.
    destruct Hin as [<-|[<-|[]]]; left; reflexivity.
  - apply in_flat_map in Hin. destruct Hin as (o & _ & Hin).
    unfold otherTargetsX in Hin. destruct (isCurrent cur o); [contradiction|].
    cbn [In] in Hin.
    destruct Hin as [<-|[<-|[<-|[<-|[]]]]]; right; reflexivity.
Qed.

Lemma targetsY_tolerance h room ty tol objs cur c :
  In c (targetsY h room ty tol objs cur) ->
  tolerance c = tol \/ tolerance c = OBJECT_TO_OBJECT_SNAP_TOLERANCE_CM.
Proof.
  unfold targetsY. rewrite in_app_iff. intros [Hin|Hin].
  - unfold wallTargetsY in Hin. cbn [In] in Hin.
    destruct Hin as [<-|[<-|[]]]; left; reflexivity.
  - apply in_flat_map in Hin. destruct Hin as (o & _ & Hin).
    unfold otherTargetsY in Hin. destruct (isCurrent cur o); [contradiction|].
    cbn [In] in Hin.
    destruct Hin as [<-|[<-|[<-|[<-|[]]]]]; right; reflexivity.
Qed.

End ObjectSnapFacts.

(** ** Object snapping: what is kept is a target within its tolerance *)

Module NearestTarget.
Import ObjectSnap ObjectSnapFacts.

Section Axis.

Variable cs : list Target.
Variable target tol : Q.

(** No tolerance reaches the initial best distance [toleranceCm + 1]. *)
Hypothesis tolerance_below_init : forall c, In c cs -> tolerance c < tol + 1.

Local Notation "'kept'" := (ObjectSnap.kept cs target tol).

Lemma kept_is_target (c1 : Target) :
  In c1 cs -> dist c1 <= tolerance c1 ->
  exists c, In c cs /\ dist c <= tolerance c /\ dist c <= dist c1
            /\ kept = mkBest (pos c) true (dist c).
Proof.
  intros Hin1 Hc1.
  unfold ObjectSnap.kept.
  assert (Hnear : bestDist (fold_left pick cs (mkBest target false (tol + 1))) <= dist c1)
    by (apply fold_pick_nearest; assumption).
  destruct (fold_pick_source cs (mkBest target false (tol + 1)))
    as [Hsame | (c & Hin & Hc & _ & Hres)].
  - exfalso. rewrite Hsame in Hnear. cbn [bestDist] in Hnear.
    pose proof (tolerance_below_init c1 Hin1). lra.
  - exists c. rewrite Hres in Hnear. cbn [bestDist] in Hnear. auto.
Qed.

End Axis.

Lemma targetsX_below_init w room tx tol objs cur :
  OBJECT_TO_OBJECT_SNAP_TOLERANCE_CM < tol + 1 ->
  forall c, In c (targetsX w room tx tol objs cur) -> tolerance c < tol + 1.
Proof.
  intros Htol c Hin.
  destruct (targetsX_tolerance w room tx tol objs cur c Hin) as [-> | ->]; [lra | exact Htol].
Qed.

Lemma targetsY_below_init h room ty tol objs cur :
  OBJECT_TO_OBJECT_SNAP_TOLERANCE_CM < tol + 1 ->
  forall c, In c (targetsY h room ty tol objs cur) -> tolerance c < tol + 1.
Proof.
  intros Htol c Hin.
  destruct (targetsY_tolerance h room ty tol objs cur c Hin) as [-> | ->]; [lra | exact Htol].
Qed.

End NearestTarget.

Import ObjectSnap.

(** A 50 by 50 object dragged to (100, 100) with the default wall tolerance
    snaps to [obj1], the nearer of the two objects, on both axes. *)
Example calculatePlacedObjectSnap_default_tolerance :
  calculatePlacedObjectSnap 50 50 Examples.roomA 100 100 OBJECT_SNAP_TOLERANCE_CM
    [ObjectExamples.obj2; ObjectExamples.obj1] None
  = {| SnapResult.xCm := 108; SnapResult.yCm := 110;
       SnapResult.snappedX := true; SnapResult.snappedY := true;
       SnapResult.xGuideCm := Some 158; SnapResult.yGuideCm := Some 160 |}.
Proof. vm_compute. reflexivity. Qed.

(** ** Rotation-aware bounds *)

Example getVisualBounds_quarter_turn :
  VisualBounds.x (Editor.getVisualBounds 120 80 60 35 90) == 265 # 2
  /\ VisualBounds.y (Editor.getVisualBounds 120 80 60 35 90) == 135 # 2.
Proof. split; q_eval. Qed.

(** ** History *)

Module HistoryFacts.
Import State.

Lemma last_cons {A : Type} (l : list A) (a d : A) : last (a :: l) d = last l a.
Proof.
  revert a d. induction l as [|b l IH]; intros a d; [reflexivity|].
  change (last (a :: b :: l) d) with (last (b :: l) d).
  rewrite (IH b d). symmetry. apply IH.
Qed.

Lemma undo_snoc P p x F :
  undo {| HistoryState.past := P ++ [p]; HistoryState.present := x; HistoryState.future := F |}
  = {| HistoryState.past := P; HistoryState.present := p; HistoryState.future := x :: F |}.
Proof.
  unfold undo. cbn [HistoryState.past HistoryState.present HistoryState.future].
  destruct (P ++ [p]) as [|q qs] eqn:E; [destruct P; discriminate|].
  rewrite <- E, removelast_last, last_last. reflexivity.
Qed.

(** [List.length l] undos walk back over the entries [l] of [past]. *)
Lemma undo_many : forall l P x F,
  repeatOp (List.length l) undo
    {| HistoryState.past := P ++ l; HistoryState.present := x; HistoryState.future := F |}
  = {| HistoryState.past := P; HistoryState.present := hd x l;
       HistoryState.future := tl (l ++ [x]) ++ F |}.
Proof.
  induction l as [|p l IH] using rev_ind; intros P x F.
  - cbn. rewrite app_nil_r. reflexivity.
  - rewrite length_app, Nat.add_comm. cbn [List.length plus repeatOp].
    rewrite app_assoc, undo_snoc, IH. f_equal.
    + destruct l; reflexivity.
    + destruct l; cbn [app tl]; [reflexivity|].
      rewrite <- !app_assoc. reflexivity.
Qed.

(** [List.length F0] redos walk forward over the entries [F0] of [future]. *)
Lemma redo_many : forall F0 P x F,
  repeatOp (List.length F0) redo
    {| HistoryState.past := P; HistoryState.present := x; HistoryState.future := F0 ++ F |}
  = {| HistoryState.past := P ++ removelast (x :: F0); HistoryState.present := last F0 x;
       HistoryState.future := F |}.
Proof.
  induction F0 as [|f F0 IH]; intros P x F.
  - cbn. rewrite app_nil_r. reflexivity.
  - cbn [List.length repeatOp app]. unfold redo at 2.
    cbn [HistoryState.past HistoryState.present HistoryState.future].
    rewrite IH, <- app_assoc, last_cons. reflexivity.
Qed.

Lemma recordAll_shape : forall ss h,
  ss <> [] ->
  recordAll h ss
  = {| HistoryState.past :=
         HistoryState.past h ++ HistoryState.present h :: removelast ss;
       HistoryState.present := last ss (HistoryState.present h);
       HistoryState.future := [] |}.
Proof.
  induction ss as [|s ss IH]; intros h Hne; [congruence|].
  unfold recordAll in *. cbn [fold_left].
  destruct ss as [|s' ss].
  - reflexivity.
  - rewrite IH by discriminate.
    unfold recordHistory at 1 2 3. cbn [HistoryState.past HistoryState.present].
    rewrite <- app_assoc, !last_cons. reflexivity.
Qed.

End HistoryFacts.

(** C3.  For the history manager as the specification describes it: after
    N consecutive [recordHistory] calls followed by N [undo] calls,
    [present] (and [past]) are those before the first call; N [redo] calls
    after that give back the history as recorded, whose [present] is the
    state passed to the last [recordHistory] call. *)
Theorem history_undo_redo_round_trip :
  forall (history : HistoryState.t) (newStates : list AppState.t),
    let N := List.length newStates in
    let recorded := State.recordAll history newStates in
    let undone := State.repeatOp N State.undo recorded in
    let redone := State.repeatOp N State.redo undone in
    HistoryState.present undone = HistoryState.present history
    /\ HistoryState.past undone = HistoryState.past history
    /\ redone = recorded
    /\ HistoryState.present redone = last newStates (HistoryState.present history).
Proof.
  intros history newStates N recorded undone redone.
  destruct newStates as [|s ss].
  - repeat split; reflexivity.
  - assert (Hrec : recorded
                   = {| HistoryState.past :=
                          HistoryState.past history
                          ++ HistoryState.present history :: removelast (s :: ss);
                        HistoryState.present := last (s :: ss) (HistoryState.present history);
                        HistoryState.future := [] |})
      by (apply HistoryFacts.recordAll_shape; discriminate).
    assert (HN : N = List.length (HistoryState.present history :: removelast (s :: ss))).
    { unfold N. rewrite (app_removelast_last (HistoryState.present history)
                           (l := s :: ss)) at 1 by discriminate.
      rewrite length_app, Nat.add_comm. reflexivity. }
    assert (Hundone : undone
                      = {| HistoryState.past := HistoryState.past history;
                           HistoryState.present := HistoryState.present history;
                           HistoryState.future := (s :: ss) ++ [] |}).
    { unfold undone. rewrite Hrec, HN, HistoryFacts.undo_many.
      cbn [hd tl app]. f_equal. rewrite app_nil_r.
      symmetry. rewrite app_nil_r. apply app_removelast_last. discriminate. }
    assert (Hredone : redone = recorded).
    { unfold redone. rewrite Hundone. unfold N.
      rewrite HistoryFacts.redo_many, Hrec. reflexivity. }
    split; [rewrite Hundone; reflexivity|].
    split; [rewrite Hundone; reflexivity|].
    split; [exact Hredone|].
    rewrite Hredone, Hrec. reflexivity.
Qed.

(** Three recordings, then four undos: the fourth finds [past] empty and
    changes nothing. *)
Example undo_beyond_start_is_noop :
  let h0 := {| HistoryState.past := []; HistoryState.present := EditorExamples.appState0;
               HistoryState.future := [] |} in
  let recorded := State.recordAll h0
                    [EditorExamples.furnished; EditorExamples.appState0;
                     EditorExamples.furnished] in
  State.repeatOp 4 State.undo recorded = State.repeatOp 3 State.undo recorded
  /\ HistoryState.present (State.repeatOp 4 State.undo recorded) = EditorExamples.appState0
  /\ HistoryState.past (State.repeatOp 4 State.undo recorded) = [].
Proof. cbv zeta. repeat split. Qed.

(** ** Room deletion *)

Lemma filter_other_ids {A : Type} (key : A -> string) (roomId : string) (l : list A) (x : A) :
  In x (filter (fun a => negb (String.eqb (key a) roomId)) l)
  <-> In x l /\ key x <> roomId.
Proof.
  rewrite filter_In, negb_true_iff, String.eqb_neq. reflexivity.
Qed.

(** C8.  For room deletion as the specification describes it: the state
    returned by [deleteRoom] holds no room with the deleted id and no wall
    opening or placed object that references it, and it keeps exactly the
    rooms, openings and placed objects of the other rooms. *)
Theorem deleteRoom_cascades :
  forall (state : AppState.t) (roomId : string),
    let state' := State.deleteRoom state roomId in
    (forall r, In r (AppState.rooms state')
               <-> In r (AppState.rooms state) /\ Room.id r <> roomId)
    /\ (forall o, In o (AppState.wallOpenings state')
               <-> In o (AppState.wallOpenings state) /\ WallOpening.roomId o <> roomId)
    /\ (forall p, In p (AppState.placedObjects state')
               <-> In p (AppState.placedObjects state) /\ PlacedObject.roomId p <> roomId).
Proof.
  intros state roomId state'. unfold state', State.deleteRoom.
  cbn [AppState.rooms AppState.wallOpenings AppState.placedObjects].
  split; [|split]; intros x.
  - apply (filter_other_ids Room.id).
  - apply (filter_other_ids WallOpening.roomId).
  - apply (filter_other_ids PlacedObject.roomId).
Qed.

Example deleteRoom_removes_references :
  AppState.rooms (State.deleteRoom EditorExamples.furnished "A") = [Examples.roomB]
  /\ AppState.wallOpenings (State.deleteRoom EditorExamples.furnished "A")
     = [EditorExamples.doorOfB]
  /\ AppState.placedObjects (State.deleteRoom EditorExamples.furnished "A")
     = [EditorExamples.objectInB].
Proof. repeat split. Qed.

Lemma deleteRoom_cascades_witness :
  ~ In EditorExamples.doorOfA
       (AppState.wallOpenings (State.deleteRoom EditorExamples.furnished "A"))
  /\ In EditorExamples.doorOfB
       (AppState.wallOpenings (State.deleteRoom EditorExamples.furnished "A"))
  /\ ~ In EditorExamples.objectInA
       (AppState.placedObjects (State.deleteRoom EditorExamples.furnished "A")).
Proof.
  destruct (deleteRoom_cascades EditorExamples.furnished "A") as (_ & Hopen & Hplaced).
  split; [|split].
  - intros H. apply Hopen in H. destruct H as [_ Hne]. apply Hne. reflexivity.
  - apply Hopen. split; [right; left; reflexivity | discriminate].
  - intros H. apply Hplaced in H. destruct H as [_ Hne]. apply Hne. reflexivity.
Defined.

(** ** Pointer handlers and history *)

Module EditorFacts.
Import Editor.


Lemma keepsStacks_refl ed : keepsStacks ed ed.
Proof. unfold keepsStacks. auto. Qed.

Lemma keepsStacks_trans ed1 ed2 ed3 :
  keepsStacks ed1 ed2 -> keepsStacks ed2 ed3 -> keepsStacks ed1 ed3.
Proof.
  unfold keepsStacks. intros (A1 & A2 & A3 & A4) (B1 & B2 & B3 & B4).
  repeat split; congruence.
Qed.

Lemma updateState_unrecorded_keeps ed newState :
  keepsStacks ed (updateState ed newState false).
Proof. unfold keepsStacks. cbn. auto. Qed.

Lemma setCurrentSnapResult_keeps ed s : keepsStacks ed (setCurrentSnapResult ed s).
Proof. unfold keepsStacks. cbn. auto. Qed.

Create HintDb editor.

#[local] Hint Resolve keepsStacks_refl updateState_unrecorded_keeps
  setCurrentSnapResult_keeps : editor.

Section Handlers.

Variable getSvgCoordinates : PointerEvent.t -> Q -> Q -> Q -> Q * Q.
Variable calculateDragPosition : ExtendedDragState.t -> Q -> Q -> Q * Q.
Variable svgPixelsToCm : Q -> Q -> Q * Q.
Variable constrainRoomPosition : Q -> Q -> Q * Q.
Variable getRoomById : AppState.t -> string -> option Room.t.
Variable updateViewport : AppState.t -> Q -> Q -> Q -> AppState.t.
Variable resizeRoom : AppState.t -> string -> Q -> Q -> Q -> Q -> AppState.t.
Variable updatePlacedObjectPosition : AppState.t -> string -> Q -> Q -> AppState.t.
Variable moveRooms : AppState.t -> list RoomMove.t -> AppState.t.

Local Notation "'pointerMove'" :=
  (handleSvgPointerMove getSvgCoordinates calculateDragPosition svgPixelsToCm
     constrainRoomPosition getRoomById updateViewport resizeRoom
     updatePlacedObjectPosition moveRooms).
Local Notation "'handler'" :=
  (svgHandler getSvgCoordinates calculateDragPosition svgPixelsToCm
     constrainRoomPosition getRoomById updateViewport resizeRoom
     updatePlacedObjectPosition moveRooms).
Local Notation "'dragMoves'" :=
  (moves getSvgCoordinates calculateDragPosition svgPixelsToCm
     constrainRoomPosition getRoomById updateViewport resizeRoom
     updatePlacedObjectPosition moveRooms).

Lemma moveResize_keeps ed appState d initial handle xCm yCm :
  keepsStacks ed (moveResize svgPixelsToCm resizeRoom ed appState d initial handle xCm yCm).
Proof.
  unfold moveResize. cbv zeta.
  destruct (includes handle "w"); destruct (includes handle "n");
    apply updateState_unrecorded_keeps.
Qed.

Lemma movePlaced_keeps ed appState d xCm yCm :
  keepsStacks ed (movePlaced updatePlacedObjectPosition ed appState d xCm yCm).
Proof.
  unfold movePlaced.
  destruct (find _ (AppState.placedObjects appState)) as [placed|]; auto with editor.
  destruct (find _ (AppState.objectDefs appState)) as [def|]; auto with editor.
  destruct (find _ (AppState.rooms appState)) as [room|]; auto with editor.
  cbv zeta.
  eapply keepsStacks_trans; [apply setCurrentSnapResult_keeps|].
  apply updateState_unrecorded_keeps.
Qed.

Lemma moveRoomsDrag_keeps ed appState d multi xCm yCm :
  keepsStacks ed (moveRoomsDrag constrainRoomPosition getRoomById moveRooms
                    ed appState d multi xCm yCm).
Proof.
  unfold moveRoomsDrag.
  destruct (getRoomById appState (ExtendedDragState.roomId d)) as [room|]; auto with editor.
  cbv zeta.
  eapply keepsStacks_trans; [apply setCurrentSnapResult_keeps|].
  apply updateState_unrecorded_keeps.
Qed.

(** A pointer-move changes at most [present] and the snap indicator. *)
Lemma handleSvgPointerMove_keeps ed e : keepsStacks ed (pointerMove ed e).
Proof.
  unfold handleSvgPointerMove. cbv zeta.
  destruct (dragState ed) as [d|]; auto with editor.
  destruct (negb (svgMounted ed)); auto with editor.
  destruct (String.eqb (ExtendedDragState.roomId d) "__pan__"); auto with editor.
  destruct (ExtendedDragState.targetType d) as [[| |]|]; auto with editor.
  - destruct (ExtendedDragState.multiDragRooms d) as [[|r rs]|]; auto with editor.
    apply moveRoomsDrag_keeps.
  - apply movePlaced_keeps.
  - destruct (ExtendedDragState.initialRoom d) as [initial|]; auto with editor.
    destruct (ExtendedDragState.resizeHandle d) as [handle|]; auto with editor.
    destruct (truthy handle); auto with editor.
    apply moveResize_keeps.
Qed.

Lemma moves_keeps : forall es ed, keepsStacks ed (dragMoves ed es).
Proof.
  induction es as [|e es IH]; intros ed; cbn [moves fold_left svgHandler].
  - apply keepsStacks_refl.
  - eapply keepsStacks_trans; [apply handleSvgPointerMove_keeps | apply IH].
Qed.

Lemma dragActive_keeps ed ed' : keepsStacks ed ed' -> dragActive ed' = dragActive ed.
Proof. intros (_ & _ & Hd & _). unfold dragActive. rewrite Hd. reflexivity. Qed.

(** Pointer-up in an active drag records the present state once. *)
Lemma handleSvgPointerUp_records ed e :
  dragActive ed = true ->
  history (handleSvgPointerUp ed e)
  = State.recordHistory (history ed) (HistoryState.present (history ed))
  /\ dragState (handleSvgPointerUp ed e) = None.
Proof.
  unfold dragActive, handleSvgPointerUp. intros Hact.
  destruct (dragState ed) as [d|]; [|discriminate].
  rewrite Hact. split; reflexivity.
Qed.

(** Without a drag session, pointer-up records nothing. *)
Lemma handleSvgPointerUp_idle ed e :
  dragState ed = None -> history (handleSvgPointerUp ed e) = history ed.
Proof. unfold handleSvgPointerUp. intros ->. reflexivity. Qed.

(** C9.  Every pointer-move leaves [past], [future] and the drag session
    as they were.  When a drag, resize or object drag is active, the
    pointer-move events of the drag followed by a pointer-up, pointer-cancel
    or pointer-leave record one checkpoint: [recordHistory] is applied once,
    [past] is the [past] from before the drag with one entry added, the
    drag session is cleared, and a further pointer-up, pointer-cancel or
    pointer-leave records nothing more.  Pointer-cancel and pointer-leave
    run the pointer-up handler. *)
Theorem drag_records_one_checkpoint :
  forall (ed : Editor.t) (es : list PointerEvent.t) (e : PointerEvent.t),
    (HistoryState.past (history (pointerMove ed e)) = HistoryState.past (history ed)
     /\ HistoryState.future (history (pointerMove ed e)) = HistoryState.future (history ed)
     /\ dragState (pointerMove ed e) = dragState ed)
    /\ (dragActive ed = true ->
        forall p, p <> onPointerMove ->
          let dragged := dragMoves ed es in
          let released := handler p dragged e in
          history released
            = State.recordHistory (history dragged) (HistoryState.present (history dragged))
          /\ HistoryState.past (history released)
            = HistoryState.past (history ed) ++ [HistoryState.present (history dragged)]
          /\ List.length (HistoryState.past (history released))
            = S (List.length (HistoryState.past (history ed)))
          /\ HistoryState.present (history released) = HistoryState.present (history dragged)
          /\ HistoryState.future (history released) = []
          /\ dragState released = None
          /\ (forall p' e', p' <> onPointerMove ->
                history (handler p' released e') = history released))
    /\ handler onPointerCancel = handler onPointerUp
    /\ handler onPointerLeave = handler onPointerUp.
Proof.
  intros ed es e. split; [|split; [|split; reflexivity]].
  - destruct (handleSvgPointerMove_keeps ed e) as (Hp & Hf & Hd & _). auto.
  - intros Hact p Hp dragged released.
    destruct (moves_keeps es ed) as (Hpast & Hfut & Hdrag & Hm).
    assert (Hact' : dragActive dragged = true).
    { unfold dragged. rewrite (dragActive_keeps ed); [exact Hact|].
      repeat split; assumption. }
    assert (Hrel : released = handleSvgPointerUp dragged e)
      by (unfold released; destruct p; [contradiction Hp|..]; reflexivity).
    destruct (handleSvgPointerUp_records dragged e Hact') as [Hhist Hnone].
    fold dragged in Hpast.
    assert (Hagain : forall p' e', p' <> onPointerMove ->
              history (handler p' released e') = history released).
    { intros p' e' Hp'. rewrite Hrel.
      assert (Hup : handler p' (handleSvgPointerUp dragged e) e'
                    = handleSvgPointerUp (handleSvgPointerUp dragged e) e')
        by (destruct p'; [contradiction Hp'|..]; reflexivity).
      rewrite Hup. apply handleSvgPointerUp_idle. exact Hnone. }
    rewrite Hrel, Hhist. unfold State.recordHistory.
    cbn [HistoryState.past HistoryState.present HistoryState.future].
    rewrite Hpast.
    split; [reflexivity|]. split; [reflexivity|].
    split; [rewrite length_app, Nat.add_comm; reflexivity|].
    split; [reflexivity|]. split; [reflexivity|].
    split; [exact Hnone|].
    intros p' e' Hp'. rewrite <- Hrel, (Hagain p' e' Hp'), Hrel, Hhist.
    unfold State.recordHistory.
    cbn [HistoryState.past HistoryState.present HistoryState.future].
    rewrite Hpast. reflexivity.
Qed.

End Handlers.

End EditorFacts.


Lemma drag_records_one_checkpoint_witness :
  List.length
    (HistoryState.past
       (Editor.history
          (Editor.svgHandler EditorExamples.getSvgCoordinates
             EditorExamples.calculateDragPosition EditorExamples.svgPixelsToCm
             EditorExamples.constrainRoomPosition EditorExamples.getRoomById
             EditorExamples.updateViewport EditorExamples.resizeRoom
             EditorExamples.updatePlacedObjectPosition EditorExamples.moveRooms
             Editor.onPointerCancel
             (Editor.moves EditorExamples.getSvgCoordinates
                EditorExamples.calculateDragPosition EditorExamples.svgPixelsToCm
                EditorExamples.constrainRoomPosition EditorExamples.getRoomById
                EditorExamples.updateViewport EditorExamples.resizeRoom
                EditorExamples.updatePlacedObjectPosition EditorExamples.moveRooms
                EditorExamples.editor0 EditorExamples.dragEvents)
             (EditorExamples.pointerAt 1675 100))))
  = S (List.length (HistoryState.past (Editor.history EditorExamples.editor0))).
Proof.
  destruct (EditorFacts.drag_records_one_checkpoint EditorExamples.getSvgCoordinates
              EditorExamples.calculateDragPosition EditorExamples.svgPixelsToCm
              EditorExamples.constrainRoomPosition EditorExamples.getRoomById
              EditorExamples.updateViewport EditorExamples.resizeRoom
              EditorExamples.updatePlacedObjectPosition EditorExamples.moveRooms
              EditorExamples.editor0 EditorExamples.dragEvents
              (EditorExamples.pointerAt 1675 100)) as (_ & Hrelease & _).
  destruct (Hrelease eq_refl Editor.onPointerCancel) as (_ & _ & Hlen & _).
  - discriminate.
  - exact Hlen.
Defined.

(** The example drag ends with room B snapped against room A (x = 310),
    and the checkpoint pushed on [past] is that final state. *)
Example drag_example_final_state :
  let released :=
    Editor.handleSvgPointerUp
      (Editor.moves EditorExamples.getSvgCoordinates
         EditorExamples.calculateDragPosition EditorExamples.svgPixelsToCm
         EditorExamples.constrainRoomPosition EditorExamples.getRoomById
         EditorExamples.updateViewport EditorExamples.resizeRoom
         EditorExamples.updatePlacedObjectPosition EditorExamples.moveRooms
         EditorExamples.editor0 EditorExamples.dragEvents)
      (EditorExamples.pointerAt 1675 100) in
  map (fun r => Qeq_bool (Room.xCm r) 310)
      (AppState.rooms (HistoryState.present (Editor.history released)))
    = [false; true]
  /\ HistoryState.past (Editor.history released)
     = [HistoryState.present (Editor.history released)].
Proof. cbv zeta. split; vm_compute; reflexivity. Qed.

(** * Further properties of the code *)

(** ** Room snapping *)

Module SnapMore.
Import Snap SnapTests SnapFacts.

Lemma snapBody_same_size R R' mo g o st :
  Room.widthCm R = Room.widthCm R' -> Room.heightCm R = Room.heightCm R' ->
  snapBody R mo g o st = snapBody R' mo g o st.
Proof.
  intros Hw Hh. unfold snapBody, snapYBlock, snapXBlock. rewrite Hw, Hh. reflexivity.
Qed.

Lemma snapLoop_same_size R R' mo g :
  Room.widthCm R = Room.widthCm R' -> Room.heightCm R = Room.heightCm R' ->
  forall others st, snapLoop R mo g others st = snapLoop R' mo g others st.
Proof.
  intros Hw Hh. induction others as [|o others IH]; intros st; cbn [snapLoop]; [reflexivity|].
  rewrite (snapBody_same_size R R' mo g o st Hw Hh).
  destruct (snappedX (snapBody R' mo g o st) && snappedY (snapBody R' mo g o st));
    [reflexivity | apply IH].
Qed.

End SnapMore.

Import Snap SnapTests.

(** X1.  [calculateSnap] reads the moving room's id, size and wall
    thickness only: two moving rooms that agree on those give the same
    result, whatever their stored positions and names. *)
Theorem calculateSnap_ignores_stored_position :
  forall (R R' : Room.t) (allRooms : list Room.t) (tx ty g : Q),
    Room.id R = Room.id R' ->
    Room.widthCm R = Room.widthCm R' ->
    Room.heightCm R = Room.heightCm R' ->
    Room.wallThickness R = Room.wallThickness R' ->
    calculateSnap R allRooms tx ty g = calculateSnap R' allRooms tx ty g.
Proof.
  intros R R' allRooms tx ty g Hid Hw Hh Hwall.
  unfold calculateSnap, othersOf, outerBoundsCm, getWallThicknessCm.
  rewrite Hid, Hw, Hh, Hwall.
  rewrite (SnapMore.snapLoop_same_size R R' _ g Hw Hh). reflexivity.
Qed.

Lemma calculateSnap_ignores_stored_position_witness :
  calculateSnap Examples.roomB [Examples.roomA; Examples.roomB] 315 0 10
  = calculateSnap (EditorExamples.placeRoom Examples.roomB 0 900 200 400)
      [Examples.roomA; Examples.roomB] 315 0 10.
Proof.
  apply calculateSnap_ignores_stored_position; reflexivity.
Defined.

(** ** Object snapping *)

Module ObjectSnapMore.
Import ObjectSnap ObjectSnapFacts.

Lemma calculatePlacedObjectSnap_snappedX w h room tx ty tol objs cur :
  SnapResult.snappedX (calculatePlacedObjectSnap w h room tx ty tol objs cur)
  = bestSnapped (kept (targetsX w room tx tol objs cur) tx tol).
Proof.
  unfold calculatePlacedObjectSnap, targetsX, kept. cbv zeta. cbn [SnapResult.snappedX].
  change (snappedX ?s) with (bestSnapped (bestX s)).
  rewrite others_bestX, snapToWalls_bestX, fold_left_app. reflexivity.
Qed.

Lemma calculatePlacedObjectSnap_snappedY w h room tx ty tol objs cur :
  SnapResult.snappedY (calculatePlacedObjectSnap w h room tx ty tol objs cur)
  = bestSnapped (kept (targetsY h room ty tol objs cur) ty tol).
Proof.
  unfold calculatePlacedObjectSnap, targetsY, kept. cbv zeta. cbn [SnapResult.snappedY].
  change (snappedY ?s) with (bestSnapped (bestY s)).
  rewrite others_bestY, snapToWalls_bestY, fold_left_app. reflexivity.
Qed.

(** What an axis keeps: the target coordinate, unsnapped, or the position
    of a tested target within its tolerance, snapped. *)
Lemma kept_cases cs target tol :
  (bestPos (kept cs target tol) = target /\ bestSnapped (kept cs target tol) = false)
  \/ exists c, In c cs /\ dist c <= tolerance c
               /\ bestPos (kept cs target tol) = pos c
               /\ bestSnapped (kept cs target tol) = true.
Proof.
  unfold kept.
  destruct (fold_pick_source cs (mkBest target false (tol + 1)))
    as [-> | (c & Hin & Hc & _ & ->)].
  - left. split; reflexivity.
  - right. exists c. cbn [bestPos bestSnapped]. auto.
Qed.

(** Objects that the loop skips do not matter. *)
Lemma fold_snapToOther_skips w h tx ty cur : forall objs st,
  fold_left (snapToOther w h tx ty cur) objs st
  = fold_left (snapToOther w h tx ty cur)
      (filter (fun o => negb (isCurrent cur o)) objs) st.
Proof.
  induction objs as [|o objs IH]; intros st; cbn [fold_left filter]; [reflexivity|].
  destruct (isCurrent cur o) eqn:E; cbn [negb fold_left].
  - unfold snapToOther at 2. rewrite E. apply IH.
  - apply IH.
Qed.

Lemma fold_snapToOther_none_current w h tx ty cur : forall objs st,
  (forall o, In o objs -> isCurrent cur o = false) ->
  fold_left (snapToOther w h tx ty cur) objs st
  = fold_left (snapToOther w h tx ty None) objs st.
Proof.
  induction objs as [|o objs IH]; intros st Hnone; cbn [fold_left]; [reflexivity|].
  assert (E : snapToOther w h tx ty cur st o = snapToOther w h tx ty None st o).
  { unfold snapToOther. rewrite (Hnone o (or_introl eq_refl)). reflexivity. }
  rewrite E. apply IH. intros o' Ho'. apply Hnone. right. exact Ho'.
Qed.

End ObjectSnapMore.

Import ObjectSnap.

(** X4.  The object being dragged is left out of the snap targets: with a
    non-empty [currentObjectId], the result is the one obtained without the
    objects of that id and without [currentObjectId]; an empty
    [currentObjectId] leaves no object out. *)
Theorem calculatePlacedObjectSnap_ignores_current :
  forall (w h : Q) (room : Room.t) (tx ty tol : Q)
         (objs : list PlacedObjectForSnap.t) (id : string),
    (id <> EmptyString ->
     calculatePlacedObjectSnap w h room tx ty tol objs (Some id)
     = calculatePlacedObjectSnap w h room tx ty tol
         (filter (fun o => negb (String.eqb (PlacedObjectForSnap.id o) id)) objs) None)
    /\ calculatePlacedObjectSnap w h room tx ty tol objs (Some EmptyString)
       = calculatePlacedObjectSnap w h room tx ty tol objs None.
Proof.
  intros w h room tx ty tol objs id. split.
  - intros Hid. apply String.eqb_neq in Hid.
    unfold calculatePlacedObjectSnap. cbv zeta.
    rewrite (ObjectSnapMore.fold_snapToOther_skips w h tx ty (Some id) objs).
    assert (Hf : filter (fun o => negb (isCurrent (Some id) o)) objs
                 = filter (fun o => negb (String.eqb (PlacedObjectForSnap.id o) id)) objs).
    { apply filter_ext. intros o. unfold isCurrent. rewrite Hid. reflexivity. }
    rewrite Hf, ObjectSnapMore.fold_snapToOther_none_current; [reflexivity|].
    intros o Ho. apply filter_In in Ho. destruct Ho as [_ Ho].
    unfold isCurrent. rewrite Hid. cbn [negb andb]. apply negb_true_iff. exact Ho.
  - unfold calculatePlacedObjectSnap. cbv zeta.
    rewrite ObjectSnapMore.fold_snapToOther_none_current; [reflexivity|].
    intros o _. reflexivity.
Qed.

Lemma calculatePlacedObjectSnap_ignores_current_witness :
  calculatePlacedObjectSnap 50 50 Examples.roomA 100 100 25
    [ObjectExamples.obj1; ObjectExamples.obj2] (Some "o1"%string)
  = calculatePlacedObjectSnap 50 50 Examples.roomA 100 100 25 [ObjectExamples.obj2] None.
Proof.
  apply (proj1 (calculatePlacedObjectSnap_ignores_current 50 50 Examples.roomA 100 100 25
                  [ObjectExamples.obj1; ObjectExamples.obj2] "o1")).
  discriminate.
Defined.

(** X5.  Provided [toleranceCm + 1] exceeds the object tolerance, an axis
    of [calculatePlacedObjectSnap] snaps exactly when one of its targets is
    within its tolerance, and the coordinate returned on a snapped axis is
    the position of such a target.  With no other objects a snapped X puts
    the object flush against the room's left or right inner edge. *)
Theorem calculatePlacedObjectSnap_snaps_to_target :
  forall (w h : Q) (room : Room.t) (tx ty tol : Q)
         (objs : list PlacedObjectForSnap.t) (cur : option string),
    OBJECT_TO_OBJECT_SNAP_TOLERANCE_CM < tol + 1 ->
    let res := calculatePlacedObjectSnap w h room tx ty tol objs cur in
    (SnapResult.snappedX res = true
     <-> exists c, In c (targetsX w room tx tol objs cur) /\ withinTolerance c)
    /\ (SnapResult.snappedX res = true ->
        exists c, In c (targetsX w room tx tol objs cur) /\ withinTolerance c
                  /\ SnapResult.xCm res = pos c)
    /\ (SnapResult.snappedY res = true
        <-> exists c, In c (targetsY h room ty tol objs cur) /\ withinTolerance c)
    /\ (SnapResult.snappedY res = true ->
        exists c, In c (targetsY h room ty tol objs cur) /\ withinTolerance c
                  /\ SnapResult.yCm res = pos c)
    /\ (objs = [] -> SnapResult.snappedX res = true ->
        SnapResult.xCm res = Room.xCm room
        \/ SnapResult.xCm res = Room.xCm room + Room.widthCm room - w).
Proof.
  intros w h room tx ty tol objs cur Htol res.
  assert (HX : SnapResult.snappedX res = true ->
               exists c, In c (targetsX w room tx tol objs cur) /\ withinTolerance c
                         /\ SnapResult.xCm res = pos c).
  { unfold res. rewrite ObjectSnapFacts.calculatePlacedObjectSnap_xCm,
                        ObjectSnapMore.calculatePlacedObjectSnap_snappedX.
    fold (kept (targetsX w room tx tol objs cur) tx tol).
    destruct (ObjectSnapMore.kept_cases (targetsX w room tx tol objs cur) tx tol)
      as [[_ Hs] | (c & Hin & Hc & Hp & _)].
    - rewrite Hs. discriminate.
    - intros _. exists c. auto. }
  assert (HY : SnapResult.snappedY res = true ->
               exists c, In c (targetsY h room ty tol objs cur) /\ withinTolerance c
                         /\ SnapResult.yCm res = pos c).
  { unfold res. rewrite ObjectSnapFacts.calculatePlacedObjectSnap_yCm,
                        ObjectSnapMore.calculatePlacedObjectSnap_snappedY.
    fold (kept (targetsY h room ty tol objs cur) ty tol).
    destruct (ObjectSnapMore.kept_cases (targetsY h room ty tol objs cur) ty tol)
      as [[_ Hs] | (c & Hin & Hc & Hp & _)].
    - rewrite Hs. discriminate.
    - intros _. exists c. auto. }
  split; [|split; [exact HX|split; [|split; [exact HY|]]]].
  - split.
    + intros Hs. destruct (HX Hs) as (c & Hin & Hc & _). exists c. auto.
    + intros (c & Hin & Hc). unfold res.
      rewrite ObjectSnapMore.calculatePlacedObjectSnap_snappedX.
      destruct (NearestTarget.kept_is_target (targetsX w room tx tol objs cur) tx tol
                  (NearestTarget.targetsX_below_init w room tx tol objs cur Htol) c Hin Hc)
        as (c' & _ & _ & _ & ->). reflexivity.
  - split.
    + intros Hs. destruct (HY Hs) as (c & Hin & Hc & _). exists c. auto.
    + intros (c & Hin & Hc). unfold res.
      rewrite ObjectSnapMore.calculatePlacedObjectSnap_snappedY.
      destruct (NearestTarget.kept_is_target (targetsY h room ty tol objs cur) ty tol
                  (NearestTarget.targetsY_below_init h room ty tol objs cur Htol) c Hin Hc)
        as (c' & _ & _ & _ & ->). reflexivity.
  - intros -> Hs. destruct (HX Hs) as (c & Hin & _ & Hp). rewrite Hp.
    unfold targetsX, wallTargetsX in Hin. cbn [flat_map app In] in Hin.
    destruct Hin as [<-|[<-|[]]]; [left | right]; reflexivity.
Qed.

Lemma calculatePlacedObjectSnap_snaps_to_target_witness :
  SnapResult.xCm (calculatePlacedObjectSnap 50 50 Examples.roomA 12 100 25 [] None)
    = Room.xCm Examples.roomA
  \/ SnapResult.xCm (calculatePlacedObjectSnap 50 50 Examples.roomA 12 100 25 [] None)
    = Room.xCm Examples.roomA + Room.widthCm Examples.roomA - 50.
Proof.
  assert (Htol : OBJECT_TO_OBJECT_SNAP_TOLERANCE_CM < 25 + 1) by q_eval.
  destruct (calculatePlacedObjectSnap_snaps_to_target 50 50 Examples.roomA 12 100 25 []
              None Htol) as (_ & _ & _ & _ & Hflush).
  apply Hflush; [reflexivity | vm_compute; reflexivity].
Defined.

Module ObjectAxisFacts.
Import ObjectSnap ObjectAxis.

Lemma ofX_testX d t p gd st : ofX (testX d t p gd st) = test d t p gd (ofX st).
Proof.
  unfold testX, test, ofX. cbn [best].
  destruct (Qle_bool d t && Qlt_bool d (bestSnapDistX st)); reflexivity.
Qed.

Lemma ofX_testY d t p gd st : ofX (testY d t p gd st) = ofX st.
Proof.
  unfold testY, ofX. destruct (Qle_bool d t && Qlt_bool d (bestSnapDistY st)); reflexivity.
Qed.

Lemma ofY_testY d t p gd st : ofY (testY d t p gd st) = test d t p gd (ofY st).
Proof.
  unfold testY, test, ofY. cbn [best].
  destruct (Qle_bool d t && Qlt_bool d (bestSnapDistY st)); reflexivity.
Qed.

Lemma ofY_testX d t p gd st : ofY (testX d t p gd st) = ofY st.
Proof.
  unfold testX, ofY. destruct (Qle_bool d t && Qlt_bool d (bestSnapDistX st)); reflexivity.
Qed.

Lemma ofX_snapToWalls w h room tx ty tol st :
  ofX (snapToWalls w h room tx ty tol st) = wallsX w room tx tol (ofX st).
Proof.
  unfold snapToWalls, wallsX. cbv zeta. rewrite !ofX_testY, !ofX_testX. reflexivity.
Qed.

Lemma ofY_snapToWalls w h room tx ty tol st :
  ofY (snapToWalls w h room tx ty tol st) = wallsY h room ty tol (ofY st).
Proof.
  unfold snapToWalls, wallsY. cbv zeta. rewrite !ofY_testY, !ofY_testX. reflexivity.
Qed.

Lemma ofX_snapToOther w h tx ty cur st o :
  ofX (snapToOther w h tx ty cur st o) = otherX w tx cur (ofX st) o.
Proof.
  unfold snapToOther, otherX. cbv zeta.
  destruct (isCurrent cur o); [reflexivity|].
  rewrite !ofX_testY, !ofX_testX. reflexivity.
Qed.

Lemma ofY_snapToOther w h tx ty cur st o :
  ofY (snapToOther w h tx ty cur st o) = otherY h ty cur (ofY st) o.
Proof.
  unfold snapToOther, otherY. cbv zeta.
  destruct (isCurrent cur o); [reflexivity|].
  rewrite !ofY_testY, !ofY_testX. reflexivity.
Qed.

Lemma ofX_others w h tx ty cur : forall objs st,
  ofX (fold_left (snapToOther w h tx ty cur) objs st)
  = fold_left (otherX w tx cur) objs (ofX st).
Proof.
  induction objs as [|o objs IH]; intros st; cbn [fold_left]; [reflexivity|].
  rewrite IH, ofX_snapToOther. reflexivity.
Qed.

Lemma ofY_others w h tx ty cur : forall objs st,
  ofY (fold_left (snapToOther w h tx ty cur) objs st)
  = fold_left (otherY h ty cur) objs (ofY st).
Proof.
  induction objs as [|o objs IH]; intros st; cbn [fold_left]; [reflexivity|].
  rewrite IH, ofY_snapToOther. reflexivity.
Qed.

(** The X fields of the result come from the X tests alone. *)
Lemma resultX w h room tx ty tol objs cur :
  let res := calculatePlacedObjectSnap w h room tx ty tol objs cur in
  let a := fold_left (otherX w tx cur) objs
             (wallsX w room tx tol (mk tx false None (tol + 1))) in
  SnapResult.xCm res = coord a
  /\ SnapResult.snappedX res = snapped a
  /\ SnapResult.xGuideCm res = guide a.
Proof.
  cbv zeta. unfold calculatePlacedObjectSnap. cbv zeta.
  cbn [SnapResult.xCm SnapResult.snappedX SnapResult.xGuideCm].
  change (snappedXCm ?s) with (coord (ofX s)).
  change (snappedX ?s) with (snapped (ofX s)).
  change (xGuideCm ?s) with (guide (ofX s)).
  rewrite ofX_others, ofX_snapToWalls. repeat split.
Qed.

Lemma resultY w h room tx ty tol objs cur :
  let res := calculatePlacedObjectSnap w h room tx ty tol objs cur in
  let a := fold_left (otherY h ty cur) objs
             (wallsY h room ty tol (mk ty false None (tol + 1))) in
  SnapResult.yCm res = coord a
  /\ SnapResult.snappedY res = snapped a
  /\ SnapResult.yGuideCm res = guide a.
Proof.
  cbv zeta. unfold calculatePlacedObjectSnap. cbv zeta.
  cbn [SnapResult.yCm SnapResult.snappedY SnapResult.yGuideCm].
  change (snappedYCm ?s) with (coord (ofY s)).
  change (snappedY ?s) with (snapped (ofY s)).
  change (yGuideCm ?s) with (guide (ofY s)).
  rewrite ofY_others, ofY_snapToWalls. repeat split.
Qed.

Lemma fold_otherX_same w tx cur : forall objs objs' a,
  Forall2 (fun o o' => PlacedObjectForSnap.id o = PlacedObjectForSnap.id o'
                       /\ PlacedObjectForSnap.xCm o = PlacedObjectForSnap.xCm o'
                       /\ PlacedObjectForSnap.widthCm o = PlacedObjectForSnap.widthCm o')
          objs objs' ->
  fold_left (otherX w tx cur) objs a = fold_left (otherX w tx cur) objs' a.
Proof.
  intros objs objs' a H. revert a.
  induction H as [|o o' objs objs' (Hid & Hx & Hw) _ IH]; intros a; cbn [fold_left];
    [reflexivity|].
  assert (E : otherX w tx cur a o = otherX w tx cur a o').
  { unfold otherX, isCurrent. rewrite Hid, Hx, Hw. reflexivity. }
  rewrite E. apply IH.
Qed.

Lemma fold_otherY_same h ty cur : forall objs objs' a,
  Forall2 (fun o o' => PlacedObjectForSnap.id o = PlacedObjectForSnap.id o'
                       /\ PlacedObjectForSnap.yCm o = PlacedObjectForSnap.yCm o'
                       /\ PlacedObjectForSnap.heightCm o = PlacedObjectForSnap.heightCm o')
          objs objs' ->
  fold_left (otherY h ty cur) objs a = fold_left (otherY h ty cur) objs' a.
Proof.
  intros objs objs' a H. revert a.
  induction H as [|o o' objs objs' (Hid & Hy & Hh) _ IH]; intros a; cbn [fold_left];
    [reflexivity|].
  assert (E : otherY h ty cur a o = otherY h ty cur a o').
  { unfold otherY, isCurrent. rewrite Hid, Hy, Hh. reflexivity. }
  rewrite E. apply IH.
Qed.

End ObjectAxisFacts.

(** X6.  The X result of [calculatePlacedObjectSnap] ([xCm], [snappedX],
    [xGuideCm]) depends on horizontal data only: it is the same for any
    object height, target y, vertical extent of the room and vertical
    placement of the other objects, so an object snaps to the left or right
    edge of another one however far apart they are vertically.  The Y
    result depends on vertical data only. *)
Theorem calculatePlacedObjectSnap_axes_independent :
  forall (w w' h h' : Q) (room room' : Room.t) (tx tx' ty ty' tol : Q)
         (objs objs' : list PlacedObjectForSnap.t) (cur : option string),
    (Room.xCm room = Room.xCm room' -> Room.widthCm room = Room.widthCm room' ->
     Forall2 (fun o o' => PlacedObjectForSnap.id o = PlacedObjectForSnap.id o'
                          /\ PlacedObjectForSnap.xCm o = PlacedObjectForSnap.xCm o'
                          /\ PlacedObjectForSnap.widthCm o = PlacedObjectForSnap.widthCm o')
             objs objs' ->
     let res := calculatePlacedObjectSnap w h room tx ty tol objs cur in
     let res' := calculatePlacedObjectSnap w h' room' tx ty' tol objs' cur in
     SnapResult.xCm res = SnapResult.xCm res'
     /\ SnapResult.snappedX res = SnapResult.snappedX res'
     /\ SnapResult.xGuideCm res = SnapResult.xGuideCm res')
    /\ (Room.yCm room = Room.yCm room' -> Room.heightCm room = Room.heightCm room' ->
        Forall2 (fun o o' => PlacedObjectForSnap.id o = PlacedObjectForSnap.id o'
                             /\ PlacedObjectForSnap.yCm o = PlacedObjectForSnap.yCm o'
                             /\ PlacedObjectForSnap.heightCm o = PlacedObjectForSnap.heightCm o')
                objs objs' ->
        let res := calculatePlacedObjectSnap w h room tx ty tol objs cur in
        let res' := calculatePlacedObjectSnap w' h room' tx' ty tol objs' cur in
        SnapResult.yCm res = SnapResult.yCm res'
        /\ SnapResult.snappedY res = SnapResult.snappedY res'
        /\ SnapResult.yGuideCm res = SnapResult.yGuideCm res').
Proof.
  intros w w' h h' room room' tx tx' ty ty' tol objs objs' cur. split.
  - intros Hx Hw Hobjs res res'.
    destruct (ObjectAxisFacts.resultX w h room tx ty tol objs cur) as (E1 & E2 & E3).
    destruct (ObjectAxisFacts.resultX w h' room' tx ty' tol objs' cur) as (F1 & F2 & F3).
    unfold res, res'. rewrite E1, E2, E3, F1, F2, F3.
    rewrite (ObjectAxisFacts.fold_otherX_same w tx cur objs objs' _ Hobjs).
    unfold ObjectAxis.wallsX. rewrite Hx, Hw. repeat split.
  - intros Hy Hh Hobjs res res'.
    destruct (ObjectAxisFacts.resultY w h room tx ty tol objs cur) as (E1 & E2 & E3).
    destruct (ObjectAxisFacts.resultY w' h room' tx' ty tol objs' cur) as (F1 & F2 & F3).
    unfold res, res'. rewrite E1, E2, E3, F1, F2, F3.
    rewrite (ObjectAxisFacts.fold_otherY_same h ty cur objs objs' _ Hobjs).
    unfold ObjectAxis.wallsY. rewrite Hy, Hh. repeat split.
Qed.

Lemma calculatePlacedObjectSnap_axes_independent_witness :
  SnapResult.xCm (calculatePlacedObjectSnap 50 50 Examples.roomA 100 100 25
                    [ObjectExamples.obj1] None)
  = SnapResult.xCm (calculatePlacedObjectSnap 50 50 Examples.roomA 100 100 25
                      [PlacedObjectForSnap.mk "o1" 158 5000 50 50] None)
  /\ SnapResult.snappedX (calculatePlacedObjectSnap 50 50 Examples.roomA 100 100 25
                            [ObjectExamples.obj1] None)
     = SnapResult.snappedX (calculatePlacedObjectSnap 50 50 Examples.roomA 100 100 25
                              [PlacedObjectForSnap.mk "o1" 158 5000 50 50] None)
  /\ SnapResult.xGuideCm (calculatePlacedObjectSnap 50 50 Examples.roomA 100 100 25
                            [ObjectExamples.obj1] None)
     = SnapResult.xGuideCm (calculatePlacedObjectSnap 50 50 Examples.roomA 100 100 25
                              [PlacedObjectForSnap.mk "o1" 158 5000 50 50] None).
Proof.
  apply (proj1 (calculatePlacedObjectSnap_axes_independent 50 50 50 50
                  Examples.roomA Examples.roomA 100 100 100 100 25
                  [ObjectExamples.obj1] [PlacedObjectForSnap.mk "o1" 158 5000 50 50] None)).
  - reflexivity.
  - reflexivity.
  - constructor; [repeat split | constructor].
Defined.

(** ** Rotation *)

Section RotateButton.

Variable updatePlacedObjectRotation : AppState.t -> string -> Z -> AppState.t.

(** X8.  The [Rotate] button records one history entry with the rotation
    advanced by a quarter turn modulo 360.  From a non-negative multiple of
    90 degrees the new rotation is 0, 90, 180 or 270, the object changes
    between the unswapped and the swapped visual box, and three more
    quarter turns give back the rotation before the click, modulo 360. *)
Theorem rotateClick_quarter_turn :
  forall (ed : Editor.t) (p : PlacedObject.t),
    let current := nullish (PlacedObject.rotationDeg p) 0%Z in
    exists r,
      Page.rotateClick updatePlacedObjectRotation ed p
      = Editor.updateState ed
          (updatePlacedObjectRotation (HistoryState.present (Editor.history ed))
             (PlacedObject.id p) r) true
      /\ ((0 <= current)%Z -> Z.rem current 90 = 0%Z ->
          In r [0; 90; 180; 270]%Z
          /\ Editor.isRotated r = negb (Editor.isRotated current)
          /\ Z.rem (Z.rem (Z.rem (r + 90) 360 + 90) 360 + 90) 360 = Z.rem current 360).
Proof.
  intros ed p current. exists (Z.rem (current + 90) 360). split; [reflexivity|].
  intros Hpos Hmult.
  rewrite Z.rem_mod_nonneg in Hmult by lia.
  rewrite (Z.rem_mod_nonneg (current + 90) 360) by lia.
  assert (Hr : (0 <= (current + 90) mod 360 < 360)%Z) by (apply Z.mod_pos_bound; lia).
  set (r := ((current + 90) mod 360)%Z) in *.
  assert (Hr90 : (r mod 90 = 0)%Z) by (unfold r; Z.div_mod_to_equations; lia).
  assert (Hq : r = 0%Z \/ r = 90%Z \/ r = 180%Z \/ r = 270%Z)
    by (Z.div_mod_to_equations; lia).
  split; [cbn [In]; lia|]. split.
  - unfold Editor.isRotated. rewrite !Z.rem_mod_nonneg by lia.
    destruct (Z.eqb_spec (r mod 180) 0) as [E1|E1];
      destruct (Z.eqb_spec (current mod 180) 0) as [E2|E2]; cbn [negb];
      try reflexivity; exfalso; unfold r in *; Z.div_mod_to_equations; lia.
  - rewrite (Z.rem_mod_nonneg (r + 90) 360) by lia.
    assert (H1 : (0 <= (r + 90) mod 360 < 360)%Z) by (apply Z.mod_pos_bound; lia).
    rewrite (Z.rem_mod_nonneg ((r + 90) mod 360 + 90) 360) by lia.
    assert (H2 : (0 <= ((r + 90) mod 360 + 90) mod 360 < 360)%Z)
      by (apply Z.mod_pos_bound; lia).
    rewrite !Z.rem_mod_nonneg by lia.
    unfold r in *. Z.div_mod_to_equations. lia.
Qed.

End RotateButton.

Lemma rotateClick_quarter_turn_witness :
  exists r,
    Page.rotateClick (fun s _ _ => s) EditorExamples.editor0 EditorExamples.objectInB
    = Editor.updateState EditorExamples.editor0
        ((fun s _ _ => s) (HistoryState.present (Editor.history EditorExamples.editor0))
           (PlacedObject.id EditorExamples.objectInB) r) true
    /\ In r [0; 90; 180; 270]%Z.
Proof.
  destruct (rotateClick_quarter_turn (fun s _ _ => s) EditorExamples.editor0
              EditorExamples.objectInB) as (r & Heq & Hq).
  exists r. split; [exact Heq|].
  apply Hq; [discriminate | reflexivity].
Defined.

(** ** Resizing and dragging objects *)

Section DragHandlers.

Variable svgPixelsToCm : Q -> Q -> Q * Q.
Variable resizeRoom : AppState.t -> string -> Q -> Q -> Q -> Q -> AppState.t.
Variable updatePlacedObjectPosition : AppState.t -> string -> Q -> Q -> AppState.t.

(** X9.  The resize branch of [handleSvgPointerMove] updates [present]
    without a history entry.  Without a west part in the handle the left
    edge stays where it was, and an east part gives a width that is at
    least 10 cm and at least the initial width plus the pointer's
    horizontal travel.  With a west part the left edge moves right by a
    [delta] and the width is the initial width minus the same [delta],
    where [delta] is at most the pointer's travel and at most the initial
    width minus 10 cm.  A handle with neither part leaves the width alone.
    The same holds vertically with north for west and south for east. *)
Theorem moveResize_moves_one_edge :
  forall (ed : Editor.t) (appState : AppState.t) (d : ExtendedDragState.t)
         (initial : Room.t) (handle : string) (xCm yCm : Q),
    let dx := xCm - fst (svgPixelsToCm (ExtendedDragState.startX d) 0) in
    let dy := yCm - snd (svgPixelsToCm 0 (ExtendedDragState.startY d)) in
    exists newX newY newW newH,
      Editor.moveResize svgPixelsToCm resizeRoom ed appState d initial handle xCm yCm
      = Editor.updateState ed
          (resizeRoom appState (ExtendedDragState.roomId d) newX newY newW newH) false
      /\ (if Editor.includes handle "w"
          then exists delta, delta <= dx /\ delta <= Room.widthCm initial - 10
                             /\ newX = Room.xCm initial + delta
                             /\ newW = Room.widthCm initial - delta
          else newX = Room.xCm initial
               /\ (if Editor.includes handle "e"
                   then 10 <= newW /\ Room.widthCm initial + dx <= newW
                   else newW = Room.widthCm initial))
      /\ (if Editor.includes handle "n"
          then exists delta, delta <= dy /\ delta <= Room.heightCm initial - 10
                             /\ newY = Room.yCm initial + delta
                             /\ newH = Room.heightCm initial - delta
          else newY = Room.yCm initial
               /\ (if Editor.includes handle "s"
                   then 10 <= newH /\ Room.heightCm initial + dy <= newH
                   else newH = Room.heightCm initial)).
Proof.
  intros ed appState d initial handle xCm yCm dx dy.
  unfold Editor.moveResize. cbv zeta. fold dx dy.
  pose proof (Q.le_max_l 10 (Room.widthCm initial + dx)) as Hw.
  pose proof (Q.le_max_r 10 (Room.widthCm initial + dx)) as Hw'.
  pose proof (Q.le_max_l 10 (Room.heightCm initial + dy)) as Hh.
  pose proof (Q.le_max_r 10 (Room.heightCm initial + dy)) as Hh'.
  pose proof (Q.le_min_l dx (Room.widthCm initial - 10)) as Hmw.
  pose proof (Q.le_min_r dx (Room.widthCm initial - 10)) as Hmw'.
  pose proof (Q.le_min_l dy (Room.heightCm initial - 10)) as Hmh.
  pose proof (Q.le_min_r dy (Room.heightCm initial - 10)) as Hmh'.
  destruct (Editor.includes handle "e"), (Editor.includes handle "w"),
           (Editor.includes handle "s"), (Editor.includes handle "n");
    do 4 eexists; (split; [reflexivity|]); split;
    first [ eexists; repeat split; [eassumption | eassumption]
          | repeat split; assumption
          | repeat split ].
Qed.

End DragHandlers.

(** ** Viewport controls *)

Module ViewFacts.
Import Editor.

Lemma clamp_wheel (z : Q) : 1 # 10 <= Qmax (1 # 10) (Qmin 3 z) /\ Qmax (1 # 10) (Qmin 3 z) <= 3.
Proof.
  split; [apply Q.le_max_l|].
  apply Q.max_lub; [lra | apply Q.le_min_l].
Qed.

Lemma clamp_out (z : Q) :
  1 # 10 <= z -> z <= 3 ->
  1 # 10 <= Qmax (1 # 10) (z - (2 # 10)) /\ Qmax (1 # 10) (z - (2 # 10)) <= 3.
Proof.
  intros Hl Hu. split; [apply Q.le_max_l|].
  apply Q.max_lub; lra.
Qed.

Lemma clamp_in (z : Q) :
  1 # 10 <= z -> z <= 3 ->
  1 # 10 <= Qmin 3 (z + (2 # 10)) /\ Qmin 3 (z + (2 # 10)) <= 3.
Proof.
  intros Hl Hu. split; [|apply Q.le_min_l].
  apply Q.min_glb; lra.
Qed.

End ViewFacts.

Section Viewport.

Variable updateViewport : AppState.t -> Q -> Q -> Q -> AppState.t.

(** [State.updateViewport] stores the zoom it is given. *)
Hypothesis updateViewport_zoom :
  forall s panX panY zoom, AppState.zoom (updateViewport s panX panY zoom) = zoom.

Lemma viewHandler_zoom_in_range ed v :
  1 # 10 <= AppState.zoom (HistoryState.present (Editor.history ed)) ->
  AppState.zoom (HistoryState.present (Editor.history ed)) <= 3 ->
  1 # 10 <= AppState.zoom (HistoryState.present
                             (Editor.history (Page.viewHandler updateViewport ed v)))
  /\ AppState.zoom (HistoryState.present
                      (Editor.history (Page.viewHandler updateViewport ed v))) <= 3.
Proof.
  intros Hl Hu.
  destruct v as [e| | |]; cbn [Page.viewHandler];
    unfold Page.handleSvgWheel, Page.zoomOutClick, Page.zoomInClick, Page.resetViewClick;
    cbv zeta;
    cbn [Editor.updateState Editor.setHistory Editor.history Editor.withPresent
         HistoryState.present];
    rewrite updateViewport_zoom.
  - apply ViewFacts.clamp_wheel.
  - apply ViewFacts.clamp_out; assumption.
  - apply ViewFacts.clamp_in; assumption.
  - split; lra.
Qed.

Lemma viewHandler_keeps_stacks ed v :
  Editor.keepsStacks ed (Page.viewHandler updateViewport ed v).
Proof.
  destruct v; cbn [Page.viewHandler];
    unfold Page.handleSvgWheel, Page.zoomOutClick, Page.zoomInClick, Page.resetViewClick;
    cbv zeta; apply EditorFacts.updateState_unrecorded_keeps.
Qed.

(** X11.  Given that [State.updateViewport] stores the zoom it is given:
    after a wheel event the zoom is within [0.1, 3] whatever it was before;
    and from a zoom within [0.1, 3], every sequence of wheel events and
    clicks on the zoom-out, zoom-in and reset buttons leaves the zoom
    within [0.1, 3]; none of them adds a history entry or touches the redo
    stack. *)
Theorem viewport_zoom_stays_in_range :
  forall (ed : Editor.t) (e : WheelEvent.t) (vs : list Page.ViewEvent),
    (1 # 10 <= AppState.zoom (HistoryState.present
                                (Editor.history (Page.handleSvgWheel updateViewport ed e)))
     /\ AppState.zoom (HistoryState.present
                         (Editor.history (Page.handleSvgWheel updateViewport ed e))) <= 3)
    /\ (1 # 10 <= AppState.zoom (HistoryState.present (Editor.history ed)) ->
        AppState.zoom (HistoryState.present (Editor.history ed)) <= 3 ->
        let ed' := fold_left (Page.viewHandler updateViewport) vs ed in
        1 # 10 <= AppState.zoom (HistoryState.present (Editor.history ed'))
        /\ AppState.zoom (HistoryState.present (Editor.history ed')) <= 3)
    /\ (let ed' := fold_left (Page.viewHandler updateViewport) vs ed in
        HistoryState.past (Editor.history ed') = HistoryState.past (Editor.history ed)
        /\ HistoryState.future (Editor.history ed') = HistoryState.future (Editor.history ed)).
Proof.
  intros ed e vs. split; [|split].
  - unfold Page.handleSvgWheel. cbv zeta.
    cbn [Editor.updateState Editor.setHistory Editor.history Editor.withPresent
         HistoryState.present].
    rewrite updateViewport_zoom. apply ViewFacts.clamp_wheel.
  - revert ed. induction vs as [|v vs IH]; intros ed Hl Hu; cbn [fold_left].
    + split; assumption.
    + destruct (viewHandler_zoom_in_range ed v Hl Hu) as [Hl' Hu'].
      apply IH; assumption.
  - revert ed. induction vs as [|v vs IH]; intros ed; cbn [fold_left].
    + split; reflexivity.
    + destruct (IH (Page.viewHandler updateViewport ed v)) as [Hp Hf].
      destruct (viewHandler_keeps_stacks ed v) as (Hp' & Hf' & _).
      cbv zeta in Hp, Hf. split; congruence.
Qed.

End Viewport.

Lemma viewport_zoom_stays_in_range_witness :
  1 # 10 <= AppState.zoom
              (HistoryState.present
                 (Editor.history
                    (fold_left (Page.viewHandler EditorExamples.updateViewport)
                       [Page.zoomIn; Page.wheel (WheelEvent.mk (-(100))); Page.zoomOut]
                       EditorExamples.editor0)))
  /\ AppState.zoom
       (HistoryState.present
          (Editor.history
             (fold_left (Page.viewHandler EditorExamples.updateViewport)
                [Page.zoomIn; Page.wheel (WheelEvent.mk (-(100))); Page.zoomOut]
                EditorExamples.editor0))) <= 3.
Proof.
  apply (viewport_zoom_stays_in_range EditorExamples.updateViewport
           (fun _ _ _ _ => eq_refl) EditorExamples.editor0 (WheelEvent.mk 1)
           [Page.zoomIn; Page.wheel (WheelEvent.mk (-(100))); Page.zoomOut]); q_eval.
Defined.

(** ** Placing an object *)

Section PlaceObject.

Variable getRoomById : AppState.t -> string -> option Room.t.
Variable placeObject : AppState.t -> string -> string -> Q -> Q -> AppState.t.

(** X12.  [handlePlaceObjectDef] acts exactly when the definition is
    found and the first selected room id is non-empty and names a room
    that is found.  It then records one history entry that places the
    object in that room at the room's corner plus, on each axis, half of
    what the room's size exceeds the object's by.  With no room selected,
    an empty or unknown first id or an unknown definition it does
    nothing. *)
Theorem handlePlaceObjectDef_places_in_first_selected :
  forall (ed : Editor.t) (defId : string),
    let appState := HistoryState.present (Editor.history ed) in
    let ed' := Page.handlePlaceObjectDef getRoomById placeObject ed defId in
    let found := find (fun d => String.eqb (ObjectDef.id d) defId)
                      (AppState.objectDefs appState) in
    (forall def firstId room,
        found = Some def ->
        hd_error (AppState.selectedRoomIds appState) = Some firstId ->
        firstId <> EmptyString ->
        getRoomById appState firstId = Some room ->
        ed' = Editor.updateState ed
                (placeObject appState defId (Room.id room)
                   (Room.xCm room + (Room.widthCm room - ObjectDef.widthCm def) / 2)
                   (Room.yCm room + (Room.heightCm room - ObjectDef.heightCm def) / 2))
                true)
    /\ (found = None -> ed' = ed)
    /\ (AppState.selectedRoomIds appState = [] -> ed' = ed)
    /\ (forall firstId,
          hd_error (AppState.selectedRoomIds appState) = Some firstId ->
          firstId = EmptyString \/ getRoomById appState firstId = None ->
          ed' = ed).
Proof.
  intros ed defId appState ed' found. unfold ed', Page.handlePlaceObjectDef. cbv zeta.
  fold appState. fold found.
  split; [|split; [|split]].
  - intros def firstId room -> Hfirst Hne Hroom.
    destruct (AppState.selectedRoomIds appState) as [|i others]; [discriminate|].
    injection Hfirst as ->. cbn [nth_error].
    apply String.eqb_neq in Hne. unfold Editor.truthy. rewrite Hne. cbn [negb].
    rewrite Hroom. reflexivity.
  - intros ->. reflexivity.
  - intros ->. cbn [nth_error]. destruct found; reflexivity.
  - intros firstId Hfirst Hbad.
    destruct (AppState.selectedRoomIds appState) as [|i others]; [discriminate|].
    injection Hfirst as ->. cbn [nth_error].
    destruct Hbad as [-> | Hnone].
    + cbn. destruct found; reflexivity.
    + destruct (Editor.truthy firstId); [rewrite Hnone|]; destruct found; reflexivity.
Qed.

End PlaceObject.

Lemma handlePlaceObjectDef_places_in_first_selected_witness :
  Page.handlePlaceObjectDef EditorExamples.getRoomById (fun s _ _ _ _ => s)
    (Editor.setHistory EditorExamples.editor0
       (fun h => Editor.withPresent h
                   (PageExamples.withSelection EditorExamples.furnished ["A"%string])))
    "def"
  = Editor.updateState
      (Editor.setHistory EditorExamples.editor0
         (fun h => Editor.withPresent h
                     (PageExamples.withSelection EditorExamples.furnished ["A"%string])))
      (PageExamples.withSelection EditorExamples.furnished ["A"%string]) true.
Proof.
  apply (proj1 (handlePlaceObjectDef_places_in_first_selected EditorExamples.getRoomById
                  (fun s _ _ _ _ => s)
                  (Editor.setHistory EditorExamples.editor0
                     (fun h => Editor.withPresent h
                                 (PageExamples.withSelection EditorExamples.furnished
                                    ["A"%string])))
                  "def")
           (ObjectDef.mk "def" "table" 60 35) "A"%string Examples.roomA).
  - reflexivity.
  - reflexivity.
  - discriminate.
  - reflexivity.
Defined.

(** ** Walls with openings *)

Module WallFacts.
Import Page.

Lemma insertByPosition_perm o : forall l, Permutation (o :: l) (insertByPosition o l).
Proof.
  induction l as [|x l IH]; cbn [insertByPosition]; [apply Permutation_refl|].
  destruct (Qle_bool (WallOpening.positionCm o) (WallOpening.positionCm x)).
  - apply Permutation_refl.
  - eapply Permutation_trans; [apply perm_swap|]. apply perm_skip. exact IH.
Qed.

Lemma sortByPosition_perm : forall l, Permutation l (sortByPosition l).
Proof.
  induction l as [|o l IH]; cbn [sortByPosition fold_right]; [apply Permutation_refl|].
  eapply Permutation_trans; [apply perm_skip; exact IH|]. apply insertByPosition_perm.
Qed.

Section Wall.

Variable baseX baseY wallWidth wallHeight : Q.
Variable isHorizontal : bool.

Local Notation "'step'" := (wallSegmentStep baseX baseY wallWidth wallHeight isHorizontal).
Local Notation "'lineOf'" := (floorLine baseX baseY wallWidth wallHeight isHorizontal).
Local Notation "'positive'" := (positiveRect wallWidth wallHeight isHorizontal).

(** One opening adds its floor line, after at most one rectangle, which
    is drawn only where it has a positive length. *)
Lemma step_shapes segs cur o :
  Forall positive segs ->
  Forall positive (fst (step (segs, cur) o))
  /\ filter isLine (fst (step (segs, cur) o)) = filter isLine segs ++ [lineOf o].
Proof.
  intros Hsegs. unfold wallSegmentStep, floorLine. cbv zeta. cbn [fst snd].
  destruct (Qlt_bool cur (WallOpening.positionCm o * SCALE)) eqn:E.
  - apply Qlt_bool_true in E.
    assert (Hpos : 0 < WallOpening.positionCm o * SCALE - cur) by lra.
    destruct isHorizontal; (split;
      [ apply Forall_app; split;
        [ apply Forall_app; split; [exact Hsegs|];
          constructor; [|constructor]; cbn [positiveRect]; split; [exact Hpos | reflexivity]
        | constructor; [exact I | constructor] ]
      | rewrite !filter_app; cbn [filter isLine]; rewrite app_nil_r; reflexivity ]).
  - destruct isHorizontal; (split;
      [ apply Forall_app; split; [exact Hsegs|]; constructor; [exact I | constructor]
      | rewrite !filter_app; cbn [filter isLine]; reflexivity ]).
Qed.

Lemma fold_shapes : forall os segs cur,
  Forall positive segs ->
  Forall positive (fst (fold_left step os (segs, cur)))
  /\ filter isLine (fst (fold_left step os (segs, cur)))
     = filter isLine segs ++ map lineOf os.
Proof.
  induction os as [|o os IH]; intros segs cur Hsegs; cbn [fold_left map].
  - cbn [fst]. rewrite app_nil_r. split; [exact Hsegs | reflexivity].
  - destruct (step_shapes segs cur o Hsegs) as [Hf Hl].
    destruct (step (segs, cur) o) as [segs' cur'] eqn:Es. cbn [fst] in Hf, Hl.
    destruct (IH segs' cur' Hf) as [Hf' Hl'].
    split; [exact Hf'|]. rewrite Hl', Hl, <- app_assoc. reflexivity.
Qed.

End Wall.

End WallFacts.



Example wallShapes_two_doors :
  Page.wallShapes
    [WallOpening.mk "d1" "A" north 200 90 door; WallOpening.mk "d2" "A" north 50 90 door]
    0 0 1600 50 true
  = [ rect (0 + 0) 0 (50 * 5 - 0) 50;
      line (0 + 50 * 5) (0 + 50 / 2) (0 + 50 * 5 + 90 * 5) (0 + 50 / 2);
      rect (0 + (50 * 5 + 90 * 5)) 0 (200 * 5 - (50 * 5 + 90 * 5)) 50;
      line (0 + 200 * 5) (0 + 50 / 2) (0 + 200 * 5 + 90 * 5) (0 + 50 / 2);
      rect (0 + (200 * 5 + 90 * 5)) 0 (1600 - (200 * 5 + 90 * 5)) 50 ].
Proof. reflexivity. Qed.

(** ** The door form *)

Section DoorForm.

Variable parseFloat : string -> JsNumber.

(** X15.  [handleAddDoor] and [handleSaveEdit] call back only with a
    finite position of at least 0 and a finite width of at least 10 cm
    whose sum does not exceed the inner length of the wall (the room's
    width for a north or south wall, its height for an east or west wall);
    no other input, [NaN] and the infinities included, is forwarded, and
    [handleAddDoor] forwards an input that fits as it is. *)
Theorem door_form_forwards_only_fitting_openings :
  forall (room : Room.t) (wall : WallSide) (opening : WallOpening.t)
         (positionCm widthCm : string),
    (forall roomId wall' pos width,
        Forms.handleAddDoor parseFloat room wall positionCm widthCm
          = Forms.onAddDoor roomId wall' pos width ->
        roomId = Room.id room /\ wall' = wall
        /\ exists p w, pos = Finite p /\ width = Finite w
                       /\ parseFloat positionCm = Finite p /\ parseFloat widthCm = Finite w
                       /\ 0 <= p /\ 10 <= w
                       /\ p + w <= Forms.getWallLengthCm room wall)
    /\ (forall openingId pos width,
          Forms.handleSaveEdit parseFloat room opening positionCm widthCm
            = Forms.onUpdateDoor openingId pos width ->
          openingId = WallOpening.id opening
          /\ exists p w, pos = Finite p /\ width = Finite w
                         /\ 0 <= p /\ 10 <= w
                         /\ p + w <= Forms.getWallLengthCm room (WallOpening.wall opening))
    /\ (forall p w, parseFloat positionCm = Finite p -> parseFloat widthCm = Finite w ->
          0 <= p -> 10 <= w -> p + w <= Forms.getWallLengthCm room wall ->
          Forms.handleAddDoor parseFloat room wall positionCm widthCm
            = Forms.onAddDoor (Room.id room) wall (Finite p) (Finite w)).
Proof.
  intros room wall opening positionCm widthCm.
  split; [|split].
  - intros roomId wall' pos width. unfold Forms.handleAddDoor. cbv zeta.
    destruct (parseFloat positionCm) as [| |p|]; destruct (parseFloat widthCm) as [| |w|];
      cbn [Forms.isNaN Forms.ltNumber Forms.gtNumber Forms.addNumber orb];
      try discriminate;
      try (destruct (Qlt_bool _ _); cbn [orb]; try discriminate;
           destruct (Qlt_bool _ _); discriminate).
    destruct (Qlt_bool p 0) eqn:E1; cbn [orb]; [discriminate|].
    destruct (Qlt_bool w 10) eqn:E2; [discriminate|].
    destruct (Qlt_bool (Forms.getWallLengthCm room wall) (p + w)) eqn:E3; [discriminate|].
    intros H. inversion H. subst.
    apply Qlt_bool_false in E1, E2, E3.
    split; [reflexivity|]. split; [reflexivity|]. exists p, w. repeat split; assumption.
  - intros openingId pos width. unfold Forms.handleSaveEdit. cbv zeta.
    destruct (parseFloat positionCm) as [| |p|]; destruct (parseFloat widthCm) as [| |w|];
      cbn [Forms.isNaN Forms.ltNumber Forms.gtNumber Forms.addNumber orb];
      try discriminate;
      try (destruct (Qlt_bool _ _); cbn [orb]; try discriminate;
           destruct (Qlt_bool _ _); discriminate).
    destruct (Qlt_bool p 0) eqn:E1; cbn [orb]; [discriminate|].
    destruct (Qlt_bool w 10) eqn:E2; [discriminate|].
    destruct (Qlt_bool (Forms.getWallLengthCm room (WallOpening.wall opening)) (p + w)) eqn:E3;
      [discriminate|].
    intros H. inversion H. subst.
    apply Qlt_bool_false in E1, E2, E3.
    split; [reflexivity|]. exists p, w. repeat split; assumption.
  - intros p w Hp Hw H0 H10 Hfit. unfold Forms.handleAddDoor. cbv zeta.
    rewrite Hp, Hw. cbn [Forms.isNaN Forms.ltNumber Forms.gtNumber Forms.addNumber orb].
    assert (E1 : Qlt_bool p 0 = false) by (apply Qlt_bool_false; exact H0).
    assert (E2 : Qlt_bool w 10 = false) by (apply Qlt_bool_false; exact H10).
    assert (E3 : Qlt_bool (Forms.getWallLengthCm room wall) (p + w) = false)
      by (apply Qlt_bool_false; exact Hfit).
    rewrite E1, E2, E3. reflexivity.
Qed.

End DoorForm.

Lemma door_form_forwards_only_fitting_openings_witness :
  Forms.handleAddDoor (fun s => if String.eqb s "50" then Finite 50 else Finite 90)
    Examples.roomA north "50" "90"
  = Forms.onAddDoor (Room.id Examples.roomA) north (Finite 50) (Finite 90).
Proof.
  destruct (door_form_forwards_only_fitting_openings
              (fun s => if String.eqb s "50" then Finite 50 else Finite 90)
              Examples.roomA north EditorExamples.doorOfA "50" "90") as (_ & _ & H).
  apply H; [reflexivity | reflexivity | q_eval | q_eval | q_eval].
Defined.

(** ** Pointer-down, gestures and the keyboard *)

Section Gestures.

Variable getSvgCoordinates : PointerEvent.t -> Q -> Q -> Q -> Q * Q.
Variable calculateDragPosition : ExtendedDragState.t -> Q -> Q -> Q * Q.
Variable svgPixelsToCm : Q -> Q -> Q * Q.
Variable constrainRoomPosition : Q -> Q -> Q * Q.
Variable startPlacedDrag : PlacedObject.t -> Q -> Q -> ExtendedDragState.t.
Variable getRoomById : AppState.t -> string -> option Room.t.
Variable updateViewport : AppState.t -> Q -> Q -> Q -> AppState.t.
Variable resizeRoom : AppState.t -> string -> Q -> Q -> Q -> Q -> AppState.t.
Variable updatePlacedObjectPosition : AppState.t -> string -> Q -> Q -> AppState.t.
Variable moveRooms : AppState.t -> list RoomMove.t -> AppState.t.
Variable selectRoom : AppState.t -> string -> AppState.t.
Variable toggleRoomSelection : AppState.t -> string -> AppState.t.
Variable clearSelection : AppState.t -> AppState.t.
Variable selectAllRooms : AppState.t -> AppState.t.
Variable selectObject : AppState.t -> string -> AppState.t.
Variable deleteSelectedObject : AppState.t -> AppState.t.
Variable deleteRooms : AppState.t -> list string -> AppState.t.
Variable nudgeSelectedRooms : AppState.t -> Q -> Q -> AppState.t.

Local Notation "'pointerDown'" :=
  (Page.handleSvgPointerDown getSvgCoordinates svgPixelsToCm startPlacedDrag getRoomById
     selectRoom toggleRoomSelection clearSelection selectObject).
Local Notation "'roomPress'" :=
  (Page.downRoom getRoomById selectRoom toggleRoomSelection clearSelection).
Local Notation "'handler'" :=
  (Editor.svgHandler getSvgCoordinates calculateDragPosition svgPixelsToCm
     constrainRoomPosition getRoomById updateViewport resizeRoom
     updatePlacedObjectPosition moveRooms).
Local Notation "'dragMoves'" :=
  (Editor.moves getSvgCoordinates calculateDragPosition svgPixelsToCm
     constrainRoomPosition getRoomById updateViewport resizeRoom
     updatePlacedObjectPosition moveRooms).
Local Notation "'keyDown'" :=
  (Page.handleKeyDown clearSelection selectAllRooms deleteSelectedObject deleteRooms
     nudgeSelectedRooms).

Lemma handleSelectRoom_sameStacks ed roomId add :
  Editor.sameStacks ed (Page.handleSelectRoom selectRoom toggleRoomSelection clearSelection
                   ed roomId add).
Proof.
  unfold Page.handleSelectRoom. cbv zeta.
  destruct roomId; [destruct add|]; split; reflexivity.
Qed.

Lemma downRoom_sameStacks ed appState e roomId x y :
  Editor.sameStacks ed (roomPress ed appState e roomId x y).
Proof.
  unfold Page.downRoom.
  destruct (getRoomById appState roomId) as [room|]; [|split; reflexivity].
  cbv zeta. destruct (PointerDownEvent.shiftKey e).
  - apply handleSelectRoom_sameStacks.
  - destruct (negb _); [|split; reflexivity].
    destruct (handleSelectRoom_sameStacks ed (Some (Room.id room)) false) as [Hp Hf].
    split; [exact Hp | exact Hf].
Qed.

Lemma pointerDown_sameStacks st e :
  Editor.sameStacks (RoomEditor.editor st) (RoomEditor.editor (pointerDown st e)).
Proof.
  unfold Page.handleSvgPointerDown. cbv zeta.
  destruct (negb (Editor.svgMounted (RoomEditor.editor st))); [split; reflexivity|].
  destruct (RoomEditor.toolMode st).
  - destruct (Page.downResize _ _ _ _ _ _) as [ed'|] eqn:Er.
    + unfold Page.downResize in Er.
      destruct (PointerDownEvent.resizeHandle e); [|discriminate].
      destruct (PointerDownEvent.resizeRoomId e); [|discriminate].
      destruct (_ && _); [|discriminate].
      destruct (getRoomById _ _); [|discriminate].
      inversion Er. split; reflexivity.
    + destruct (Page.downPlaced _ _ _ _ _ _ _) as [ed'|] eqn:Ep.
      * unfold Page.downPlaced in Ep.
        destruct (PointerDownEvent.placedId e); [|discriminate].
        destruct (Editor.truthy _); [|discriminate].
        destruct (find _ _); [|discriminate].
        inversion Ep. split; reflexivity.
      * destruct (PointerDownEvent.roomId e) as [roomId|].
        -- destruct (Editor.truthy roomId).
           ++ apply downRoom_sameStacks.
           ++ unfold Page.downPan. cbv zeta.
              destruct (handleSelectRoom_sameStacks
                          (Editor.setDragState (RoomEditor.editor st) None) None false)
                as [Hp Hf]. split; reflexivity.
        -- unfold Page.downPan. cbv zeta. split; reflexivity.
  - unfold Page.measureClick.
    destruct (RoomEditor.measurePoints st) as [|p0 [|p1 ps]]; split; reflexivity.
Qed.

Lemma pointerDown_measure_keeps_editor st e :
  RoomEditor.toolMode st = measure ->
  RoomEditor.editor (pointerDown st e) = RoomEditor.editor st.
Proof.
  intros Ht. unfold Page.handleSvgPointerDown. cbv zeta.
  destruct (negb (Editor.svgMounted (RoomEditor.editor st))); [reflexivity|].
  rewrite Ht. unfold Page.measureClick.
  destruct (RoomEditor.measurePoints st) as [|p0 [|p1 ps]]; reflexivity.
Qed.

(** X16.  [handleSvgPointerDown] never adds a history entry and never
    touches the redo stack, and it never changes the tool.  With the
    measure tool it leaves the history and the drag session alone and,
    when the SVG element is mounted, keeps one or two measure points: the
    click adds the second point when there was exactly one, and starts a
    new measurement otherwise.  With the select tool it leaves the measure
    points alone. *)
Theorem handleSvgPointerDown_never_records :
  forall (st : RoomEditor.t) (e : PointerDownEvent.t),
    let st' := pointerDown st e in
    (HistoryState.past (Editor.history (RoomEditor.editor st'))
       = HistoryState.past (Editor.history (RoomEditor.editor st))
     /\ HistoryState.future (Editor.history (RoomEditor.editor st'))
       = HistoryState.future (Editor.history (RoomEditor.editor st)))
    /\ RoomEditor.toolMode st' = RoomEditor.toolMode st
    /\ (RoomEditor.toolMode st = measure ->
        RoomEditor.editor st' = RoomEditor.editor st
        /\ (Editor.svgMounted (RoomEditor.editor st) = true ->
            match RoomEditor.measurePoints st with
            | [p0] => exists p1, RoomEditor.measurePoints st' = [p0; p1]
            | _ => exists p0, RoomEditor.measurePoints st' = [p0]
            end))
    /\ (RoomEditor.toolMode st = select ->
        RoomEditor.measurePoints st' = RoomEditor.measurePoints st).
Proof.
  intros st e st'.
  split; [exact (pointerDown_sameStacks st e)|].
  unfold st', Page.handleSvgPointerDown. cbv zeta.
  destruct (negb (Editor.svgMounted (RoomEditor.editor st))) eqn:Em.
  - split; [reflexivity|]. split; [|reflexivity].
    intros _. split; [reflexivity|]. intros Hm. rewrite Hm in Em. discriminate.
  - destruct (RoomEditor.toolMode st) eqn:Et.
    + split.
      * destruct (Page.downResize _ _ _ _ _ _); [exact Et|].
        destruct (Page.downPlaced _ _ _ _ _ _ _); [exact Et|].
        destruct (PointerDownEvent.roomId e) as [r|]; [destruct (Editor.truthy r)|];
          exact Et.
      * split; [discriminate|]. intros _.
        destruct (Page.downResize _ _ _ _ _ _); [reflexivity|].
        destruct (Page.downPlaced _ _ _ _ _ _ _); [reflexivity|].
        destruct (PointerDownEvent.roomId e) as [r|]; [destruct (Editor.truthy r)|];
          reflexivity.
    + unfold Page.measureClick.
      destruct (RoomEditor.measurePoints st) as [|p0 [|p1 ps]];
        (split; [cbn; exact Et|]); (split; [|discriminate]);
        intros _; (split; [reflexivity|]); intros _; eexists; reflexivity.
Qed.

(** X17.  A shift-click on a room toggles its selection and starts no drag.
    A plain press on a room starts a room drag from the room's stored
    position, and every room captured for the drag is a room that
    [getRoomById] finds for a selected id (for the id of the pressed room
    when it was not selected), captured at its stored position. *)
Theorem downRoom_captures_selected_rooms :
  forall (ed : Editor.t) (appState : AppState.t) (e : PointerDownEvent.t)
         (roomId : string) (x y : Q) (room : Room.t),
    getRoomById appState roomId = Some room ->
    let ed' := roomPress ed appState e roomId x y in
    if PointerDownEvent.shiftKey e then
      Editor.dragState ed' = Editor.dragState ed
      /\ Editor.history ed'
         = Editor.withPresent (Editor.history ed)
             (toggleRoomSelection (HistoryState.present (Editor.history ed)) (Room.id room))
    else
      exists d multi,
        Editor.dragState ed' = Some d
        /\ ExtendedDragState.roomId d = Room.id room
        /\ ExtendedDragState.targetType d = Some targetRoom
        /\ ExtendedDragState.roomStartX d = Room.xCm room
        /\ ExtendedDragState.roomStartY d = Room.yCm room
        /\ ExtendedDragState.multiDragRooms d = Some multi
        /\ (forall m, In m multi ->
              exists id r,
                (if existsb (String.eqb (Room.id room)) (AppState.selectedRoomIds appState)
                 then In id (AppState.selectedRoomIds appState) else id = Room.id room)
                /\ getRoomById appState id = Some r
                /\ m = {| MultiDragRoom.id := Room.id r;
                          MultiDragRoom.startXCm := Room.xCm r;
                          MultiDragRoom.startYCm := Room.yCm r |}).
Proof.
  intros ed appState e roomId x y room Hroom ed'.
  unfold ed', Page.downRoom. rewrite Hroom. cbv zeta.
  destruct (PointerDownEvent.shiftKey e).
  - split; reflexivity.
  - do 2 eexists.
    split; [reflexivity|]. split; [reflexivity|]. split; [reflexivity|].
    split; [reflexivity|]. split; [reflexivity|]. split; [reflexivity|].
    intros m Hm. apply in_flat_map in Hm. destruct Hm as (id & Hid & Hm).
    destruct (getRoomById appState id) as [r|] eqn:Hr; [|contradiction].
    destruct Hm as [<-|[]]. exists id, r.
    split; [|split; [exact Hr | reflexivity]].
    destruct (existsb _ _); [exact Hid|].
    destruct Hid as [<-|[]]. reflexivity.
Qed.

Lemma handleSvgPointerUp_inactive ed e :
  Editor.dragActive ed = false ->
  Editor.history (Editor.handleSvgPointerUp ed e) = Editor.history ed.
Proof.
  unfold Editor.dragActive, Editor.handleSvgPointerUp. intros Hact.
  destruct (Editor.dragState ed) as [d|]; [|reflexivity].
  rewrite Hact. reflexivity.
Qed.

Lemma release_is_pointerUp p ed e :
  p <> Editor.onPointerMove -> handler p ed e = Editor.handleSvgPointerUp ed e.
Proof. intros Hp. destruct p; [contradiction Hp|..]; reflexivity. Qed.

(** X18.  A whole gesture, a pointer-down, the pointer-moves that follow and
    a pointer-up, pointer-cancel or pointer-leave, ends without a drag
    session.  When a resize, an object drag or a room drag is in progress
    after the press, it adds exactly one entry to [past], the state at the
    end of the drag ([recordHistory] as modelled in [State]); otherwise it
    leaves [past] and [future] as they were.  A press on empty canvas with
    the select tool (panning) and, from an idle editor, a click with the
    measure tool are of the second kind. *)
Theorem gesture_history :
  forall (st : RoomEditor.t) (e0 : PointerDownEvent.t) (es : list PointerEvent.t)
         (e : PointerEvent.t) (p : Editor.PointerProp),
    p <> Editor.onPointerMove ->
    let ed := RoomEditor.editor st in
    let pressed := RoomEditor.editor (pointerDown st e0) in
    let dragged := dragMoves pressed es in
    let released := handler p dragged e in
    Editor.dragState released = None
    /\ (if Editor.dragActive pressed
        then HistoryState.past (Editor.history released)
             = HistoryState.past (Editor.history ed)
               ++ [HistoryState.present (Editor.history dragged)]
        else HistoryState.past (Editor.history released)
             = HistoryState.past (Editor.history ed)
             /\ HistoryState.future (Editor.history released)
                = HistoryState.future (Editor.history ed))
    /\ (Editor.svgMounted ed = true -> RoomEditor.toolMode st = select ->
        PointerDownEvent.resizeHandle e0 = None -> PointerDownEvent.placedId e0 = None ->
        PointerDownEvent.roomId e0 = None ->
        Editor.dragActive pressed = false)
    /\ (RoomEditor.toolMode st = measure -> Editor.dragState ed = None ->
        Editor.dragActive pressed = false).
Proof.
  intros st e0 es e p Hp ed pressed dragged released.
  destruct (pointerDown_sameStacks st e0) as [Hp0 Hf0]. fold ed pressed in Hp0, Hf0.
  destruct (EditorFacts.moves_keeps getSvgCoordinates calculateDragPosition svgPixelsToCm
              constrainRoomPosition getRoomById updateViewport resizeRoom
              updatePlacedObjectPosition moveRooms es pressed) as (Hp1 & Hf1 & Hd1 & Hm1).
  fold dragged in Hp1, Hf1, Hd1, Hm1.
  assert (Hact : Editor.dragActive dragged = Editor.dragActive pressed)
    by (unfold Editor.dragActive; rewrite Hd1; reflexivity).
  assert (Hrel : released = Editor.handleSvgPointerUp dragged e)
    by (apply release_is_pointerUp; exact Hp).
  split; [rewrite Hrel; reflexivity|]. split; [|split].
  - destruct (Editor.dragActive pressed) eqn:Ea.
    + destruct (EditorFacts.handleSvgPointerUp_records dragged e Hact) as [Hh _].
      rewrite Hrel, Hh. cbn [State.recordHistory HistoryState.past].
      rewrite Hp1, Hp0. reflexivity.
    + rewrite Hrel, (handleSvgPointerUp_inactive dragged e Hact).
      split; congruence.
  - intros Hm Ht Hr Hpl Hro. unfold pressed, Page.handleSvgPointerDown. cbv zeta.
    fold ed. rewrite Hm, Ht. cbn [negb].
    unfold Page.downResize, Page.downPlaced. rewrite Hr, Hpl, Hro. reflexivity.
  - intros Ht Hidle. unfold pressed.
    rewrite (pointerDown_measure_keeps_editor st e0 Ht). fold ed.
    unfold Editor.dragActive. rewrite Hidle. reflexivity.
Qed.

End Gestures.

Section Keyboard.

Variable clearSelection : AppState.t -> AppState.t.
Variable selectAllRooms : AppState.t -> AppState.t.
Variable deleteSelectedObject : AppState.t -> AppState.t.
Variable deleteRooms : AppState.t -> list string -> AppState.t.
Variable nudgeSelectedRooms : AppState.t -> Q -> Q -> AppState.t.

Local Notation "'keyDown'" :=
  (Page.handleKeyDown clearSelection selectAllRooms deleteSelectedObject deleteRooms
     nudgeSelectedRooms).

Lemma outside_tag (e : KeyboardEvent.t) :
  Page.outsideTextField e ->
  (match option_map Page.toLowerCase (KeyboardEvent.targetTagName e) with
   | Some s => String.eqb s "input"
   | None => false
   end
   || match option_map Page.toLowerCase (KeyboardEvent.targetTagName e) with
      | Some s => String.eqb s "textarea"
      | None => false
      end)%bool = false.
Proof.
  intros Hout. destruct (KeyboardEvent.targetTagName e) as [tag|] eqn:Etag; [|reflexivity].
  destruct (Hout tag Etag) as [Hi Ht]. cbn [option_map].
  apply String.eqb_neq in Hi, Ht. rewrite Hi, Ht. reflexivity.
Qed.

(** X19.  A key press whose target is an [<input>] or a [<textarea>], in
    whatever letter case the tag name is reported, is ignored: the whole
    component state stays as it is, whatever the key and the modifiers. *)
Theorem handleKeyDown_ignored_in_text_fields :
  forall (st : RoomEditor.t) (e : KeyboardEvent.t) (tag : string),
    KeyboardEvent.targetTagName e = Some tag ->
    Page.toLowerCase tag = "input"%string \/ Page.toLowerCase tag = "textarea"%string ->
    keyDown st e = st.
Proof.
  intros st e tag Htag Hlow. unfold Page.handleKeyDown. cbv beta zeta.
  rewrite Htag. cbn [option_map].
  destruct Hlow as [-> | ->]; reflexivity.
Qed.

(** X20.  An arrow key pressed outside a text field, with at least one room
    selected, records one history entry whose state is
    [nudgeSelectedRooms] by 5 cm, or 20 cm with Shift, in the direction of
    the key and by nothing on the other axis, whether or not Ctrl or Meta
    is held; with no room selected the key does nothing. *)
Theorem handleKeyDown_arrow_nudges :
  forall (st : RoomEditor.t) (e : KeyboardEvent.t),
    Page.outsideTextField e ->
    In (KeyboardEvent.key e) ["ArrowUp"; "ArrowDown"; "ArrowLeft"; "ArrowRight"]%string ->
    let ed := RoomEditor.editor st in
    let appState := HistoryState.present (Editor.history ed) in
    let amount : Q := if KeyboardEvent.shiftKey e then 20 else 5 in
    let k := KeyboardEvent.key e in
    let dx := if String.eqb k "ArrowLeft" then - amount
              else if String.eqb k "ArrowRight" then amount else 0 in
    let dy := if String.eqb k "ArrowUp" then - amount
              else if String.eqb k "ArrowDown" then amount else 0 in
    keyDown st e
    = match AppState.selectedRoomIds appState with
      | [] => st
      | _ :: _ =>
          Page.setEditor st
            (Editor.updateState ed (nudgeSelectedRooms appState dx dy) true)
      end
    /\ Qabs dx + Qabs dy == amount
    /\ (dx == 0 \/ dy == 0).
Proof.
  intros st e Hout Hkey ed appState amount k dx dy.
  unfold dx, dy, k, amount.
  split.
  - unfold Page.handleKeyDown. cbv beta zeta. rewrite (outside_tag e Hout).
    fold ed. fold appState.
    destruct (AppState.selectedRoomIds appState) as [|r rs];
      destruct (KeyboardEvent.ctrlKey e), (KeyboardEvent.metaKey e),
        (KeyboardEvent.shiftKey e);
      destruct Hkey as [<-|[<-|[<-|[<-|[]]]]]; reflexivity.
  - destruct (KeyboardEvent.shiftKey e);
      destruct Hkey as [<-|[<-|[<-|[<-|[]]]]];
      (split; [vm_compute; reflexivity | first [left; reflexivity | right; reflexivity]]).
Qed.

(** X21.  The M key, in either case and outside a text field, switches
    between the select and the measure tool, discards the measure points
    and leaves the editor (history, drag session) as it is; pressing it
    twice returns to the tool in use before, with no measure points.
    Escape in the measure tool returns to the select tool in the same way;
    in the select tool it leaves the tool state alone. *)
Theorem handleKeyDown_tool_keys :
  forall (st : RoomEditor.t) (e : KeyboardEvent.t),
    Page.outsideTextField e ->
    (KeyboardEvent.key e = "m"%string \/ KeyboardEvent.key e = "M"%string ->
     RoomEditor.editor (keyDown st e) = RoomEditor.editor st
     /\ RoomEditor.measurePoints (keyDown st e) = []
     /\ RoomEditor.toolMode (keyDown st e) <> RoomEditor.toolMode st
     /\ keyDown (keyDown st e) e = Page.setMeasurePoints st [])
    /\ (KeyboardEvent.key e = "Escape"%string ->
        RoomEditor.toolMode (keyDown st e) = select
        /\ match RoomEditor.toolMode st with
           | measure => RoomEditor.editor (keyDown st e) = RoomEditor.editor st
                        /\ RoomEditor.measurePoints (keyDown st e) = []
           | select => RoomEditor.measurePoints (keyDown st e) = RoomEditor.measurePoints st
           end).
Proof.
  intros st e Hout.
  assert (Hm : forall st0, KeyboardEvent.key e = "m"%string \/ KeyboardEvent.key e = "M"%string ->
            keyDown st0 e
            = Page.setMeasurePoints
                (Page.setToolMode st0
                   (match RoomEditor.toolMode st0 with
                    | measure => select | select => measure end)) []).
  { intros st0 Hk. unfold Page.handleKeyDown. cbv beta zeta. rewrite (outside_tag e Hout).
    destruct (KeyboardEvent.ctrlKey e), (KeyboardEvent.metaKey e), (KeyboardEvent.shiftKey e);
      destruct Hk as [-> | ->]; reflexivity. }
  split.
  - intros Hk. rewrite !(Hm _ Hk).
    destruct st as [ed mode ps]. destruct mode; cbn;
      (split; [reflexivity|]); (split; [reflexivity|]); (split; [discriminate|reflexivity]).
  - intros Hk. unfold Page.handleKeyDown. cbv beta zeta. rewrite (outside_tag e Hout), Hk.
    destruct st as [ed mode ps].
    destruct (KeyboardEvent.ctrlKey e), (KeyboardEvent.metaKey e), (KeyboardEvent.shiftKey e);
      destruct mode; cbn; split; try split; reflexivity.
Qed.

(** What one key press can do to the editor. *)
Lemma keyDown_cases (st : RoomEditor.t) (e : KeyboardEvent.t) :
  let ed := RoomEditor.editor st in
  let ed' := RoomEditor.editor (keyDown st e) in
  ed' = ed
  \/ (exists s, ed' = Editor.updateState ed s false)
  \/ ((ed' = Page.handleUndo ed \/ ed' = Page.handleRedo ed)
      /\ (KeyboardEvent.ctrlKey e || KeyboardEvent.metaKey e)%bool = true
      /\ (KeyboardEvent.key e = "z"%string \/ KeyboardEvent.key e = "y"%string))
  \/ (exists s, ed' = Editor.updateState ed s true
                /\ In (KeyboardEvent.key e) (skipn 2 Page.historyKeys)).
Proof.
  intros ed ed'. unfold ed', Page.handleKeyDown. cbv beta zeta. fold ed.
  destruct (_ || _)%bool; [left; reflexivity|].
  destruct (_ && _ && negb _)%bool eqn:E1.
  { right; right; left.
    apply andb_prop in E1 as [E1 _]. apply andb_prop in E1 as [Em Ez].
    apply String.eqb_eq in Ez.
    split; [left; reflexivity|]. split; [exact Em | left; exact Ez]. }
  destruct (_ && (_ || _ && _))%bool eqn:E2.
  { right; right; left.
    apply andb_prop in E2 as [Em Ek]. split; [right; reflexivity|]. split; [exact Em|].
    apply orb_prop in Ek as [Ek|Ek].
    - right. apply String.eqb_eq. exact Ek.
    - left. apply andb_prop in Ek as [Ek _]. apply String.eqb_eq. exact Ek. }
  destruct (_ && (KeyboardEvent.key e =? "a")%string)%bool.
  { right; left. eexists. reflexivity. }
  destruct ((KeyboardEvent.key e =? "Delete")%string
            || (KeyboardEvent.key e =? "Backspace")%string)%bool eqn:E4.
  { assert (Hin : In (KeyboardEvent.key e) (skipn 2 Page.historyKeys)).
    { apply orb_prop in E4 as [Ek|Ek]; apply String.eqb_eq in Ek; rewrite Ek;
        cbn; tauto. }
    destruct (match AppState.selectedObjectId _ with Some _ => _ | None => _ end).
    - right; right; right. eexists. split; [reflexivity | exact Hin].
    - destruct (0 <? _)%nat.
      + right; right; right. eexists. split; [reflexivity | exact Hin].
      + left; reflexivity. }
  destruct (existsb _ _ && _)%bool eqn:E5.
  { right; right; right. eexists. split; [reflexivity|].
    apply andb_prop in E5 as [Ek _]. apply existsb_exists in Ek as (x & Hx & Ek).
    apply String.eqb_eq in Ek. rewrite Ek. cbn. cbn in Hx. tauto. }
  destruct ((KeyboardEvent.key e =? "m")%string || _)%bool; [left; reflexivity|].
  destruct (KeyboardEvent.key e =? "Escape")%string; [|left; reflexivity].
  destruct (RoomEditor.toolMode st); [|left; reflexivity].
  right; left. eexists. reflexivity.
Qed.

(** X22.  No key press touches the drag session, the snap guides or the
    mount flag.  A key other than z, y, Delete, Backspace and the four
    arrows leaves [past] and [future] as they were, and so do z and y
    when neither Ctrl nor Meta is held. *)
Theorem handleKeyDown_history_discipline :
  forall (st : RoomEditor.t) (e : KeyboardEvent.t),
    let ed := RoomEditor.editor st in
    let ed' := RoomEditor.editor (keyDown st e) in
    (Editor.dragState ed' = Editor.dragState ed
     /\ Editor.currentSnapResult ed' = Editor.currentSnapResult ed
     /\ Editor.svgMounted ed' = Editor.svgMounted ed)
    /\ (~ In (KeyboardEvent.key e) Page.historyKeys -> Editor.sameStacks ed ed')
    /\ (KeyboardEvent.ctrlKey e = false -> KeyboardEvent.metaKey e = false ->
        ~ In (KeyboardEvent.key e) (skipn 2 Page.historyKeys) ->
        Editor.sameStacks ed ed').
Proof.
  intros st e ed ed'.
  destruct (keyDown_cases st e) as [H|[(s & H)|[([H|H] & Hm & Hk)|(s & H & Hk)]]];
    fold ed ed' in H; rewrite H; (split; [repeat split; reflexivity|]); split;
    try (intros _; split; reflexivity);
    try (intros _ _ _; split; reflexivity).
  - intros Hnot. exfalso. apply Hnot. destruct Hk as [-> | ->]; cbn; tauto.
  - intros Hc Hmeta. rewrite Hc, Hmeta in Hm. discriminate.
  - intros Hnot. exfalso. apply Hnot. destruct Hk as [-> | ->]; cbn; tauto.
  - intros Hc Hmeta. rewrite Hc, Hmeta in Hm. discriminate.
  - intros Hnot. exfalso. apply Hnot. right. right. exact Hk.
  - intros _ _ Hnot. exfalso. exact (Hnot Hk).
Qed.

End Keyboard.

(** *** The gestures and keys on the example document *)

Lemma handleSvgPointerDown_never_records_witness :
  RoomEditor.editor
    (Page.handleSvgPointerDown EditorExamples.getSvgCoordinates EditorExamples.svgPixelsToCm
       PageExamples.startPlacedDrag EditorExamples.getRoomById PageExamples.selectRoom
       PageExamples.toggleRoomSelection PageExamples.clearSelection PageExamples.selectObject
       (PageExamples.idle measure []) (PageExamples.press (Some "B"%string) false))
  = RoomEditor.editor (PageExamples.idle measure []).
Proof.
  destruct (handleSvgPointerDown_never_records EditorExamples.getSvgCoordinates
              EditorExamples.svgPixelsToCm PageExamples.startPlacedDrag
              EditorExamples.getRoomById PageExamples.selectRoom
              PageExamples.toggleRoomSelection PageExamples.clearSelection
              PageExamples.selectObject
              (PageExamples.idle measure []) (PageExamples.press (Some "B"%string) false))
    as (_ & _ & Hmeasure & _).
  exact (proj1 (Hmeasure eq_refl)).
Defined.

Lemma downRoom_captures_selected_rooms_witness :
  EditorExamples.getRoomById EditorExamples.appState0 "B" = Some Examples.roomB
  /\ Editor.dragState
       (Page.downRoom EditorExamples.getRoomById PageExamples.selectRoom
          PageExamples.toggleRoomSelection PageExamples.clearSelection
          (RoomEditor.editor (PageExamples.idle select [])) EditorExamples.appState0
          (PageExamples.press (Some "B"%string) true) "B" 2600 100)
     = None.
Proof.
  split; [reflexivity|].
  exact (proj1 (downRoom_captures_selected_rooms EditorExamples.getRoomById
                  PageExamples.selectRoom PageExamples.toggleRoomSelection
                  PageExamples.clearSelection
                  (RoomEditor.editor (PageExamples.idle select [])) EditorExamples.appState0
                  (PageExamples.press (Some "B"%string) true) "B"%string 2600 100
                  Examples.roomB eq_refl)).
Defined.

Lemma gesture_history_witness :
  Editor.onPointerUp <> Editor.onPointerMove
  /\ Editor.dragState
       (Editor.svgHandler EditorExamples.getSvgCoordinates EditorExamples.calculateDragPosition
          EditorExamples.svgPixelsToCm EditorExamples.constrainRoomPosition
          EditorExamples.getRoomById EditorExamples.updateViewport EditorExamples.resizeRoom
          EditorExamples.updatePlacedObjectPosition EditorExamples.moveRooms
          Editor.onPointerUp
          (Editor.moves EditorExamples.getSvgCoordinates EditorExamples.calculateDragPosition
             EditorExamples.svgPixelsToCm EditorExamples.constrainRoomPosition
             EditorExamples.getRoomById EditorExamples.updateViewport EditorExamples.resizeRoom
             EditorExamples.updatePlacedObjectPosition EditorExamples.moveRooms
             (RoomEditor.editor
                (Page.handleSvgPointerDown EditorExamples.getSvgCoordinates
                   EditorExamples.svgPixelsToCm PageExamples.startPlacedDrag
                   EditorExamples.getRoomById PageExamples.selectRoom
                   PageExamples.toggleRoomSelection PageExamples.clearSelection
                   PageExamples.selectObject
                   (PageExamples.idle select []) (PageExamples.press (Some "B"%string) false)))
             EditorExamples.dragEvents)
          (EditorExamples.pointerAt 1675 100))
     = None.
Proof.
  assert (Hp : Editor.onPointerUp <> Editor.onPointerMove) by discriminate.
  split; [exact Hp|].
  exact (proj1 (gesture_history EditorExamples.getSvgCoordinates
                  EditorExamples.calculateDragPosition EditorExamples.svgPixelsToCm
                  EditorExamples.constrainRoomPosition PageExamples.startPlacedDrag
                  EditorExamples.getRoomById EditorExamples.updateViewport
                  EditorExamples.resizeRoom EditorExamples.updatePlacedObjectPosition
                  EditorExamples.moveRooms PageExamples.selectRoom
                  PageExamples.toggleRoomSelection PageExamples.clearSelection
                  PageExamples.selectObject
                  (PageExamples.idle select []) (PageExamples.press (Some "B"%string) false)
                  EditorExamples.dragEvents (EditorExamples.pointerAt 1675 100)
                  Editor.onPointerUp Hp)).
Defined.

(** The history after dragging room B on the example document: one entry. *)
Example gesture_on_roomB_adds_one_entry :
  let released :=
    Editor.handleSvgPointerUp
      (Editor.moves EditorExamples.getSvgCoordinates EditorExamples.calculateDragPosition
         EditorExamples.svgPixelsToCm EditorExamples.constrainRoomPosition
         EditorExamples.getRoomById EditorExamples.updateViewport EditorExamples.resizeRoom
         EditorExamples.updatePlacedObjectPosition EditorExamples.moveRooms
         (RoomEditor.editor
            (Page.handleSvgPointerDown EditorExamples.getSvgCoordinates
               EditorExamples.svgPixelsToCm PageExamples.startPlacedDrag
               EditorExamples.getRoomById PageExamples.selectRoom
               PageExamples.toggleRoomSelection PageExamples.clearSelection
               PageExamples.selectObject
               (PageExamples.idle select []) (PageExamples.press (Some "B"%string) false)))
         EditorExamples.dragEvents)
      (EditorExamples.pointerAt 1675 100) in
  List.length (HistoryState.past (Editor.history released)) = 1%nat.
Proof. vm_compute. reflexivity. Qed.

Lemma keyPress_outside (key : string) (ctrl shift : bool) :
  Page.outsideTextField (PageExamples.keyPress key "BODY" ctrl shift).
Proof.
  intros tag Htag. injection Htag as <-. split; vm_compute; discriminate.
Defined.

Lemma handleKeyDown_ignored_in_text_fields_witness :
  Page.handleKeyDown PageExamples.clearSelection PageExamples.selectAllRooms
    (fun s => s) (fun s _ => s) (fun s _ _ => s)
    (PageExamples.idle select []) (PageExamples.keyPress "Delete" "INPUT" false false)
  = PageExamples.idle select [].
Proof.
  apply (handleKeyDown_ignored_in_text_fields PageExamples.clearSelection
           PageExamples.selectAllRooms (fun s => s) (fun s _ => s) (fun s _ _ => s)
           (PageExamples.idle select []) (PageExamples.keyPress "Delete" "INPUT" false false)
           "INPUT"%string).
  - reflexivity.
  - left. reflexivity.
Defined.

Lemma handleKeyDown_arrow_nudges_witness :
  Page.handleKeyDown PageExamples.clearSelection PageExamples.selectAllRooms
    (fun s => s) (fun s _ => s) (fun s _ _ => s)
    (PageExamples.idle select []) (PageExamples.keyPress "ArrowLeft" "BODY" true true)
  = Page.setEditor (PageExamples.idle select [])
      (Editor.updateState (RoomEditor.editor (PageExamples.idle select []))
         EditorExamples.appState0 true).
Proof.
  apply (proj1 (handleKeyDown_arrow_nudges PageExamples.clearSelection
                  PageExamples.selectAllRooms (fun s => s) (fun s _ => s) (fun s _ _ => s)
                  (PageExamples.idle select [])
                  (PageExamples.keyPress "ArrowLeft" "BODY" true true)
                  (keyPress_outside "ArrowLeft" true true)
                  (or_intror (or_intror (or_introl eq_refl))))).
Defined.

Lemma handleKeyDown_tool_keys_witness :
  RoomEditor.toolMode
    (Page.handleKeyDown PageExamples.clearSelection PageExamples.selectAllRooms
       (fun s => s) (fun s _ => s) (fun s _ _ => s)
       (PageExamples.idle measure [MeasurePoint.mk 10 10])
       (PageExamples.keyPress "Escape" "BODY" false false))
  = select.
Proof.
  apply (proj2 (handleKeyDown_tool_keys PageExamples.clearSelection
                  PageExamples.selectAllRooms (fun s => s) (fun s _ => s) (fun s _ _ => s)
                  (PageExamples.idle measure [MeasurePoint.mk 10 10])
                  (PageExamples.keyPress "Escape" "BODY" false false)
                  (keyPress_outside "Escape" false false))).
  reflexivity.
Defined.

Lemma handleKeyDown_history_discipline_witness :
  Editor.sameStacks (RoomEditor.editor (PageExamples.idle select []))
    (RoomEditor.editor
       (Page.handleKeyDown PageExamples.clearSelection PageExamples.selectAllRooms
          (fun s => s) (fun s _ => s) (fun s _ _ => s)
          (PageExamples.idle select []) (PageExamples.keyPress "a" "BODY" true false))).
Proof.
  destruct (handleKeyDown_history_discipline PageExamples.clearSelection
              PageExamples.selectAllRooms (fun s => s) (fun s _ => s) (fun s _ _ => s)
              (PageExamples.idle select []) (PageExamples.keyPress "a" "BODY" true false))
    as (_ & Hother & _).
  apply Hother. vm_compute. intros H.
  repeat (destruct H as [H|H]; [discriminate H|]). exact H.
Defined.

(** * The geometry in double arithmetic

    The properties below are about the functions of [Doubles]: they hold
    for every double, with the rounding of each operation. *)

(** ** Room snapping in doubles: each axis is the first matching test *)

Module DoubleSnapFacts.
Import Floats.
Import Doubles Doubles.Snap Doubles.SnapTests.
Local Open Scope float_scope.


Lemma continueAxis_app_dbl (a : Axis) (l1 l2 : list Test) :
  continueAxis (continueAxis a l1) l2 = continueAxis a (l1 ++ l2).
Proof.
  destruct a as [[x b] gd]. unfold continueAxis. simpl.
  destruct b; simpl; [reflexivity|].
  rewrite find_app. destruct (find matches l1); reflexivity.
Qed.

Lemma continueAxis_snapped_dbl (a : Axis) (l : list Test) :
  snd (fst a) = true -> continueAxis a l = a.
Proof. intros H. unfold continueAxis. rewrite H. reflexivity. Qed.

Lemma continueAxis_init_dbl (target : float) (l : list Test) :
  continueAxis (target, false, None) l = firstMatch target l.
Proof. reflexivity. Qed.

Lemma snapXBlock_locX_dbl R mo g o st :
  locX (snapXBlock R mo (innerBoundsCm o (Room.xCm o) (Room.yCm o))
          (outerBoundsCm o g (Room.xCm o) (Room.yCm o)) st)
  = continueAxis (locX st) (testsX R mo g o).
Proof.
  destruct st as [x y sx sy gx gy].
  unfold snapXBlock, continueAxis, locX, testsX, matches. cbn -[leb abs].
  destruct sx; cbn -[leb abs]; [reflexivity|].
  repeat (match goal with
          | |- context [leb ?a ?b] => destruct (leb a b); cbn -[leb abs]
          end); reflexivity.
Qed.

Lemma snapXBlock_locY_dbl R mo oi oo st : locY (snapXBlock R mo oi oo st) = locY st.
Proof.
  destruct st as [x y sx sy gx gy].
  unfold snapXBlock, locY. cbn -[leb abs].
  destruct sx; cbn -[leb abs]; [reflexivity|].
  repeat (match goal with
          | |- context [leb ?a ?b] => destruct (leb a b); cbn -[leb abs]
          end); reflexivity.
Qed.

Lemma snapYBlock_locY_dbl R mo g o st :
  locY (snapYBlock R mo (innerBoundsCm o (Room.xCm o) (Room.yCm o))
          (outerBoundsCm o g (Room.xCm o) (Room.yCm o)) st)
  = continueAxis (locY st) (testsY R mo g o).
Proof.
  destruct st as [x y sx sy gx gy].
  unfold snapYBlock, continueAxis, locY, testsY, matches. cbn -[leb abs].
  destruct sy; cbn -[leb abs]; [reflexivity|].
  repeat (match goal with
          | |- context [leb ?a ?b] => destruct (leb a b); cbn -[leb abs]
          end); reflexivity.
Qed.

Lemma snapYBlock_locX_dbl R mo oi oo st : locX (snapYBlock R mo oi oo st) = locX st.
Proof.
  destruct st as [x y sx sy gx gy].
  unfold snapYBlock, locX. cbn -[leb abs].
  destruct sy; cbn -[leb abs]; [reflexivity|].
  repeat (match goal with
          | |- context [leb ?a ?b] => destruct (leb a b); cbn -[leb abs]
          end); reflexivity.
Qed.

Lemma snapBody_locX_dbl R mo g o st :
  locX (snapBody R mo g o st) = continueAxis (locX st) (testsX R mo g o).
Proof. unfold snapBody. rewrite snapYBlock_locX_dbl. apply snapXBlock_locX_dbl. Qed.

Lemma snapBody_locY_dbl R mo g o st :
  locY (snapBody R mo g o st) = continueAxis (locY st) (testsY R mo g o).
Proof. unfold snapBody. rewrite snapYBlock_locY_dbl, snapXBlock_locY_dbl. reflexivity. Qed.

Lemma locX_snapped_dbl st : snd (fst (locX st)) = snappedX st.
Proof. reflexivity. Qed.

Lemma locY_snapped_dbl st : snd (fst (locY st)) = snappedY st.
Proof. reflexivity. Qed.

Lemma snapLoop_locX_dbl R mo g others : forall st,
  locX (snapLoop R mo g others st) = continueAxis (locX st) (flat_map (testsX R mo g) others).
Proof.
  induction others as [|o rest IH]; intros st; cbn [snapLoop flat_map].
  - destruct (locX st) as [[x b] gd]. unfold continueAxis. simpl. destruct b; reflexivity.
  - rewrite <- continueAxis_app_dbl, <- snapBody_locX_dbl.
    destruct (snappedX (snapBody R mo g o st) && snappedY (snapBody R mo g o st)) eqn:E.
    + apply andb_true_iff in E. destruct E as [Ex _].
      symmetry. apply continueAxis_snapped_dbl. rewrite locX_snapped_dbl. exact Ex.
    + apply IH.
Qed.

Lemma snapLoop_locY_dbl R mo g others : forall st,
  locY (snapLoop R mo g others st) = continueAxis (locY st) (flat_map (testsY R mo g) others).
Proof.
  induction others as [|o rest IH]; intros st; cbn [snapLoop flat_map].
  - destruct (locY st) as [[x b] gd]. unfold continueAxis. simpl. destruct b; reflexivity.
  - rewrite <- continueAxis_app_dbl, <- snapBody_locY_dbl.
    destruct (snappedX (snapBody R mo g o st) && snappedY (snapBody R mo g o st)) eqn:E.
    + apply andb_true_iff in E. destruct E as [_ Ey].
      symmetry. apply continueAxis_snapped_dbl. rewrite locY_snapped_dbl. exact Ey.
    + apply IH.
Qed.

Lemma calculateSnap_axisX_dbl R allRooms tx ty g :
  axisX (calculateSnap R allRooms tx ty g) = firstMatch tx (allTestsX R allRooms tx ty g).
Proof.
  unfold calculateSnap, axisX, allTestsX. cbn [SnapResult.xCm SnapResult.snappedX SnapResult.xGuideCm].
  rewrite <- continueAxis_init_dbl.
  exact (snapLoop_locX_dbl R _ g _ (initLocals tx ty)).
Qed.

Lemma calculateSnap_axisY_dbl R allRooms tx ty g :
  axisY (calculateSnap R allRooms tx ty g) = firstMatch ty (allTestsY R allRooms tx ty g).
Proof.
  unfold calculateSnap, axisY, allTestsY. cbn [SnapResult.yCm SnapResult.snappedY SnapResult.yGuideCm].
  rewrite <- continueAxis_init_dbl.
  exact (snapLoop_locY_dbl R _ g _ (initLocals tx ty)).
Qed.



Lemma othersOf_app_dbl R (pre post : list Room.t) :
  othersOf R (pre ++ post) = othersOf R pre ++ othersOf R post.
Proof. unfold othersOf. apply filter_app. Qed.

Lemma allTestsX_app_dbl R pre post tx ty g :
  allTestsX R (pre ++ post) tx ty g = allTestsX R pre tx ty g ++ allTestsX R post tx ty g.
Proof. unfold allTestsX. rewrite othersOf_app_dbl. apply flat_map_app. Qed.

Lemma allTestsY_app_dbl R pre post tx ty g :
  allTestsY R (pre ++ post) tx ty g = allTestsY R pre tx ty g ++ allTestsY R post tx ty g.
Proof. unfold allTestsY. rewrite othersOf_app_dbl. apply flat_map_app. Qed.

Lemma firstMatch_unsnapped_dbl target tests :
  snd (fst (firstMatch target tests)) = false -> find matches tests = None.
Proof.
  unfold firstMatch. destruct (find matches tests); [discriminate | reflexivity].
Qed.

Lemma snappedX_axisX_dbl r : SnapResult.snappedX r = snd (fst (axisX r)).
Proof. reflexivity. Qed.

Lemma snappedY_axisY_dbl r : SnapResult.snappedY r = snd (fst (axisY r)).
Proof. reflexivity. Qed.




Lemma othersOf_cons_other_dbl R N rest :
  Room.id N <> Room.id R -> othersOf R (N :: rest) = N :: othersOf R rest.
Proof.
  intros Hne. unfold othersOf. cbn [filter].
  apply String.eqb_neq in Hne. rewrite Hne. reflexivity.
Qed.

Lemma allTestsX_split_dbl R pre N post tx ty g :
  Room.id N <> Room.id R ->
  allTestsX R (pre ++ N :: post) tx ty g
  = allTestsX R pre tx ty g
    ++ testsX R (outerBoundsCm R g tx ty) g N
    ++ allTestsX R post tx ty g.
Proof.
  intros Hne. rewrite allTestsX_app_dbl. f_equal.
  unfold allTestsX. rewrite (othersOf_cons_other_dbl R N post Hne). reflexivity.
Qed.

Lemma allTestsY_split_dbl R pre N post tx ty g :
  Room.id N <> Room.id R ->
  allTestsY R (pre ++ N :: post) tx ty g
  = allTestsY R pre tx ty g
    ++ testsY R (outerBoundsCm R g tx ty) g N
    ++ allTestsY R post tx ty g.
Proof.
  intros Hne. rewrite allTestsY_app_dbl. f_equal.
  unfold allTestsY. rewrite (othersOf_cons_other_dbl R N post Hne). reflexivity.
Qed.


(** The axis returned when no room before [N] snapped it: the first
    matching test of [N] onwards decides. *)
Lemma axisX_from_neighbour_dbl R pre N post tx ty g :
  Room.id N <> Room.id R ->
  SnapResult.snappedX (calculateSnap R pre tx ty g) = false ->
  axisX (calculateSnap R (pre ++ N :: post) tx ty g)
  = firstMatch tx (testsX R (outerBoundsCm R g tx ty) g N ++ allTestsX R post tx ty g).
Proof.
  intros Hne Hpre.
  rewrite snappedX_axisX_dbl, calculateSnap_axisX_dbl in Hpre.
  apply firstMatch_unsnapped_dbl in Hpre.
  rewrite calculateSnap_axisX_dbl, (allTestsX_split_dbl R pre N post tx ty g Hne).
  unfold firstMatch. rewrite (find_app matches (allTestsX R pre tx ty g)), Hpre.
  reflexivity.
Qed.

Lemma axisY_from_neighbour_dbl R pre N post tx ty g :
  Room.id N <> Room.id R ->
  SnapResult.snappedY (calculateSnap R pre tx ty g) = false ->
  axisY (calculateSnap R (pre ++ N :: post) tx ty g)
  = firstMatch ty (testsY R (outerBoundsCm R g tx ty) g N ++ allTestsY R post tx ty g).
Proof.
  intros Hne Hpre.
  rewrite snappedY_axisY_dbl, calculateSnap_axisY_dbl in Hpre.
  apply firstMatch_unsnapped_dbl in Hpre.
  rewrite calculateSnap_axisY_dbl, (allTestsY_split_dbl R pre N post tx ty g Hne).
  unfold firstMatch. rewrite (find_app matches (allTestsY R pre tx ty g)), Hpre.
  reflexivity.
Qed.

(** The tolerance of a test is one of the two constants. *)
Lemma testsX_tolerance_dbl R mo g o c :
  In c (testsX R mo g o) ->
  tolerance c = WALL_SNAP_TOLERANCE_CM \/ tolerance c = SNAP_TOLERANCE_CM.
Proof.
  unfold testsX. cbn [In].
  intros [<-|[<-|[<-|[<-|[]]]]]; cbn [tolerance]; auto.
Qed.

Lemma testsY_tolerance_dbl R mo g o c :
  In c (testsY R mo g o) ->
  tolerance c = WALL_SNAP_TOLERANCE_CM \/ tolerance c = SNAP_TOLERANCE_CM.
Proof.
  unfold testsY. cbn [In].
  intros [<-|[<-|[<-|[<-|[]]]]]; cbn [tolerance]; auto.
Qed.

(** What the first match of a list of tests returns. *)
Lemma firstMatch_cases_dbl (tol : Test -> Prop) target tests :
  (forall c, In c tests -> tol c) ->
  let a := firstMatch target tests in
  if snd (fst a)
  then exists c, In c tests /\ matches c = true /\ tol c
                 /\ fst (fst a) = pos c /\ snd a = Some (guide c)
  else fst (fst a) = target /\ snd a = None.
Proof.
  intros Htol. unfold firstMatch.
  destruct (find matches tests) as [c|] eqn:E; cbn [fst snd].
  - apply find_some in E. destruct E as [Hin Hm]. exists c. auto.
  - split; reflexivity.
Qed.

Lemma othersOf_nil_dbl R allRooms :
  (forall r, In r allRooms -> Room.id r = Room.id R) -> othersOf R allRooms = [].
Proof.
  intros H. unfold othersOf. induction allRooms as [|r rs IH]; simpl; [reflexivity|].
  rewrite (H r (or_introl eq_refl)), String.eqb_refl. simpl.
  apply IH. intros r' Hr'. apply H. right. exact Hr'.
Qed.

(** The guide of a test is an inner or outer edge of the neighbour. *)
Lemma testsX_guide_edges_dbl R mo g o c :
  In c (testsX R mo g o) ->
  In (guide c) [Bounds.left (innerOf o); Bounds.right (innerOf o);
                OuterBounds.left (outerOf o g); OuterBounds.right (outerOf o g)].
Proof.
  unfold testsX. cbn [In]. intros [<-|[<-|[<-|[<-|[]]]]]; cbn [guide In]; tauto.
Qed.

Lemma testsY_guide_edges_dbl R mo g o c :
  In c (testsY R mo g o) ->
  In (guide c) [Bounds.top (innerOf o); Bounds.bottom (innerOf o);
                OuterBounds.top (outerOf o g); OuterBounds.bottom (outerOf o g)].
Proof.
  unfold testsY. cbn [In]. intros [<-|[<-|[<-|[<-|[]]]]]; cbn [guide In]; tauto.
Qed.

End DoubleSnapFacts.

(** ** Object snapping in doubles: each axis is a fold over its targets *)

Module DoubleObjectFacts.
Import Floats.
Import Doubles Doubles.ObjectSnap.
Local Open Scope float_scope.

Lemma testX_bestX_dbl d t p gd st : bestX (testX d t p gd st) = pick (bestX st) (mkTarget d t p).
Proof.
  unfold testX, pick, bestX. cbn [dist tolerance pos bestDist].
  destruct (leb d t && ltb d (bestSnapDistX st)); reflexivity.
Qed.

Lemma testX_bestY_dbl d t p gd st : bestY (testX d t p gd st) = bestY st.
Proof.
  unfold testX, bestY.
  destruct (leb d t && ltb d (bestSnapDistX st)); reflexivity.
Qed.

Lemma testY_bestY_dbl d t p gd st : bestY (testY d t p gd st) = pick (bestY st) (mkTarget d t p).
Proof.
  unfold testY, pick, bestY. cbn [dist tolerance pos bestDist].
  destruct (leb d t && ltb d (bestSnapDistY st)); reflexivity.
Qed.

Lemma testY_bestX_dbl d t p gd st : bestX (testY d t p gd st) = bestX st.
Proof.
  unfold testY, bestX.
  destruct (leb d t && ltb d (bestSnapDistY st)); reflexivity.
Qed.

Lemma snapToWalls_bestX_dbl w h room tx ty tol st :
  bestX (snapToWalls w h room tx ty tol st)
  = fold_left pick (wallTargetsX w room tx tol) (bestX st).
Proof.
  unfold snapToWalls, wallTargetsX. cbv zeta. cbn [fold_left].
  rewrite !testY_bestX_dbl, !testX_bestX_dbl. reflexivity.
Qed.

Lemma snapToWalls_bestY_dbl w h room tx ty tol st :
  bestY (snapToWalls w h room tx ty tol st)
  = fold_left pick (wallTargetsY h room ty tol) (bestY st).
Proof.
  unfold snapToWalls, wallTargetsY. cbv zeta. cbn [fold_left].
  rewrite !testY_bestY_dbl, !testX_bestY_dbl. reflexivity.
Qed.

Lemma snapToOther_bestX_dbl w h tx ty cur st other :
  bestX (snapToOther w h tx ty cur st other)
  = fold_left pick (otherTargetsX w tx cur other) (bestX st).
Proof.
  unfold snapToOther, otherTargetsX. cbv zeta.
  destruct (isCurrent cur other); [reflexivity|].
  cbn [fold_left]. rewrite !testY_bestX_dbl, !testX_bestX_dbl. reflexivity.
Qed.

Lemma snapToOther_bestY_dbl w h tx ty cur st other :
  bestY (snapToOther w h tx ty cur st other)
  = fold_left pick (otherTargetsY h ty cur other) (bestY st).
Proof.
  unfold snapToOther, otherTargetsY. cbv zeta.
  destruct (isCurrent cur other); [reflexivity|].
  cbn [fold_left]. rewrite !testY_bestY_dbl, !testX_bestY_dbl. reflexivity.
Qed.

Lemma others_bestX_dbl w h tx ty cur : forall objs st,
  bestX (fold_left (snapToOther w h tx ty cur) objs st)
  = fold_left pick (flat_map (otherTargetsX w tx cur) objs) (bestX st).
Proof.
  induction objs as [|o objs IH]; intros st; cbn [fold_left flat_map]; [reflexivity|].
  rewrite fold_left_app, IH, snapToOther_bestX_dbl. reflexivity.
Qed.

Lemma others_bestY_dbl w h tx ty cur : forall objs st,
  bestY (fold_left (snapToOther w h tx ty cur) objs st)
  = fold_left pick (flat_map (otherTargetsY h ty cur) objs) (bestY st).
Proof.
  induction objs as [|o objs IH]; intros st; cbn [fold_left flat_map]; [reflexivity|].
  rewrite fold_left_app, IH, snapToOther_bestY_dbl. reflexivity.
Qed.

(** The X result of the function is the fold of [pick] over its targets. *)
Lemma calculatePlacedObjectSnap_xCm_dbl w h room tx ty tol objs cur :
  SnapResult.xCm (calculatePlacedObjectSnap w h room tx ty tol objs cur)
  = bestPos (fold_left pick (targetsX w room tx tol objs cur) (mkBest tx false (tol + 1))).
Proof.
  unfold calculatePlacedObjectSnap, targetsX. cbv zeta. cbn [SnapResult.xCm].
  change (snappedXCm ?s) with (bestPos (bestX s)).
  rewrite others_bestX_dbl, snapToWalls_bestX_dbl, fold_left_app. reflexivity.
Qed.

Lemma calculatePlacedObjectSnap_yCm_dbl w h room tx ty tol objs cur :
  SnapResult.yCm (calculatePlacedObjectSnap w h room tx ty tol objs cur)
  = bestPos (fold_left pick (targetsY h room ty tol objs cur) (mkBest ty false (tol + 1))).
Proof.
  unfold calculatePlacedObjectSnap, targetsY. cbv zeta. cbn [SnapResult.yCm].
  change (snappedYCm ?s) with (bestPos (bestY s)).
  rewrite others_bestY_dbl, snapToWalls_bestY_dbl, fold_left_app. reflexivity.
Qed.

Lemma calculatePlacedObjectSnap_snappedX_dbl w h room tx ty tol objs cur :
  SnapResult.snappedX (calculatePlacedObjectSnap w h room tx ty tol objs cur)
  = bestSnapped (fold_left pick (targetsX w room tx tol objs cur) (mkBest tx false (tol + 1))).
Proof.
  unfold calculatePlacedObjectSnap, targetsX. cbv zeta. cbn [SnapResult.snappedX].
  change (snappedX ?s) with (bestSnapped (bestX s)).
  rewrite others_bestX_dbl, snapToWalls_bestX_dbl, fold_left_app. reflexivity.
Qed.

Lemma calculatePlacedObjectSnap_snappedY_dbl w h room tx ty tol objs cur :
  SnapResult.snappedY (calculatePlacedObjectSnap w h room tx ty tol objs cur)
  = bestSnapped (fold_left pick (targetsY h room ty tol objs cur) (mkBest ty false (tol + 1))).
Proof.
  unfold calculatePlacedObjectSnap, targetsY. cbv zeta. cbn [SnapResult.snappedY].
  change (snappedY ?s) with (bestSnapped (bestY s)).
  rewrite others_bestY_dbl, snapToWalls_bestY_dbl, fold_left_app. reflexivity.
Qed.

(** *** The order of doubles

    [<] on doubles is asymmetric: from the specification of the comparison
    ([ltb_spec], [SFcompare]). *)

Lemma SFcompare_Lt_Gt (a b : spec_float) :
  SFcompare a b = Some Lt -> SFcompare b a = Some Gt.
Proof.
  destruct a as [sa|sa| |sa ma ea], b as [sb|sb| |sb mb eb]; cbn [SFcompare];
    try discriminate;
    try (destruct sa; try discriminate; try reflexivity; destruct sb; try discriminate; reflexivity);
    try (destruct sb; try discriminate; reflexivity).
  change (Pos.compare_cont Eq ma mb) with (Pos.compare ma mb).
  change (Pos.compare_cont Eq mb ma) with (Pos.compare mb ma).
  rewrite (Z.compare_antisym ea eb), (Pos.compare_antisym ma mb).
  destruct sa, sb; try discriminate; try reflexivity;
    destruct (Z.compare ea eb); cbn [CompOpp]; try discriminate; try reflexivity;
    destruct (Pos.compare ma mb); cbn [CompOpp]; try discriminate; reflexivity.
Qed.

Lemma ltb_asym (a b : float) : (a <? b) = true -> (b <? a) = false.
Proof.
  rewrite !ltb_spec. unfold SFltb. intros H.
  destruct (SFcompare (Prim2SF a) (Prim2SF b)) as [[| |]|] eqn:E; try discriminate.
  rewrite (SFcompare_Lt_Gt _ _ E). reflexivity.
Qed.

Lemma ltb_irrefl (a : float) : (a <? a) = false.
Proof.
  destruct (a <? a) eqn:E; [|reflexivity].
  pose proof (ltb_asym a a E) as H. congruence.
Qed.

(** *** The fold keeps the target whose measured distance is the smallest *)

(** Once the nearest target is kept, no other target replaces it. *)
Lemma fold_pick_stays (c1 : Target) : forall cs,
  (forall c, In c cs -> withinToleranceb c = true ->
             c = c1 \/ (dist c1 <? dist c) = true) ->
  fold_left pick cs (mkBest (pos c1) true (dist c1)) = mkBest (pos c1) true (dist c1).
Proof.
  induction cs as [|c cs IH]; intros Hmin; cbn [fold_left]; [reflexivity|].
  assert (Hpick : pick (mkBest (pos c1) true (dist c1)) c = mkBest (pos c1) true (dist c1)).
  { unfold pick. cbn [bestDist].
    destruct (dist c <=? tolerance c) eqn:Ew; cbn [andb]; [|reflexivity].
    destruct (Hmin c (or_introl eq_refl) Ew) as [-> | Hlt].
    - rewrite ltb_irrefl. reflexivity.
    - rewrite (ltb_asym _ _ Hlt). reflexivity. }
  rewrite Hpick. apply IH. intros c' Hin. apply Hmin. right. exact Hin.
Qed.

(** A target within its tolerance whose measured distance is below the best
    distance so far and below that of every other target within its
    tolerance is the one kept, wherever it is in the list. *)
Lemma fold_pick_nearest_dbl (c1 : Target) : forall cs b,
  In c1 cs -> withinToleranceb c1 = true -> (dist c1 <? bestDist b) = true ->
  (forall c, In c cs -> withinToleranceb c = true ->
             c = c1 \/ (dist c1 <? dist c) = true) ->
  fold_left pick cs b = mkBest (pos c1) true (dist c1).
Proof.
  induction cs as [|c cs IH]; intros b Hin Hw Hb Hmin; [contradiction|].
  cbn [fold_left].
  assert (Htail : forall c', In c' cs -> withinToleranceb c' = true ->
                             c' = c1 \/ (dist c1 <? dist c') = true)
    by (intros c' Hc'; apply Hmin; right; exact Hc').
  assert (Hhere : pick b c1 = mkBest (pos c1) true (dist c1)).
  { unfold pick. unfold withinToleranceb in Hw. rewrite Hw, Hb. reflexivity. }
  destruct Hin as [-> | Hin].
  - rewrite Hhere. apply fold_pick_stays. exact Htail.
  - unfold pick at 2.
    destruct (dist c <=? tolerance c) eqn:Ew; cbn [andb]; [|apply IH; assumption].
    destruct (dist c <? bestDist b) eqn:El; [|apply IH; assumption].
    destruct (Hmin c (or_introl eq_refl) Ew) as [-> | Hlt].
    + apply fold_pick_stays. exact Htail.
    + apply IH; [exact Hin | exact Hw | exact Hlt | exact Htail].
Qed.

(** The targets of a permuted object list are the same targets. *)
Lemma targetsX_perm_dbl w room tx tol objs objs' cur c :
  Permutation objs objs' ->
  In c (targetsX w room tx tol objs cur) -> In c (targetsX w room tx tol objs' cur).
Proof.
  intros Hp. unfold targetsX. rewrite !in_app_iff, !in_flat_map.
  intros [Hin | (o & Ho & Hin)]; [left; exact Hin|].
  right. exists o. split; [eapply Permutation_in; eassumption | exact Hin].
Qed.

Lemma targetsY_perm_dbl h room ty tol objs objs' cur c :
  Permutation objs objs' ->
  In c (targetsY h room ty tol objs cur) -> In c (targetsY h room ty tol objs' cur).
Proof.
  intros Hp. unfold targetsY. rewrite !in_app_iff, !in_flat_map.
  intros [Hin | (o & Ho & Hin)]; [left; exact Hin|].
  right. exists o. split; [eapply Permutation_in; eassumption | exact Hin].
Qed.

End DoubleObjectFacts.

(** ** Room snapping in doubles: the claims *)

Section DoubleRoomSnap.
Import Floats.
#[local] Set Warnings "-inexact-float".
Import Doubles Doubles.Snap Doubles.SnapTests.
Local Open Scope float_scope.







(** The same drag next to [roomA]: the X axis snaps through the second
    wall-overlap test, at distance 5. *)
Example calculateSnap_roomB_next_to_roomA :
  calculateSnap Examples.roomB [Examples.roomA; Examples.roomB] 315 0 10
  = {| SnapResult.xCm := 310; SnapResult.yCm := 0;
       SnapResult.snappedX := true; SnapResult.snappedY := true;
       SnapResult.xGuideCm := Some 300; SnapResult.yGuideCm := Some (-10) |}.
Proof. vm_compute. reflexivity. Qed.

(** X2.  [calculateSnap] reports a guide on exactly the axes it snapped,
    and the guide is an edge of one of the other rooms as the function
    computes it: the inner or outer left or right edge of a neighbour for
    [xGuideCm], its inner or outer top or bottom edge for [yGuideCm]. *)
Theorem calculateSnap_guide_is_neighbour_edge :
  forall (movingRoom : Room.t) (allRooms : list Room.t) (tx ty g : float),
    let res := calculateSnap movingRoom allRooms tx ty g in
    (if SnapResult.snappedX res
     then exists N gx, In N (othersOf movingRoom allRooms)
                       /\ SnapResult.xGuideCm res = Some gx
                       /\ In gx [Bounds.left (innerOf N); Bounds.right (innerOf N);
                                 OuterBounds.left (outerOf N g);
                                 OuterBounds.right (outerOf N g)]
     else SnapResult.xGuideCm res = None)
    /\ (if SnapResult.snappedY res
        then exists N gy, In N (othersOf movingRoom allRooms)
                          /\ SnapResult.yGuideCm res = Some gy
                          /\ In gy [Bounds.top (innerOf N); Bounds.bottom (innerOf N);
                                    OuterBounds.top (outerOf N g);
                                    OuterBounds.bottom (outerOf N g)]
        else SnapResult.yGuideCm res = None).
Proof.
  intros R allRooms tx ty g res. split.
  - change (SnapResult.snappedX res) with (snd (fst (axisX res))).
    change (SnapResult.xGuideCm res) with (snd (axisX res)).
    unfold res. rewrite DoubleSnapFacts.calculateSnap_axisX_dbl. unfold firstMatch.
    destruct (find matches (allTestsX R allRooms tx ty g)) as [c|] eqn:E; cbn [fst snd];
      [|reflexivity].
    apply find_some in E. destruct E as [Hin _].
    unfold allTestsX in Hin. apply in_flat_map in Hin. destruct Hin as (N & HN & Hin).
    exists N, (guide c). split; [exact HN|]. split; [reflexivity|].
    eapply DoubleSnapFacts.testsX_guide_edges_dbl. exact Hin.
  - change (SnapResult.snappedY res) with (snd (fst (axisY res))).
    change (SnapResult.yGuideCm res) with (snd (axisY res)).
    unfold res. rewrite DoubleSnapFacts.calculateSnap_axisY_dbl. unfold firstMatch.
    destruct (find matches (allTestsY R allRooms tx ty g)) as [c|] eqn:E; cbn [fst snd];
      [|reflexivity].
    apply find_some in E. destruct E as [Hin _].
    unfold allTestsY in Hin. apply in_flat_map in Hin. destruct Hin as (N & HN & Hin).
    exists N, (guide c). split; [exact HN|]. split; [reflexivity|].
    eapply DoubleSnapFacts.testsY_guide_edges_dbl. exact Hin.
Qed.

End DoubleRoomSnap.

(** ** Object snapping in doubles: the claim *)

Section DoubleObjectSnap.
Import Floats.
#[local] Set Warnings "-inexact-float".
Import Doubles Doubles.ObjectSnap.
Local Open Scope float_scope.

(** C4, as the code has it.  The distances are the ones the function
    measures, as doubles.  On each axis, a target that is within its
    tolerance, whose measured distance is below the initial best distance
    [toleranceCm + 1] and below the measured distance of every other target
    within its tolerance, is the one chosen: the axis snaps and the
    coordinate returned is the position of that target.  This holds for
    every order of the list of other objects. *)
Theorem calculatePlacedObjectSnap_nearest_measured_wins :
  forall (objWidthCm objHeightCm : float) (room : Room.t) (tx ty toleranceCm : float)
         (objs objs' : list PlacedObjectForSnap.t) (cur : option string),
    Permutation objs objs' ->
    let res := calculatePlacedObjectSnap objWidthCm objHeightCm room tx ty toleranceCm
                 objs' cur in
    let xs := targetsX objWidthCm room tx toleranceCm objs cur in
    let ys := targetsY objHeightCm room ty toleranceCm objs cur in
    (forall c1, In c1 xs -> (dist c1 <=? tolerance c1) = true ->
       (dist c1 <? toleranceCm + 1) = true ->
       (forall c2, In c2 xs -> (dist c2 <=? tolerance c2) = true ->
                   c2 = c1 \/ (dist c1 <? dist c2) = true) ->
       SnapResult.xCm res = pos c1 /\ SnapResult.snappedX res = true)
    /\ (forall c1, In c1 ys -> (dist c1 <=? tolerance c1) = true ->
          (dist c1 <? toleranceCm + 1) = true ->
          (forall c2, In c2 ys -> (dist c2 <=? tolerance c2) = true ->
                      c2 = c1 \/ (dist c1 <? dist c2) = true) ->
          SnapResult.yCm res = pos c1 /\ SnapResult.snappedY res = true).
Proof.
  intros w h room tx ty tol objs objs' cur Hperm res xs ys.
  assert (Hback : Permutation objs' objs) by (apply Permutation_sym; exact Hperm).
  unfold res.
  rewrite DoubleObjectFacts.calculatePlacedObjectSnap_xCm_dbl,
          DoubleObjectFacts.calculatePlacedObjectSnap_yCm_dbl,
          DoubleObjectFacts.calculatePlacedObjectSnap_snappedX_dbl,
          DoubleObjectFacts.calculatePlacedObjectSnap_snappedY_dbl.
  split.
  - intros c1 Hin Hw Hinit Hmin.
    rewrite (DoubleObjectFacts.fold_pick_nearest_dbl c1
               (targetsX w room tx tol objs' cur) (mkBest tx false (tol + 1))).
    + split; reflexivity.
    + eapply DoubleObjectFacts.targetsX_perm_dbl; eassumption.
    + exact Hw.
    + exact Hinit.
    + intros c Hc. apply Hmin. eapply DoubleObjectFacts.targetsX_perm_dbl; eassumption.
  - intros c1 Hin Hw Hinit Hmin.
    rewrite (DoubleObjectFacts.fold_pick_nearest_dbl c1
               (targetsY h room ty tol objs' cur) (mkBest ty false (tol + 1))).
    + split; reflexivity.
    + eapply DoubleObjectFacts.targetsY_perm_dbl; eassumption.
    + exact Hw.
    + exact Hinit.
    + intros c Hc. apply Hmin. eapply DoubleObjectFacts.targetsY_perm_dbl; eassumption.
Qed.

(** C4, as stated, fails when the wall tolerance passed is small.  With
    [toleranceCm = 5] the only targets within their tolerance on the X axis
    are the left edges of [obj1] (8 cm away) and [obj2] (10 cm away), both
    within the object tolerance of 15 cm; neither distance is below the
    initial best distance 5 + 1, and the function returns the target x
    unchanged, not the position of the nearer one. *)
Lemma calculatePlacedObjectSnap_nearest_fails_small_tolerance :
  let xs := targetsX 50 Examples.roomA 100 5 [Examples.obj1; Examples.obj2] None in
  let res := calculatePlacedObjectSnap 50 50 Examples.roomA 100 100 5
               [Examples.obj1; Examples.obj2] None in
  filter withinToleranceb xs = [Examples.nearX; Examples.farX]
  /\ dist Examples.nearX = 8 /\ dist Examples.farX = 10
  /\ (dist Examples.nearX <? dist Examples.farX) = true
  /\ pos Examples.nearX = 108
  /\ SnapResult.snappedX res = false
  /\ SnapResult.xCm res = 100.
Proof. cbv zeta. repeat split; vm_compute; reflexivity. Qed.

(** Two measured distances that are equal leave the choice to the order of
    the list.  A 44.2 cm wide object with target x = 121.1 has [objA]'s
    right edge (50 + 64.1) and [objB]'s left edge (172.3) both at a
    measured distance of 7: the function returns the position of the one
    it examines first. *)
Example calculatePlacedObjectSnap_equal_distances :
  SnapResult.xCm (calculatePlacedObjectSnap 44.2 50 Examples.hall 121.1 100 25
                    [Examples.objA; Examples.objB] None) = 114.09999999999999
  /\ SnapResult.xCm (calculatePlacedObjectSnap 44.2 50 Examples.hall 121.1 100 25
                       [Examples.objB; Examples.objA] None) = 128.10000000000002
  /\ abs (121.1 - (50 + 64.1)) = 7
  /\ abs (121.1 + 44.2 - 172.3) = 7.
Proof. repeat split; vm_compute; reflexivity. Qed.

Lemma calculatePlacedObjectSnap_nearest_measured_wins_witness :
  SnapResult.xCm (calculatePlacedObjectSnap 50 50 Examples.roomA 100 100 25
                    [Examples.obj2; Examples.obj1] None)
    = pos Examples.nearX
  /\ SnapResult.snappedX (calculatePlacedObjectSnap 50 50 Examples.roomA 100 100 25
                            [Examples.obj2; Examples.obj1] None) = true.
Proof.
  destruct (calculatePlacedObjectSnap_nearest_measured_wins 50 50 Examples.roomA 100 100 25
              [Examples.obj1; Examples.obj2] [Examples.obj2; Examples.obj1] None
              (perm_swap _ _ [])) as (HX & _).
  apply (HX Examples.nearX).
  - vm_compute. tauto.
  - vm_compute. reflexivity.
  - vm_compute. reflexivity.
  - intros c2 Hin Hw. vm_compute in Hin.
    repeat (destruct Hin as [<-|Hin];
            [first [left; reflexivity | right; vm_compute; reflexivity
                   | vm_compute in Hw; discriminate Hw]|]).
    contradiction.
Defined.

End DoubleObjectSnap.

(** ** The visual box of a rotated object, in doubles *)

Section DoubleVisualBounds.
Import Floats.
#[local] Set Warnings "-inexact-float".
Import Doubles.
Local Open Scope float_scope.




(** At a position and a size whose halves are whole numbers the round trip
    is exact. *)
Example visual_bounds_round_trip_whole_numbers :
  roundTrip 10 10 60 36 90 = {| StorageCoords.xCm := 10; StorageCoords.yCm := 10 |}.
Proof. vm_compute. reflexivity. Qed.

End DoubleVisualBounds.
